(** * swrender: the software renderer backend of SDL_gpu

    A shallow embedding of [src/swrender.cpp]: the rectangle clipping of the
    pixel-upload operations, the render-target binding cache, and the
    reference-counted lifetime of images, targets and the window context. *)

From Stdlib Require Import ZArith QArith Lia List String.
From stdpp Require Import gmap list.

Local Open Scope Z_scope.

(** ** C integers

    [int] is a 32-bit two's complement integer, kept as a [Z] in
    [int_min .. int_max]; every arithmetic operation writes its wrap-around
    out.  [Uint16] is a [Z] reduced modulo [2^16]. *)

Module CInt.

Definition int_min : Z := - 2 ^ 31.
Definition int_max : Z := 2 ^ 31 - 1.

Definition wrap (z : Z) : Z := (z + 2 ^ 31) mod 2 ^ 32 - 2 ^ 31.

Definition add (a b : Z) : Z := wrap (a + b).
Definition sub (a b : Z) : Z := wrap (a - b).
Definition neg (a : Z) : Z := wrap (- a).
Definition mul (a b : Z) : Z := wrap (a * b).

Definition in_range (z : Z) : Prop := int_min <= z <= int_max.

Definition to_Uint16 (z : Z) : Z := z mod 2 ^ 16.

End CInt.

(** ** C floats

    A [float] value is kept as the rational it denotes.  The cast [(int) f]
    truncates toward zero; for a value outside the range of [int] the
    language leaves the cast undefined, and the conversion instruction of
    the build delivers [INT_MIN].  The conversion of an [int] to [float]
    rounds to the nearest value with a significand of 24 bits, a tie going
    to the even significand; integers of magnitude up to [2^24] are exact. *)

Definition float : Type := Q.

Definition int_of_float (f : float) : Z :=
  let z := Z.quot (Qnum f) (Z.pos (Qden f)) in
  if (CInt.int_min <=? z) && (z <=? CInt.int_max) then z else CInt.int_min.

Definition float_of_int (z : Z) : float :=
  let a := Z.abs z in
  let dropped := Z.log2 a - 23 in
  if dropped <=? 0 then inject_Z z
  else
    let significand := Z.shiftr a dropped in
    let rest := Z.land a (Z.ones dropped) in
    let half := Z.shiftl 1 (dropped - 1) in
    let significand :=
      if (half <? rest) || ((half =? rest) && Z.odd significand)
      then significand + 1 else significand in
    inject_Z (Z.sgn z * Z.shiftl significand dropped).

(** ** Rectangles *)

Module GPU_Rect.
Record t : Type := mk { x : float; y : float; w : float; h : float }.
End GPU_Rect.

Module SDL_Rect.
Record t : Type := mk { x : Z; y : Z; w : Z; h : Z }.

(** [r.x += o], [r.y += o], [r.w -= o], [r.h -= o] *)
Definition add_x (r : t) (o : Z) : t := mk (CInt.add (x r) o) (y r) (w r) (h r).
Definition add_y (r : t) (o : Z) : t := mk (x r) (CInt.add (y r) o) (w r) (h r).
Definition sub_w (r : t) (o : Z) : t := mk (x r) (y r) (CInt.sub (w r) o) (h r).
Definition sub_h (r : t) (o : Z) : t := mk (x r) (y r) (w r) (CInt.sub (h r) o).
Definition set_w (r : t) (v : Z) : t := mk (x r) (y r) v (h r).
Definition set_h (r : t) (v : Z) : t := mk (x r) (y r) (w r) v.
End SDL_Rect.

(** The conversion at the head of every operation that takes an optional
    [GPU_Rect]: the four casts, or the full extent [{0, 0, w, h}] when the
    pointer is null. *)
Definition rect_or_full (r : option GPU_Rect.t) (full_w full_h : Z) : SDL_Rect.t :=
  match r with
  | Some r =>
      SDL_Rect.mk (int_of_float (GPU_Rect.x r)) (int_of_float (GPU_Rect.y r))
                  (int_of_float (GPU_Rect.w r)) (int_of_float (GPU_Rect.h r))
  | None => SDL_Rect.mk 0 0 full_w full_h
  end.

(** ** The blit clipper of [swrender_UpdateImage]

    The three commented blocks of the function, each as a function on the
    pair [(src, dst)]. *)

Module Clip.
Import SDL_Rect.

(** A negative origin on the x axis of [a]: both origins advance by the
    overhang, both widths shrink by it. *)
Definition trim_neg_x (a : t) (p : t * t) : t * t :=
  let '(src, dst) := p in
  if x a <? 0 then
    let overhang := CInt.neg (x a) in
    (sub_w (add_x src overhang) overhang, sub_w (add_x dst overhang) overhang)
  else (src, dst).

Definition trim_neg_y (a : t) (p : t * t) : t * t :=
  let '(src, dst) := p in
  if y a <? 0 then
    let overhang := CInt.neg (y a) in
    (sub_h (add_y src overhang) overhang, sub_h (add_y dst overhang) overhang)
  else (src, dst).

(** [a.x + a.w] beyond [bound]: both widths shrink by the overhang. *)
Definition trim_far_x (a : t) (bound : Z) (p : t * t) : t * t :=
  let '(src, dst) := p in
  if CInt.add (x a) (w a) >? bound then
    let overhang := CInt.sub (CInt.add (x a) (w a)) bound in
    (sub_w src overhang, sub_w dst overhang)
  else (src, dst).

Definition trim_far_y (a : t) (bound : Z) (p : t * t) : t * t :=
  let '(src, dst) := p in
  if CInt.add (y a) (h a) >? bound then
    let overhang := CInt.sub (CInt.add (y a) (h a)) bound in
    (sub_h src overhang, sub_h dst overhang)
  else (src, dst).

(** // clip src to source surface *)
Definition clip_src_to_surface (surface_w surface_h : Z) (p : t * t) : t * t :=
  let p := trim_neg_x (fst p) p in
  let p := trim_neg_y (fst p) p in
  let p := trim_far_x (fst p) surface_w p in
  let p := trim_far_y (fst p) surface_h p in
  p.

(** // clip dst to dest surface *)
Definition clip_dst_to_image (image_w image_h : Z) (p : t * t) : t * t :=
  let p := trim_neg_x (snd p) p in
  let p := trim_neg_y (snd p) p in
  let p := trim_far_x (snd p) image_w p in
  let p := trim_far_y (snd p) image_h p in
  p.

(** // clip dst against src *)
Definition clip_dst_against_src (p : t * t) : t * t :=
  let '(src, dst) := p in
  let dst := if w src <? w dst then set_w dst (w src) else dst in
  let dst := if h src <? h dst then set_h dst (h src) else dst in
  (src, dst).

(** The rectangles as they stand when the "anything left?" test is reached. *)
Definition before_pairing (surface_w surface_h image_w image_h : Z)
    (surface_rect image_rect : option GPU_Rect.t) : t * t :=
  let src := rect_or_full surface_rect surface_w surface_h in
  let dst := rect_or_full image_rect image_w image_h in
  clip_dst_to_image image_w image_h
    (clip_src_to_surface surface_w surface_h (src, dst)).

Definition clip (surface_w surface_h image_w image_h : Z)
    (surface_rect image_rect : option GPU_Rect.t) : t * t :=
  clip_dst_against_src
    (before_pairing surface_w surface_h image_w image_h surface_rect image_rect).

(** // anything left? *)
Definition nothing_left (dst : t) : bool := (w dst <=? 0) || (h dst <=? 0).

End Clip.

(** The clipper of [swrender_UpdateImageBytes]: only [dst] is clipped, and
    the read pointer [bytes] advances with a trimmed negative origin. *)
Module ClipBytes.
Import SDL_Rect.

Definition clip_dst_to_image (image_w image_h bytes_per_pixel bytes_per_row : Z)
    (p : t * Z) : t * Z :=
  let '(dst, bytes) := p in
  let '(dst, bytes) :=
    if x dst <? 0 then
      let overhang := CInt.neg (x dst) in
      (sub_w (add_x dst overhang) overhang, bytes + CInt.mul overhang bytes_per_pixel)
    else (dst, bytes) in
  let '(dst, bytes) :=
    if y dst <? 0 then
      let overhang := CInt.neg (y dst) in
      (sub_h (add_y dst overhang) overhang, bytes + CInt.mul overhang bytes_per_row)
    else (dst, bytes) in
  let dst :=
    if CInt.add (x dst) (w dst) >? image_w then
      sub_w dst (CInt.sub (CInt.add (x dst) (w dst)) image_w)
    else dst in
  let dst :=
    if CInt.add (y dst) (h dst) >? image_h then
      sub_h dst (CInt.sub (CInt.add (y dst) (h dst)) image_h)
    else dst in
  (dst, bytes).

Definition clip (image_w image_h bytes_per_pixel bytes_per_row : Z)
    (image_rect : option GPU_Rect.t) (bytes : Z) : t * Z :=
  clip_dst_to_image image_w image_h bytes_per_pixel bytes_per_row
    (rect_or_full image_rect image_w image_h, bytes).

End ClipBytes.

(** ** Enumerations and constants of the host headers *)

(** Modelled from the spec: the error kinds of the host's error sink
    ([SDL_gpu.h] is not part of the source file).  The spec's
    [UnsupportedOperation], [UserError] and [BackendError] are
    [GPU_ERROR_UNSUPPORTED_FUNCTION], [GPU_ERROR_USER_ERROR] and
    [GPU_ERROR_BACKEND_ERROR]. *)
Inductive GPU_ErrorEnum : Type :=
  | GPU_ERROR_NONE
  | GPU_ERROR_BACKEND_ERROR
  | GPU_ERROR_DATA_ERROR
  | GPU_ERROR_USER_ERROR
  | GPU_ERROR_UNSUPPORTED_FUNCTION
  | GPU_ERROR_NULL_ARGUMENT
  | GPU_ERROR_FILE_NOT_FOUND.

(** Modelled from the spec: the pixel format tags of the host header; the
    source file names [GPU_FORMAT_RGB] and [GPU_FORMAT_RGBA] only. *)
Inductive GPU_FormatEnum : Type :=
  | GPU_FORMAT_LUMINANCE
  | GPU_FORMAT_LUMINANCE_ALPHA
  | GPU_FORMAT_RGB
  | GPU_FORMAT_RGBA
  | GPU_FORMAT_ALPHA
  | GPU_FORMAT_RG
  | GPU_FORMAT_YCbCr422
  | GPU_FORMAT_YCbCr420P
  | GPU_FORMAT_BGR
  | GPU_FORMAT_BGRA
  | GPU_FORMAT_ABGR.

(** Modelled from the spec: filter, snap, wrap and blend tags of the host
    header, and the host's [GPU_GetBlendModeFromPreset], kept as a
    constructor. *)
Inductive GPU_FilterEnum : Type :=
  | GPU_FILTER_NEAREST | GPU_FILTER_LINEAR | GPU_FILTER_LINEAR_MIPMAP.

Inductive GPU_SnapEnum : Type :=
  | GPU_SNAP_NONE | GPU_SNAP_POSITION | GPU_SNAP_DIMENSIONS
  | GPU_SNAP_POSITION_AND_DIMENSIONS.

Inductive GPU_WrapEnum : Type :=
  | GPU_WRAP_NONE | GPU_WRAP_REPEAT | GPU_WRAP_MIRRORED.

Inductive GPU_BlendPresetEnum : Type :=
  | GPU_BLEND_NORMAL | GPU_BLEND_PREMULTIPLIED_ALPHA | GPU_BLEND_MULTIPLY
  | GPU_BLEND_ADD | GPU_BLEND_SUBTRACT.

Inductive GPU_BlendMode : Type :=
  | GPU_GetBlendModeFromPreset (preset : GPU_BlendPresetEnum).

Inductive SDL_BlendMode : Type :=
  | SDL_BLENDMODE_NONE | SDL_BLENDMODE_BLEND | SDL_BLENDMODE_ADD | SDL_BLENDMODE_MOD.

(** The two [Uint32] pixel format codes of [SDL_pixels.h] the file uses. *)
Definition SDL_PIXELFORMAT_RGB888 : Z := 0x16161804.
Definition SDL_PIXELFORMAT_RGBA8888 : Z := 0x16462004.

(** ** Memory objects

    A pointer is [option addr]: [None] is [NULL], [Some a] an address, which
    may or may not hold a live object. *)

Definition addr : Type := positive.

Module SW_CONTEXT_DATA.
Record t : Type := mk {
  sdl_renderer : option addr;
  render_target : option addr;
}.
Definition zero : t := mk None None.
Definition set_render_target (v : option addr) (d : t) : t := mk (sdl_renderer d) v.
End SW_CONTEXT_DATA.

Module SW_IMAGE_DATA.
Record t : Type := mk {
  refcount : Z;
  sdl_format : Z;
  tex : option addr;
}.
Definition zero : t := mk 0 0 None.
Definition set_refcount (v : Z) (d : t) : t := mk v (sdl_format d) (tex d).
End SW_IMAGE_DATA.

Module GPU_Context.
Record t : Type := mk {
  data : option addr;
  windowID : Z;
  window_w : Z;
  window_h : Z;
  drawable_w : Z;
  drawable_h : Z;
}.
Definition zero : t := mk None 0 0 0 0 0.
End GPU_Context.

Module GPU_Target.
Record t : Type := mk {
  context_target : option addr;
  image : option addr;
  w : Z;
  h : Z;
  using_virtual_resolution : bool;
  base_w : Z;
  base_h : Z;
  use_clip_rect : bool;
  use_color : bool;
  viewport : GPU_Rect.t;
  use_camera : bool;
  context : option addr;
  refcount : Z;
  is_alias : bool;
}.
Definition zero : t :=
  mk None None 0 0 false 0 0 false false
     (GPU_Rect.mk (0#1) (0#1) (0#1) (0#1)) false None 0 false.
Definition set_refcount (v : Z) (g : t) : t :=
  mk (context_target g) (image g) (w g) (h g) (using_virtual_resolution g)
     (base_w g) (base_h g) (use_clip_rect g) (use_color g) (viewport g)
     (use_camera g) (context g) v (is_alias g).
Definition set_context (v : option addr) (g : t) : t :=
  mk (context_target g) (image g) (w g) (h g) (using_virtual_resolution g)
     (base_w g) (base_h g) (use_clip_rect g) (use_color g) (viewport g)
     (use_camera g) v (refcount g) (is_alias g).
End GPU_Target.

Module GPU_Image.
Record t : Type := mk {
  context_target : option addr;
  target : option addr;
  w : Z;
  h : Z;
  using_virtual_resolution : bool;
  format : GPU_FormatEnum;
  num_layers : Z;
  bytes_per_pixel : Z;
  base_w : Z;
  base_h : Z;
  texture_w : Z;
  texture_h : Z;
  has_mipmaps : bool;
  anchor_x : float;
  anchor_y : float;
  color : Z * Z * Z * Z;
  use_blending : bool;
  blend_mode : GPU_BlendMode;
  filter_mode : GPU_FilterEnum;
  snap_mode : GPU_SnapEnum;
  wrap_mode_x : GPU_WrapEnum;
  wrap_mode_y : GPU_WrapEnum;
  data : option addr;
  refcount : Z;
  is_alias : bool;
}.
Definition zero : t :=
  mk None None 0 0 false GPU_FORMAT_LUMINANCE 0 0 0 0 0 0 false (0#1) (0#1)
     (0, 0, 0, 0) false (GPU_GetBlendModeFromPreset GPU_BLEND_NORMAL)
     GPU_FILTER_NEAREST GPU_SNAP_NONE GPU_WRAP_NONE GPU_WRAP_NONE None 0 false.
Definition set_target (v : option addr) (g : t) : t :=
  mk (context_target g) v (w g) (h g) (using_virtual_resolution g) (format g)
     (num_layers g) (bytes_per_pixel g) (base_w g) (base_h g) (texture_w g)
     (texture_h g) (has_mipmaps g) (anchor_x g) (anchor_y g) (color g)
     (use_blending g) (blend_mode g) (filter_mode g) (snap_mode g)
     (wrap_mode_x g) (wrap_mode_y g) (data g) (refcount g) (is_alias g).
Definition set_refcount (v : Z) (g : t) : t :=
  mk (context_target g) (target g) (w g) (h g) (using_virtual_resolution g)
     (format g) (num_layers g) (bytes_per_pixel g) (base_w g) (base_h g)
     (texture_w g) (texture_h g) (has_mipmaps g) (anchor_x g) (anchor_y g)
     (color g) (use_blending g) (blend_mode g) (filter_mode g) (snap_mode g)
     (wrap_mode_x g) (wrap_mode_y g) (data g) v (is_alias g).
Definition set_is_alias (v : bool) (g : t) : t :=
  mk (context_target g) (target g) (w g) (h g) (using_virtual_resolution g)
     (format g) (num_layers g) (bytes_per_pixel g) (base_w g) (base_h g)
     (texture_w g) (texture_h g) (has_mipmaps g) (anchor_x g) (anchor_y g)
     (color g) (use_blending g) (blend_mode g) (filter_mode g) (snap_mode g)
     (wrap_mode_x g) (wrap_mode_y g) (data g) (refcount g) v.
End GPU_Image.

(** An [SDL_Surface] handed in by the caller, with the two members of its
    [format] the file reads. *)
Module SDL_Surface.
Record t : Type := mk {
  w : Z;
  h : Z;
  format : Z;
  BytesPerPixel : Z;
  pitch : Z;
  pixels : Z;
}.
End SDL_Surface.

(** ** Calls into the collaborators, in the order they are made *)

Inductive Block : Type :=
  | BTarget | BImage | BContext | BContextData | BImageData.

Inductive Event : Type :=
  | GPU_PushErrorCode (fn : string) (code : GPU_ErrorEnum) (msg : string)
  | SDL_CreateRenderer (window : addr)
  | SDL_DestroyRenderer (sdlr : option addr)
  | SDL_CreateTexture (sdlr : option addr) (sdl_format w h : Z)
  | SDL_DestroyTexture (tex : option addr)
  | SDL_SetTextureBlendMode (tex : option addr) (mode : SDL_BlendMode)
  | SDL_SetRenderTarget (sdlr : option addr) (tex : option addr)
  | SDL_RenderCopy (sdlr : option addr) (tex : option addr) (src dst : SDL_Rect.t)
  | SDL_CreateRGBSurface (w h sdl_format : Z)
  | SDL_BlitSurface (surface : SDL_Surface.t) (src : SDL_Rect.t) (converted : SDL_Surface.t)
  | SDL_FreeSurface (surface : SDL_Surface.t)
  | SDL_UpdateTexture (tex : option addr) (dst : SDL_Rect.t) (pixels pitch : Z)
  | SDL_free (b : Block) (p : option addr).

(** ** The state

    The heap, one finite map per struct type; the live renderers and textures
    of the drawing library; the three members of the [GPU_Renderer] the file
    uses; and the calls made so far. *)

Record State : Type := mkState {
  targets : gmap addr GPU_Target.t;
  images : gmap addr GPU_Image.t;
  contexts : gmap addr GPU_Context.t;
  context_datas : gmap addr SW_CONTEXT_DATA.t;
  image_datas : gmap addr SW_IMAGE_DATA.t;
  sdl_renderers : gset addr;
  sdl_textures : gset addr;
  current_context_target : option addr;
  default_image_anchor_x : float;
  default_image_anchor_y : float;
  trace : list Event;
}.

Definition with_targets (f : gmap addr GPU_Target.t → gmap addr GPU_Target.t) (s : State) : State :=
  mkState (f (targets s)) (images s) (contexts s) (context_datas s) (image_datas s)
    (sdl_renderers s) (sdl_textures s) (current_context_target s)
    (default_image_anchor_x s) (default_image_anchor_y s) (trace s).
Definition with_images (f : gmap addr GPU_Image.t → gmap addr GPU_Image.t) (s : State) : State :=
  mkState (targets s) (f (images s)) (contexts s) (context_datas s) (image_datas s)
    (sdl_renderers s) (sdl_textures s) (current_context_target s)
    (default_image_anchor_x s) (default_image_anchor_y s) (trace s).
Definition with_contexts (f : gmap addr GPU_Context.t → gmap addr GPU_Context.t) (s : State) : State :=
  mkState (targets s) (images s) (f (contexts s)) (context_datas s) (image_datas s)
    (sdl_renderers s) (sdl_textures s) (current_context_target s)
    (default_image_anchor_x s) (default_image_anchor_y s) (trace s).
Definition with_context_datas (f : gmap addr SW_CONTEXT_DATA.t → gmap addr SW_CONTEXT_DATA.t) (s : State) : State :=
  mkState (targets s) (images s) (contexts s) (f (context_datas s)) (image_datas s)
    (sdl_renderers s) (sdl_textures s) (current_context_target s)
    (default_image_anchor_x s) (default_image_anchor_y s) (trace s).
Definition with_image_datas (f : gmap addr SW_IMAGE_DATA.t → gmap addr SW_IMAGE_DATA.t) (s : State) : State :=
  mkState (targets s) (images s) (contexts s) (context_datas s) (f (image_datas s))
    (sdl_renderers s) (sdl_textures s) (current_context_target s)
    (default_image_anchor_x s) (default_image_anchor_y s) (trace s).
Definition with_sdl_renderers (f : gset addr → gset addr) (s : State) : State :=
  mkState (targets s) (images s) (contexts s) (context_datas s) (image_datas s)
    (f (sdl_renderers s)) (sdl_textures s) (current_context_target s)
    (default_image_anchor_x s) (default_image_anchor_y s) (trace s).
Definition with_sdl_textures (f : gset addr → gset addr) (s : State) : State :=
  mkState (targets s) (images s) (contexts s) (context_datas s) (image_datas s)
    (sdl_renderers s) (f (sdl_textures s)) (current_context_target s)
    (default_image_anchor_x s) (default_image_anchor_y s) (trace s).
Definition with_current_context_target (v : option addr) (s : State) : State :=
  mkState (targets s) (images s) (contexts s) (context_datas s) (image_datas s)
    (sdl_renderers s) (sdl_textures s) v
    (default_image_anchor_x s) (default_image_anchor_y s) (trace s).
Definition with_trace (f : list Event → list Event) (s : State) : State :=
  mkState (targets s) (images s) (contexts s) (context_datas s) (image_datas s)
    (sdl_renderers s) (sdl_textures s) (current_context_target s)
    (default_image_anchor_x s) (default_image_anchor_y s) (f (trace s)).

(** ** The monad of the operations

    An operation runs from a state to a value and a state, or stops at a
    [Fault]: a null or dangling pointer dereferenced, or a block released
    twice.  The state at the fault is kept, with the calls made up to it. *)

Inductive Result (A : Type) : Type :=
  | Ok (a : A) (s : State)
  | Fault (s : State).
Arguments Ok {A} a s.
Arguments Fault {A} s.

Definition M (A : Type) : Type := State → Result A.

#[global] Instance M_ret : MRet M := λ A a s, Ok a s.
#[global] Instance M_bind : MBind M := λ A B f m s,
  match m s with
  | Ok a s' => f a s'
  | Fault s' => Fault s'
  end.

Definition fault {A : Type} : M A := λ s, Fault s.
Definition get_state : M State := λ s, Ok s s.
Definition update (f : State → State) : M unit := λ s, Ok tt (f s).
Definition emit (e : Event) : M unit := update (with_trace (λ tr, tr ++ [e])).

Definition final_state {A : Type} (r : Result A) : State :=
  match r with Ok _ s => s | Fault s => s end.

(** Typed access to one of the heap's maps. *)
Section Access.
Context {T : Type}.
Variable get : State → gmap addr T.
Variable upd : (gmap addr T → gmap addr T) → State → State.

(** [*p] read *)
Definition deref (p : option addr) : M T := λ s,
  match p with
  | Some a => match get s !! a with Some v => Ok v s | None => Fault s end
  | None => Fault s
  end.

(** [*p = f ( *p )] *)
Definition modify (p : option addr) (f : T → T) : M unit :=
  v ← deref p;
  match p with
  | Some a => update (upd (insert a (f v)))
  | None => fault
  end.

(** [SDL_malloc]: the block at a fresh address when the allocation
    succeeds, [NULL] otherwise.  The contents of the block are
    indeterminate until assigned; the model fills it with [zero]. *)
Definition malloc (zero : T) (succeeds : bool) : M (option addr) := λ s,
  if succeeds then
    let a := fresh (dom (get s)) in
    Ok (Some a) (upd (insert a zero) s)
  else Ok None s.

(** [SDL_free]: nothing for [NULL], the block released otherwise. *)
Definition free (b : Block) (p : option addr) : M unit :=
  match p with
  | Some a =>
      _ ← deref p;
      update (upd (delete a));;
      emit (SDL_free b p)
  | None => emit (SDL_free b p)
  end.
End Access.

Definition deref_target := deref targets.
Definition deref_image := deref images.
Definition deref_context := deref contexts.
Definition deref_context_data := deref context_datas.
Definition deref_image_data := deref image_datas.

Definition modify_target := modify targets with_targets.
Definition modify_image := modify images with_images.
Definition modify_context_data := modify context_datas with_context_datas.
Definition modify_image_data := modify image_datas with_image_datas.

Definition malloc_target := malloc targets with_targets GPU_Target.zero.
Definition malloc_image := malloc images with_images GPU_Image.zero.
Definition malloc_context := malloc contexts with_contexts GPU_Context.zero.
Definition malloc_context_data := malloc context_datas with_context_datas SW_CONTEXT_DATA.zero.
Definition malloc_image_data := malloc image_datas with_image_datas SW_IMAGE_DATA.zero.

Definition free_target := free targets with_targets BTarget.
Definition free_image := free images with_images BImage.
Definition free_context := free contexts with_contexts BContext.
Definition free_context_data := free context_datas with_context_datas BContextData.
Definition free_image_data := free image_datas with_image_datas BImageData.

(** Calls into the drawing library that create or destroy one of its
    resources; whether a creation succeeds is the caller's parameter. *)
Definition call_SDL_CreateRenderer (window : addr) (succeeds : bool) : M (option addr) :=
  emit (SDL_CreateRenderer window);;
  if succeeds then
    s ← get_state;
    let r := fresh (sdl_renderers s) in
    update (with_sdl_renderers (λ rs, {[r]} ∪ rs));;
    mret (Some r)
  else mret None.

Definition call_SDL_DestroyRenderer (sdlr : option addr) : M unit :=
  emit (SDL_DestroyRenderer sdlr);;
  match sdlr with
  | Some r => update (with_sdl_renderers (λ rs, rs ∖ {[r]}))
  | None => mret tt
  end.

Definition call_SDL_CreateTexture (sdlr : option addr) (sdl_format w h : Z)
    (succeeds : bool) : M (option addr) :=
  emit (SDL_CreateTexture sdlr sdl_format w h);;
  if succeeds then
    s ← get_state;
    let t := fresh (sdl_textures s) in
    update (with_sdl_textures (λ ts, {[t]} ∪ ts));;
    mret (Some t)
  else mret None.

Definition call_SDL_DestroyTexture (tex : option addr) : M unit :=
  emit (SDL_DestroyTexture tex);;
  match tex with
  | Some t => update (with_sdl_textures (λ ts, ts ∖ {[t]}))
  | None => mret tt
  end.

(** ** The accessors at the head of the file *)

Definition CONTEXT_DATA (context : option addr) : M (option addr) :=
  match context with
  | Some _ => c ← deref_context context; mret (GPU_Context.data c)
  | None => mret None
  end.

Definition IMAGE_DATA (image : option addr) : M (option addr) :=
  match image with
  | Some _ => i ← deref_image image; mret (GPU_Image.data i)
  | None => mret None
  end.

Definition CONTEXT_of_target (target : option addr) : M (option addr) :=
  match target with
  | Some _ =>
      t ← deref_target target;
      ct ← deref_target (GPU_Target.context_target t);
      mret (GPU_Target.context ct)
  | None => mret None
  end.

Definition CONTEXT_of_image (image : option addr) : M (option addr) :=
  match image with
  | Some _ =>
      i ← deref_image image;
      ct ← deref_target (GPU_Image.context_target i);
      mret (GPU_Target.context ct)
  | None => mret None
  end.

Definition SDL_RENDERER (context : option addr) : M (option addr) :=
  match context with
  | Some _ =>
      d ← CONTEXT_DATA context;
      cd ← deref_context_data d;
      mret (SW_CONTEXT_DATA.sdl_renderer cd)
  | None => mret None
  end.

Definition SDL_RENDERER_of_target (target : option addr) : M (option addr) :=
  c ← CONTEXT_of_target target; SDL_RENDERER c.

Definition SDL_RENDERER_of_image (image : option addr) : M (option addr) :=
  c ← CONTEXT_of_image image; SDL_RENDERER c.

(** [CONTEXT_DATA(target->context_target->context)], the cache record of the
    Context that owns [target]. *)
Definition owner_data (target : option addr) : M (option addr) :=
  t ← deref_target target;
  ct ← deref_target (GPU_Target.context_target t);
  CONTEXT_DATA (GPU_Target.context ct).

(** ** setRenderTarget *)

Definition setRenderTarget (target : option addr) : M (option addr) :=
  sdlr ← SDL_RENDERER_of_target target;
  d ← owner_data target;
  cd ← deref_context_data d;
  (if decide (SW_CONTEXT_DATA.render_target cd ≠ target) then
     d ← owner_data target;
     modify_context_data d (SW_CONTEXT_DATA.set_render_target target);;
     t ← deref_target target;
     match GPU_Target.image t with
     | Some _ =>
         idp ← IMAGE_DATA (GPU_Target.image t);
         id ← deref_image_data idp;
         emit (SDL_SetRenderTarget sdlr (SW_IMAGE_DATA.tex id))
     | None => emit (SDL_SetRenderTarget sdlr None)
     end
   else mret tt);;
  mret sdlr.

(** ** swrender_CreateTargetFromWindow

    [window] is what [SDL_GetWindowFromID(windowID)] returns, [sdlr_ok]
    whether [SDL_CreateRenderer] succeeds, [ww], [hh] what
    [SDL_GetRendererOutputSize] reports, and the three [_ok] flags whether
    each [SDL_malloc] succeeds. *)

Definition swrender_CreateTargetFromWindow
    (window : option addr) (sdlr_ok : bool) (ww hh : Z)
    (target_ok context_ok context_data_ok : bool)
    (windowID : Z) (target : option addr) : M (option addr) :=
  match target with
  | Some _ =>
      emit (GPU_PushErrorCode "GPU_CreateTargetFromWindow"
              GPU_ERROR_UNSUPPORTED_FUNCTION "reinitializing target not supported");;
      mret None
  | None =>
  s ← get_state;
  match current_context_target s with
  | Some _ =>
      emit (GPU_PushErrorCode "GPU_CreateTargetFromWindow"
              GPU_ERROR_UNSUPPORTED_FUNCTION "multiple windows not supported");;
      mret None
  | None =>
  match window with
  | None =>
      emit (GPU_PushErrorCode "GPU_CreateTargetFromWindow"
              GPU_ERROR_BACKEND_ERROR "Failed to acquire the window from the given ID.");;
      mret None
  | Some win =>
  sdlr ← call_SDL_CreateRenderer win sdlr_ok;
  match sdlr with
  | None =>
      emit (GPU_PushErrorCode "GPU_CreateTargetFromWindow"
              GPU_ERROR_BACKEND_ERROR "Failed to initialize the SDL renderer: %s");;
      mret None
  | Some _ =>
  target ← malloc_target target_ok;
  context ← malloc_context context_ok;
  context_data ← malloc_context_data context_data_ok;
  match target, context, context_data with
  | Some _, Some _, Some _ =>
      modify contexts with_contexts context (λ _,
        GPU_Context.mk context_data windowID ww hh ww hh);;
      modify_context_data context_data (λ _, SW_CONTEXT_DATA.mk sdlr target);;
      modify_target target (λ _,
        GPU_Target.mk target None
          (CInt.to_Uint16 ww) (CInt.to_Uint16 hh) false
          (CInt.to_Uint16 ww) (CInt.to_Uint16 hh) false false
          (GPU_Rect.mk (0#1) (0#1) (float_of_int ww) (float_of_int hh))
          false context 1 false);;
      update (with_current_context_target target);;
      mret target
  | _, _, _ =>
      free_target target;;
      free_context context;;
      free_context_data context_data;;
      mret None
  end end end end end.

(** ** swrender_CreateImage

    [image_ok], [image_data_ok]: whether each [SDL_malloc] succeeds;
    [tex_ok]: whether [SDL_CreateTexture] does. *)

Definition sdl_format_of (format : GPU_FormatEnum) : option (Z * Z * Z) :=
  match format with
  | GPU_FORMAT_RGB => Some (SDL_PIXELFORMAT_RGB888, 3, 4)
  | GPU_FORMAT_RGBA => Some (SDL_PIXELFORMAT_RGBA8888, 4, 4)
  | _ => None
  end.

Definition swrender_CreateImage (image_ok image_data_ok tex_ok : bool)
    (w h : Z) (format : GPU_FormatEnum) : M (option addr) :=
  s ← get_state;
  match current_context_target s with
  | None =>
      emit (GPU_PushErrorCode "GPU_CreateImage" GPU_ERROR_USER_ERROR "No current context");;
      mret None
  | Some _ =>
  cct ← deref_target (current_context_target s);
  let context := GPU_Target.context cct in
  image ← malloc_image image_ok;
  image_data ← malloc_image_data image_data_ok;
  match image, image_data with
  | Some _, Some _ =>
      match sdl_format_of format with
      | None =>
          emit (GPU_PushErrorCode "GPU_CreateImage" GPU_ERROR_BACKEND_ERROR "Unsupported format");;
          free_image image;;
          free_image_data image_data;;
          mret None
      | Some (sdl_format, num_layers, bytes_per_pixel) =>
          sdlr ← SDL_RENDERER context;
          tex ← call_SDL_CreateTexture sdlr sdl_format w h tex_ok;
          match tex with
          | None =>
              free_image image;;
              free_image_data image_data;;
              emit (GPU_PushErrorCode "GPU_CreateImage" GPU_ERROR_BACKEND_ERROR
                      "SDL_CreateTexture failed: %s");;
              mret None
          | Some _ =>
              s ← get_state;
              modify_image_data image_data (λ _, SW_IMAGE_DATA.mk 1 sdl_format tex);;
              emit (SDL_SetTextureBlendMode tex SDL_BLENDMODE_BLEND);;
              modify_image image (λ _,
                GPU_Image.mk (current_context_target s) None w h false format
                  num_layers bytes_per_pixel w h w h false
                  (default_image_anchor_x s) (default_image_anchor_y s)
                  (255, 255, 255, 255) true
                  (GPU_GetBlendModeFromPreset GPU_BLEND_NORMAL)
                  GPU_FILTER_LINEAR GPU_SNAP_POSITION_AND_DIMENSIONS
                  GPU_WRAP_NONE GPU_WRAP_NONE image_data 1 false);;
              mret image
          end
      end
  | _, _ =>
      free_image image;;
      free_image_data image_data;;
      mret None
  end end.

(** ** swrender_CreateAliasImage

    [result_ok]: whether the [SDL_malloc] succeeds.  The result of the
    allocation is written through without a test. *)

Definition swrender_CreateAliasImage (result_ok : bool) (image : option addr)
    : M (option addr) :=
  match image with
  | None => mret None
  | Some _ =>
      result ← malloc_image result_ok;
      i ← deref_image image;
      modify_image result (λ _, i);;
      idp ← IMAGE_DATA image;
      modify_image_data idp
        (λ d, SW_IMAGE_DATA.set_refcount (CInt.add (SW_IMAGE_DATA.refcount d) 1) d);;
      modify_image result (GPU_Image.set_refcount 1);;
      modify_image result (GPU_Image.set_is_alias true);;
      mret result
  end.

(** ** swrender_UpdateImage

    [converted] is what [SDL_CreateRGBSurface] returns when the surface has
    to be converted to the texture's format. *)

Definition swrender_UpdateImage (converted : option SDL_Surface.t)
    (image : option addr) (image_rect : option GPU_Rect.t)
    (surface : SDL_Surface.t) (surface_rect : option GPU_Rect.t) : M unit :=
  i ← deref_image image;
  let '(src, dst) :=
    Clip.clip (SDL_Surface.w surface) (SDL_Surface.h surface)
              (GPU_Image.w i) (GPU_Image.h i) surface_rect image_rect in
  if Clip.nothing_left dst then mret tt
  else
    idp ← IMAGE_DATA image;
    image_data ← deref_image_data idp;
    if decide (SW_IMAGE_DATA.sdl_format image_data ≠ SDL_Surface.format surface) then
      emit (SDL_CreateRGBSurface (SDL_Rect.w src) (SDL_Rect.h src)
              (SW_IMAGE_DATA.sdl_format image_data));;
      match converted with
      | None => mret tt
      | Some c =>
          emit (SDL_BlitSurface surface src c);;
          let src := SDL_Rect.mk 0 0 (SDL_Surface.w c) (SDL_Surface.h c) in
          let surface := c in
          let pixels :=
            SDL_Surface.pixels surface
            + CInt.mul (SDL_Surface.BytesPerPixel surface) (SDL_Rect.x src)
            + CInt.mul (SDL_Surface.pitch surface) (SDL_Rect.y src) in
          emit (SDL_UpdateTexture (SW_IMAGE_DATA.tex image_data) dst pixels
                  (SDL_Surface.pitch surface));;
          emit (SDL_FreeSurface c)
      end
    else
      let pixels :=
        SDL_Surface.pixels surface
        + CInt.mul (SDL_Surface.BytesPerPixel surface) (SDL_Rect.x src)
        + CInt.mul (SDL_Surface.pitch surface) (SDL_Rect.y src) in
      emit (SDL_UpdateTexture (SW_IMAGE_DATA.tex image_data) dst pixels
              (SDL_Surface.pitch surface)).

(** ** swrender_UpdateImageBytes *)

Definition swrender_UpdateImageBytes
    (image : option addr) (image_rect : option GPU_Rect.t)
    (bytes : Z) (bytes_per_row : Z) : M unit :=
  idp ← IMAGE_DATA image;
  i ← deref_image image;
  let '(dst, bytes) :=
    ClipBytes.clip (GPU_Image.w i) (GPU_Image.h i) (GPU_Image.bytes_per_pixel i)
                   bytes_per_row image_rect bytes in
  if Clip.nothing_left dst then mret tt
  else
    image_data ← deref_image_data idp;
    emit (SDL_UpdateTexture (SW_IMAGE_DATA.tex image_data) dst bytes bytes_per_row).

(** ** swrender_FreeTarget *)

Definition swrender_FreeTarget (target : option addr) : M unit :=
  match target with
  | None => mret tt
  | Some _ =>
  modify_target target
    (λ t, GPU_Target.set_refcount (CInt.sub (GPU_Target.refcount t) 1) t);;
  t ← deref_target target;
  if GPU_Target.refcount t >? 0 then mret tt
  else
    (if negb (GPU_Target.is_alias t) && bool_decide (GPU_Target.image t ≠ None)
     then modify_image (GPU_Target.image t) (GPU_Image.set_target None)
     else mret tt);;
    match GPU_Target.context t with
    | Some _ =>
        (* tear down the renderer *)
        sdlr ← SDL_RENDERER (GPU_Target.context t);
        call_SDL_DestroyRenderer sdlr;;
        c ← deref_context (GPU_Target.context t);
        free_context_data (GPU_Context.data c);;
        free_context (GPU_Target.context t);;
        modify_target target (GPU_Target.set_context None);;
        s ← get_state;
        if decide (current_context_target s = target)
        then update (with_current_context_target None)
        else mret tt
    | None =>
        d ← owner_data target;
        cd ← deref_context_data d;
        if decide (SW_CONTEXT_DATA.render_target cd = target)
        then _ ← setRenderTarget (GPU_Target.context_target t); mret tt
        else mret tt
    end;;
    free_target target
  end.

(** ** swrender_FreeImage *)

Definition swrender_FreeImage (image : option addr) : M unit :=
  match image with
  | None => mret tt
  | Some _ =>
  modify_image image
    (λ i, GPU_Image.set_refcount (CInt.sub (GPU_Image.refcount i) 1) i);;
  i ← deref_image image;
  if GPU_Image.refcount i >? 0 then mret tt
  else
    (* delete the attached target first *)
    match GPU_Image.target i with
    | Some _ =>
        modify_image image (GPU_Image.set_target None);;
        swrender_FreeTarget (GPU_Image.target i)
    | None => mret tt
    end;;
    (* does the renderer data need to be freed too? *)
    idp ← IMAGE_DATA image;
    modify_image_data idp
      (λ d, SW_IMAGE_DATA.set_refcount (CInt.sub (SW_IMAGE_DATA.refcount d) 1) d);;
    image_data ← deref_image_data idp;
    (if SW_IMAGE_DATA.refcount image_data <=? 0 then
       call_SDL_DestroyTexture (SW_IMAGE_DATA.tex image_data);;
       free_image_data idp
     else mret tt);;
    free_image image
  end.

(** ** swrender_LoadTarget

    [target_ok]: whether the [SDL_malloc] succeeds. *)

Definition swrender_LoadTarget (target_ok : bool) (image : option addr)
    : M (option addr) :=
  match image with
  | None => mret None
  | Some _ =>
  i ← deref_image image;
  match GPU_Image.target i with
  | Some _ =>
      modify_target (GPU_Image.target i)
        (λ t, GPU_Target.set_refcount (CInt.add (GPU_Target.refcount t) 1) t);;
      i ← deref_image image;
      mret (GPU_Image.target i)
  | None =>
      target ← malloc_target target_ok;
      match target with
      | None => mret target
      | Some _ =>
          modify_target target (λ _,
            GPU_Target.mk (GPU_Image.context_target i) image
              (GPU_Image.w i) (GPU_Image.h i) false
              (GPU_Image.w i) (GPU_Image.h i) false false
              (GPU_Rect.mk (0#1) (0#1) (float_of_int (GPU_Image.w i))
                           (float_of_int (GPU_Image.h i)))
              false None 1 false);;
          modify_image image (GPU_Image.set_target target);;
          mret target
      end
  end end.

(** ** swrender_Blit

    [(int)x - src.w * image->anchor_x] is computed in [float] and cast to
    [int]: the product and the difference are the exact results rounded to
    a float by [round], which is left open. *)

Definition swrender_Blit (round : Q → float) (image : option addr)
    (src_rect : option GPU_Rect.t) (target : option addr) (x y : float) : M unit :=
  i ← deref_image image;
  let src := rect_or_full src_rect (GPU_Image.w i) (GPU_Image.h i) in
  let dst :=
    SDL_Rect.mk
      (int_of_float
         (round (float_of_int (int_of_float x)
                 - round (float_of_int (SDL_Rect.w src) * GPU_Image.anchor_x i))%Q))
      (int_of_float
         (round (float_of_int (int_of_float y)
                 - round (float_of_int (SDL_Rect.h src) * GPU_Image.anchor_y i))%Q))
      (SDL_Rect.w src) (SDL_Rect.h src) in
  sdlr ← setRenderTarget target;
  idp ← IMAGE_DATA image;
  image_data ← deref_image_data idp;
  emit (SDL_RenderCopy sdlr (SW_IMAGE_DATA.tex image_data) src dst).

(** ** swrender_MakeCurrent, swrender_Quit *)

Definition swrender_MakeCurrent (target : option addr) : M unit :=
  match target with
  | None => mret tt
  | Some _ =>
      t ← deref_target target;
      match GPU_Target.context t with
      | None => mret tt
      | Some _ => update (with_current_context_target target)
      end
  end.

Definition swrender_Quit : M unit :=
  s ← get_state;
  swrender_FreeTarget (current_context_target s);;
  update (with_current_context_target None).

(** ** swrender_CreateRenderer: the members of the fresh renderer *)

Definition swrender_CreateRenderer : State :=
  mkState ∅ ∅ ∅ ∅ ∅ ∅ ∅ None (1#2) (1#2) [].

(** ** States used as concrete inputs *)

(** A renderer with its window target: target 1, context 1, renderer 1. *)
Definition window_state : State :=
  final_state
    (swrender_CreateTargetFromWindow (Some 7%positive) true 640 480 true true true
       1 None swrender_CreateRenderer).

(** ... and one RGBA image of the given size: image 1, texture 1. *)
Definition image_state (w h : Z) : State :=
  final_state (swrender_CreateImage true true true w h GPU_FORMAT_RGBA window_state).

(** ... and the image's derived target: target 2. *)
Definition target_state (w h : Z) : State :=
  final_state (swrender_LoadTarget true (Some 1%positive) (image_state w h)).

(** How often the drawing library was told to switch its destination. *)
Definition is_SetRenderTarget (e : Event) : bool :=
  match e with SDL_SetRenderTarget _ _ => true | _ => false end.

Definition set_destination_calls (tr : list Event) : nat :=
  length (filter (λ e, is_SetRenderTarget e = true) tr).

(** A rectangle and a bound whose coordinates stay far from the limits of
    [int]: every sum and difference the clipper forms is then exact. *)
Definition small (z : Z) : Prop := - 2 ^ 28 <= z <= 2 ^ 28.

Definition small_rect (r : SDL_Rect.t) : Prop :=
  small (SDL_Rect.x r) ∧ small (SDL_Rect.y r)
  ∧ small (SDL_Rect.w r) ∧ small (SDL_Rect.h r).

(** A rectangle that has no point in common with the area [{0, 0, w, h}]:
    it starts at or beyond the right or the bottom edge, or it ends at or
    before the left or the top edge. *)
Definition fully_outside (r : SDL_Rect.t) (w h : Z) : Prop :=
  w <= SDL_Rect.x r ∨ h <= SDL_Rect.y r
  ∨ SDL_Rect.x r + SDL_Rect.w r <= 0 ∨ SDL_Rect.y r + SDL_Rect.h r <= 0.

(** ** Predicates and reference states of the theorems *)

(** The horizontal half of a pair of rectangles: source x and w, then
    destination x and w. *)
Definition x_axis (p : SDL_Rect.t * SDL_Rect.t) : Z * Z * Z * Z :=
  (SDL_Rect.x (fst p), SDL_Rect.w (fst p), SDL_Rect.x (snd p), SDL_Rect.w (snd p)).

(** [owner_cache s T d cd]: following [T]'s [context_target], its [context]
    and that Context's [data] in the heap of [s] arrives at the block [d],
    which holds [cd]. *)
Definition owner_cache (s : State) (T : addr) (d : addr) (cd : SW_CONTEXT_DATA.t) : Prop :=
  ∃ t W wt c cv,
    targets s !! T = Some t
    ∧ GPU_Target.context_target t = Some W
    ∧ targets s !! W = Some wt
    ∧ GPU_Target.context wt = Some c
    ∧ contexts s !! c = Some cv
    ∧ GPU_Context.data cv = Some d
    ∧ context_datas s !! d = Some cd.

(** The state after the cache record [d] has been pointed at [T]. *)
Definition rebind (T d : addr) (cd : SW_CONTEXT_DATA.t) (s : State) : State :=
  with_context_datas (insert d (SW_CONTEXT_DATA.set_render_target (Some T) cd)) s.

(** The state after one more call into a collaborator. *)
Definition log (e : Event) (s : State) : State :=
  with_trace (λ tr, tr ++ [e]) s.

(** [T] is the cached destination of the Context that owns it. *)
Definition bound (s : State) (T : addr) : Prop :=
  ∃ d cd, owner_cache s T d cd ∧ SW_CONTEXT_DATA.render_target cd = Some T.

(** The state after [swrender_CreateAliasImage] on image [I]: the copy at
    [A], the shared record counted once more. *)
Definition aliased (I A : addr) (i : GPU_Image.t) (d : addr) (idv : SW_IMAGE_DATA.t)
    (s : State) : State :=
  with_images
    (insert A (GPU_Image.set_is_alias true (GPU_Image.set_refcount 1 i)))
    (with_image_datas
       (insert d (SW_IMAGE_DATA.set_refcount (CInt.add (SW_IMAGE_DATA.refcount idv) 1) idv))
       s).

(** The state after the last handle to a still shared texture is freed. *)
Definition image_freed (a d : addr) (idv : SW_IMAGE_DATA.t) (s : State) : State :=
  log (SDL_free BImage (Some a))
    (with_images (delete a)
       (with_image_datas
          (insert d (SW_IMAGE_DATA.set_refcount
                       (CInt.sub (SW_IMAGE_DATA.refcount idv) 1) idv))
          s)).

(** The state after the last handle to the texture is freed. *)
Definition image_destroyed (a d : addr) (idv : SW_IMAGE_DATA.t) (s : State) : State :=
  log (SDL_free BImage (Some a))
    (with_images (delete a)
       (log (SDL_free BImageData (Some d))
          (with_image_datas (delete d)
             (match SW_IMAGE_DATA.tex idv with
              | Some t => with_sdl_textures (λ ts, ts ∖ {[t]})
              | None => id
              end
                (log (SDL_DestroyTexture (SW_IMAGE_DATA.tex idv)) s))))).

(** The target [swrender_LoadTarget] builds for image [I]. *)
Definition derived_target (I : addr) (i : GPU_Image.t) : GPU_Target.t :=
  GPU_Target.mk (GPU_Image.context_target i) (Some I)
    (GPU_Image.w i) (GPU_Image.h i) false (GPU_Image.w i) (GPU_Image.h i)
    false false
    (GPU_Rect.mk (0#1) (0#1) (float_of_int (GPU_Image.w i))
                 (float_of_int (GPU_Image.h i)))
    false None 1 false.

Definition loaded (I T : addr) (i : GPU_Image.t) (s : State) : State :=
  with_images (insert I (GPU_Image.set_target (Some T) i))
    (with_targets (insert T (derived_target I i)) s).

(** The heap once an offscreen target [T] of image [I] is gone. *)
Definition target_released (T I : addr) (i : GPU_Image.t) (s : State) : State :=
  with_targets (delete T) (with_images (insert I (GPU_Image.set_target None i)) s).

(** The conditions under which [swrender_CreateImage] reaches its
    allocations: a current window target with its Context and renderer. *)
Definition has_context (s : State) (sdlr : option addr) : Prop :=
  ∃ W wt c cv dd cd,
    current_context_target s = Some W
    ∧ targets s !! W = Some wt
    ∧ GPU_Target.context wt = Some c
    ∧ contexts s !! c = Some cv
    ∧ GPU_Context.data cv = Some dd
    ∧ context_datas s !! dd = Some cd
    ∧ SW_CONTEXT_DATA.sdl_renderer cd = sdlr.

(** The image [swrender_CreateImage] initializes. *)
Definition created_image (s : State) (w h : Z) (format : GPU_FormatEnum)
    (sdl_format num_layers bytes_per_pixel : Z) (data : addr) : GPU_Image.t :=
  GPU_Image.mk (current_context_target s) None w h false format
    num_layers bytes_per_pixel w h w h false
    (default_image_anchor_x s) (default_image_anchor_y s)
    (255, 255, 255, 255) true
    (GPU_GetBlendModeFromPreset GPU_BLEND_NORMAL)
    GPU_FILTER_LINEAR GPU_SNAP_POSITION_AND_DIMENSIONS
    GPU_WRAP_NONE GPU_WRAP_NONE (Some data) 1 false.

(** No cache record holds the address of a target that is not live. *)
Definition cache_live (s : State) : Prop :=
  ∀ d cd t,
    context_datas s !! d = Some cd → SW_CONTEXT_DATA.render_target cd = Some t →
    is_Some (targets s !! t).

(** A cache record holds only targets of the Context it belongs to: the
    only writer of [render_target] is [setRenderTarget], on the record its
    argument leads to. *)
Definition cache_owned (s : State) : Prop :=
  ∀ d cd t,
    context_datas s !! d = Some cd → SW_CONTEXT_DATA.render_target cd = Some t →
    owner_cache s t d cd.

(** The shape the head of the file describes, at target [T]: a target with a
    Context is its own [context_target]; the [context_target] of any other
    target is such a window target. *)
Definition window_shape (s : State) (T : addr) : Prop :=
  ∀ tv, targets s !! T = Some tv →
    match GPU_Target.context tv with
    | Some _ => GPU_Target.context_target tv = Some T
    | None =>
        ∀ W wt, GPU_Target.context_target tv = Some W →
          targets s !! W = Some wt → GPU_Target.context_target wt = Some W
    end.

(** [target_state] after one blit of the image on target 2, which is then
    the cached destination.  The state does not depend on the rounding. *)
Definition bound_state (w h : Z) : State :=
  final_state
    (swrender_Blit (λ q, q) (Some 1%positive) None (Some 2%positive) (0#1) (0#1)
       (target_state w h)).

Definition target_at (s : State) (a : addr) : GPU_Target.t :=
  default GPU_Target.zero (targets s !! a).

Definition image_at (s : State) (a : addr) : GPU_Image.t :=
  default GPU_Image.zero (images s !! a).

Definition context_at (s : State) (a : addr) : GPU_Context.t :=
  default GPU_Context.zero (contexts s !! a).

Definition context_data_at (s : State) (a : addr) : SW_CONTEXT_DATA.t :=
  default SW_CONTEXT_DATA.zero (context_datas s !! a).

Definition image_data_at (s : State) (a : addr) : SW_IMAGE_DATA.t :=
  default SW_IMAGE_DATA.zero (image_datas s !! a).

(** Two heaps whose images differ at most in their [target] members. *)
Definition images_agree (s s' : State) : Prop :=
  ∀ a, (GPU_Image.set_target None <$> (images s' !! a))
       = (GPU_Image.set_target None <$> (images s !! a)).

(** What a call leaves alone when it destroys no texture. *)
Definition textures_kept (s s' : State) : Prop :=
  image_datas s' = image_datas s ∧ sdl_textures s' = sdl_textures s
  ∧ images_agree s s'.

(** The heap [s'] once the last handle [a] of an image of [s] is freed:
    the struct is gone, and the shared record [d] is counted once less, or
    gone with its texture. *)
Definition after_last_handle (a d : addr) (idv : SW_IMAGE_DATA.t) (s s' : State) : Prop :=
  images s' !! a = None
  ∧ (∀ b, b ≠ a →
       (GPU_Image.set_target None <$> (images s' !! b))
       = (GPU_Image.set_target None <$> (images s !! b)))
  ∧ if CInt.sub (SW_IMAGE_DATA.refcount idv) 1 <=? 0
    then image_datas s' = delete d (image_datas s)
         ∧ sdl_textures s'
           = match SW_IMAGE_DATA.tex idv with
             | Some t => sdl_textures s ∖ {[t]}
             | None => sdl_textures s
             end
    else image_datas s'
         = <[d := SW_IMAGE_DATA.set_refcount
                    (CInt.sub (SW_IMAGE_DATA.refcount idv) 1) idv]> (image_datas s)
         ∧ sdl_textures s' = sdl_textures s.

(** ** One axis of the clipper

    The blocks of the clipper work on the two axes independently.  On one
    axis a pair of rectangles is four numbers: source origin and extent,
    destination origin and extent. *)

(** The vertical half of a pair of rectangles. *)
Definition y_axis (p : SDL_Rect.t * SDL_Rect.t) : Z * Z * Z * Z :=
  (SDL_Rect.y (fst p), SDL_Rect.h (fst p), SDL_Rect.y (snd p), SDL_Rect.h (snd p)).

Module Axis.

Definition t : Type := (Z * Z * Z * Z)%type.

(** A negative origin [a]: both origins advance, both extents shrink. *)
Definition trim_neg (a : Z) (q : t) : t :=
  let '(so, se, do, de) := q in
  if a <? 0 then
    let overhang := CInt.neg a in
    (CInt.add so overhang, CInt.sub se overhang,
     CInt.add do overhang, CInt.sub de overhang)
  else q.

(** [a + e] beyond [bound]: both extents shrink. *)
Definition trim_far (a e bound : Z) (q : t) : t :=
  let '(so, se, do, de) := q in
  if CInt.add a e >? bound then
    let overhang := CInt.sub (CInt.add a e) bound in
    (so, CInt.sub se overhang, do, CInt.sub de overhang)
  else q.

Definition src_origin (q : t) : Z := let '(so, _, _, _) := q in so.
Definition src_extent (q : t) : Z := let '(_, se, _, _) := q in se.
Definition dst_origin (q : t) : Z := let '(_, _, do, _) := q in do.
Definition dst_extent (q : t) : Z := let '(_, _, _, de) := q in de.

(** The three blocks in the order they reach this axis. *)
Definition clip (src_bound dst_bound : Z) (q : t) : t :=
  let q := trim_neg (src_origin q) q in
  let q := trim_far (src_origin q) (src_extent q) src_bound q in
  let q := trim_neg (dst_origin q) q in
  let q := trim_far (dst_origin q) (dst_extent q) dst_bound q in
  let '(so, se, do, de) := q in
  (so, se, do, if se <? de then se else de).

End Axis.

(** ** swrender_CopyImageFromSurface

    The width and the height of the surface reach [swrender_CreateImage]
    through its [Uint16] parameters.  [image_ok], [image_data_ok], [tex_ok]
    and [converted] are the outcomes the two operations called depend on. *)

Definition swrender_CopyImageFromSurface (image_ok image_data_ok tex_ok : bool)
    (converted : option SDL_Surface.t) (surface : SDL_Surface.t) : M (option addr) :=
  image ← swrender_CreateImage image_ok image_data_ok tex_ok
            (CInt.to_Uint16 (SDL_Surface.w surface))
            (CInt.to_Uint16 (SDL_Surface.h surface)) GPU_FORMAT_RGBA;
  match image with
  | None => mret None
  | Some _ =>
      swrender_UpdateImage converted image None surface None;;
      mret image
  end.

(** ** Reference states of the window's lifetime *)

(** The target [swrender_CreateTargetFromWindow] initializes at [T], with
    its Context at [c]. *)
Definition window_target (T c : addr) (ww hh : Z) : GPU_Target.t :=
  GPU_Target.mk (Some T) None
    (CInt.to_Uint16 ww) (CInt.to_Uint16 hh) false
    (CInt.to_Uint16 ww) (CInt.to_Uint16 hh) false false
    (GPU_Rect.mk (0#1) (0#1) (float_of_int ww) (float_of_int hh))
    false (Some c) 1 false.

(** The state after [swrender_CreateTargetFromWindow] has succeeded: the
    renderer [r] of the drawing library, the target [T], its Context [c] and
    the Context's record [d]. *)
Definition window_created (win r T c d : addr) (ww hh windowID : Z) (s : State) : State :=
  with_current_context_target (Some T)
    (with_targets (insert T (window_target T c ww hh))
       (with_context_datas (insert d (SW_CONTEXT_DATA.mk (Some r) (Some T)))
          (with_contexts (insert c (GPU_Context.mk (Some d) windowID ww hh ww hh))
             (with_sdl_renderers (λ rs, {[r]} ∪ rs)
                (log (SDL_CreateRenderer win) s))))).

(** The state after the last reference to the window target [T] is gone. *)
Definition window_destroyed (T c d : addr) (sdlr : option addr) (s : State) : State :=
  log (SDL_free BTarget (Some T))
    (with_targets (delete T)
       ((if decide (current_context_target s = Some T)
         then with_current_context_target None else id)
          (log (SDL_free BContext (Some c))
             (with_contexts (delete c)
                (log (SDL_free BContextData (Some d))
                   (with_context_datas (delete d)
                      (match sdlr with
                       | Some r => with_sdl_renderers (λ rs, rs ∖ {[r]})
                       | None => id
                       end
                         (log (SDL_DestroyRenderer sdlr) s)))))))).

(** The current context target, when there is one, is a live target with a
    Context. *)
Definition current_is_window (s : State) : Prop :=
  ∀ W, current_context_target s = Some W →
    ∃ wt c, targets s !! W = Some wt ∧ GPU_Target.context wt = Some c.

(** ** The drawing operations

    Every drawing operation binds its target with [setRenderTarget] and then
    calls the drawing library on the renderer it got back.  The model of an
    operation returns these calls, in the order they are made; they follow
    whatever [setRenderTarget] added to the trace.  Arguments of a call are
    evaluated from left to right. *)

Module SDL_Color.
Record t : Type := mk { r : Z; g : Z; b : Z; a : Z }.
End SDL_Color.

(** The flip bits of [SDL_render.h]. *)
Definition SDL_FLIP_NONE : Z := 0.
Definition SDL_FLIP_HORIZONTAL : Z := 1.
Definition SDL_FLIP_VERTICAL : Z := 2.

Inductive DrawCall : Type :=
  | SDL_SetRenderDrawColor (sdlr : option addr) (r g b a : Z)
  | SDL_RenderClear (sdlr : option addr)
  | SDL_RenderPresent (sdlr : option addr)
  | SDL_RenderDrawPoint (sdlr : option addr) (x y : Z)
  | SDL_RenderDrawLine (sdlr : option addr) (x1 y1 x2 y2 : Z)
  | SDL_RenderDrawRect (sdlr : option addr) (r : SDL_Rect.t)
  | SDL_RenderFillRect (sdlr : option addr) (r : SDL_Rect.t)
  | SDL_RenderSetClipRect (sdlr : option addr) (r : option SDL_Rect.t)
  | SDL_RenderCopyEx (sdlr tex : option addr) (src dst : SDL_Rect.t)
      (degrees : float) (center : Z * Z) (flip : Z).

Definition set_use_clip_rect (v : bool) (g : GPU_Target.t) : GPU_Target.t :=
  GPU_Target.mk (GPU_Target.context_target g) (GPU_Target.image g)
    (GPU_Target.w g) (GPU_Target.h g) (GPU_Target.using_virtual_resolution g)
    (GPU_Target.base_w g) (GPU_Target.base_h g) v (GPU_Target.use_color g)
    (GPU_Target.viewport g) (GPU_Target.use_camera g) (GPU_Target.context g)
    (GPU_Target.refcount g) (GPU_Target.is_alias g).

Definition float_lt (a b : float) : bool := negb (Qle_bool b a).

Definition swrender_UnsetClip (target : option addr) : M (list DrawCall) :=
  modify_target target (set_use_clip_rect false);;
  sdlr ← setRenderTarget target;
  mret [SDL_RenderSetClipRect sdlr None].

Definition swrender_ClearRGBA (target : option addr) (r g b a : Z) : M (list DrawCall) :=
  sdlr ← setRenderTarget target;
  mret [SDL_SetRenderDrawColor sdlr r g b a; SDL_RenderClear sdlr].

Definition swrender_Flip (target : option addr) : M (list DrawCall) :=
  sdlr ← setRenderTarget target;
  mret [SDL_RenderPresent sdlr].

Definition swrender_Pixel (target : option addr) (x y : float) (color : SDL_Color.t)
    : M (list DrawCall) :=
  sdlr ← setRenderTarget target;
  mret [SDL_SetRenderDrawColor sdlr (SDL_Color.r color) (SDL_Color.g color)
          (SDL_Color.b color) (SDL_Color.a color);
        SDL_RenderDrawPoint sdlr (int_of_float x) (int_of_float y)].

Definition swrender_Line (target : option addr) (x1 y1 x2 y2 : float)
    (color : SDL_Color.t) : M (list DrawCall) :=
  sdlr ← setRenderTarget target;
  mret [SDL_SetRenderDrawColor sdlr (SDL_Color.r color) (SDL_Color.g color)
          (SDL_Color.b color) (SDL_Color.a color);
        SDL_RenderDrawLine sdlr (int_of_float x1) (int_of_float y1)
          (int_of_float x2) (int_of_float y2)].

(** The operations below compute in [float].  A float sum, difference or
    product is the exact result rounded to a float, and so is the conversion
    of an [int]; the rounding [round] is left open. *)
Section Rounding.
Variable round : Q → float.

Definition swrender_Rectangle (target : option addr) (x1 y1 x2 y2 : float)
    (color : SDL_Color.t) : M (list DrawCall) :=
  let r :=
    SDL_Rect.mk (int_of_float x1) (int_of_float y1)
      (int_of_float (round (x2 - x1))) (int_of_float (round (y2 - y1))) in
  sdlr ← setRenderTarget target;
  mret [SDL_SetRenderDrawColor sdlr (SDL_Color.r color) (SDL_Color.g color)
          (SDL_Color.b color) (SDL_Color.a color);
        SDL_RenderDrawRect sdlr r].

Definition swrender_RectangleFilled (target : option addr) (x1 y1 x2 y2 : float)
    (color : SDL_Color.t) : M (list DrawCall) :=
  let r :=
    SDL_Rect.mk (int_of_float x1) (int_of_float y1)
      (int_of_float (round (x2 - x1))) (int_of_float (round (y2 - y1))) in
  sdlr ← setRenderTarget target;
  mret [SDL_SetRenderDrawColor sdlr (SDL_Color.r color) (SDL_Color.g color)
          (SDL_Color.b color) (SDL_Color.a color);
        SDL_RenderFillRect sdlr r].

Definition swrender_BlitTransformX (image : option addr)
    (src_rect : option GPU_Rect.t) (target : option addr)
    (x y pivot_x pivot_y degrees scaleX scaleY : float) : M (list DrawCall) :=
  let flip := SDL_FLIP_NONE in
  let '(scaleX, flip) :=
    if float_lt scaleX (0#1) then ((- scaleX)%Q, Z.lor flip SDL_FLIP_HORIZONTAL)
    else (scaleX, flip) in
  let '(scaleY, flip) :=
    if float_lt scaleY (0#1) then ((- scaleY)%Q, Z.lor flip SDL_FLIP_VERTICAL)
    else (scaleY, flip) in
  src ← match src_rect with
        | Some r =>
            mret (SDL_Rect.mk (int_of_float (GPU_Rect.x r)) (int_of_float (GPU_Rect.y r))
                    (int_of_float (GPU_Rect.w r)) (int_of_float (GPU_Rect.h r)))
        | None =>
            i ← deref_image image;
            mret (SDL_Rect.mk 0 0 (GPU_Image.w i) (GPU_Image.h i))
        end;
  let dst :=
    SDL_Rect.mk (int_of_float x) (int_of_float y)
      (int_of_float (round (round (inject_Z (SDL_Rect.w src)) * scaleX)))
      (int_of_float (round (round (inject_Z (SDL_Rect.h src)) * scaleY))) in
  let center :=
    (int_of_float (round (pivot_x * scaleX)),
     int_of_float (round (pivot_y * scaleY))) in
  sdlr ← setRenderTarget target;
  idp ← IMAGE_DATA image;
  image_data ← deref_image_data idp;
  mret [SDL_RenderCopyEx sdlr (SW_IMAGE_DATA.tex image_data) src dst degrees
          center flip].

(** [src_rect ? src_rect->w : image->w] and the same for [h], then the pivot
    at the image's anchor. *)
Definition anchor_pivot (image : option addr) (src_rect : option GPU_Rect.t)
    : M (float * float) :=
  w ← match src_rect with
      | Some r => mret (GPU_Rect.w r)
      | None => i ← deref_image image; mret (float_of_int (GPU_Image.w i))
      end;
  h ← match src_rect with
      | Some r => mret (GPU_Rect.h r)
      | None => i ← deref_image image; mret (float_of_int (GPU_Image.h i))
      end;
  i ← deref_image image;
  mret (round (w * GPU_Image.anchor_x i), round (h * GPU_Image.anchor_y i)).

Definition swrender_BlitRotate (image : option addr) (src_rect : option GPU_Rect.t)
    (target : option addr) (x y degrees : float) : M (list DrawCall) :=
  p ← anchor_pivot image src_rect;
  swrender_BlitTransformX image src_rect target x y (fst p) (snd p) degrees (1#1) (1#1).

Definition swrender_BlitScale (image : option addr) (src_rect : option GPU_Rect.t)
    (target : option addr) (x y scaleX scaleY : float) : M (list DrawCall) :=
  p ← anchor_pivot image src_rect;
  swrender_BlitTransformX image src_rect target x y (fst p) (snd p) (0#1) scaleX scaleY.

Definition swrender_BlitTransform (image : option addr) (src_rect : option GPU_Rect.t)
    (target : option addr) (x y degrees scaleX scaleY : float) : M (list DrawCall) :=
  p ← anchor_pivot image src_rect;
  swrender_BlitTransformX image src_rect target x y (fst p) (snd p) degrees
    scaleX scaleY.

End Rounding.

(** ** Calls through the renderer's table

    [swrender_CreateRenderer] installs the operations in the renderer's
    table.  A [Call] is a call of one of the operations embedded above, with
    the outcomes of the environment it depends on; the result of the
    operation is dropped.  The other entries of the table have no
    constructor: [swrender_Init], [swrender_SetClip] and the operations that
    only report that they are not implemented. *)

Module API.
Section Table.
Variable round : Q → float.

Inductive Call : Type :=
  | CreateTargetFromWindow (window : option addr) (sdlr_ok : bool) (ww hh : Z)
      (target_ok context_ok context_data_ok : bool) (windowID : Z)
      (target : option addr)
  | MakeCurrent (target : option addr)
  | Quit
  | CreateImage (image_ok image_data_ok tex_ok : bool) (w h : Z)
      (format : GPU_FormatEnum)
  | CreateAliasImage (result_ok : bool) (image : option addr)
  | UpdateImage (converted : option SDL_Surface.t) (image : option addr)
      (image_rect : option GPU_Rect.t) (surface : SDL_Surface.t)
      (surface_rect : option GPU_Rect.t)
  | UpdateImageBytes (image : option addr) (image_rect : option GPU_Rect.t)
      (bytes bytes_per_row : Z)
  | CopyImageFromSurface (image_ok image_data_ok tex_ok : bool)
      (converted : option SDL_Surface.t) (surface : SDL_Surface.t)
  | FreeImage (image : option addr)
  | LoadTarget (target_ok : bool) (image : option addr)
  | FreeTarget (target : option addr)
  | Blit (image : option addr) (src_rect : option GPU_Rect.t) (target : option addr)
      (x y : float)
  | BlitRotate (image : option addr) (src_rect : option GPU_Rect.t)
      (target : option addr) (x y degrees : float)
  | BlitScale (image : option addr) (src_rect : option GPU_Rect.t)
      (target : option addr) (x y scaleX scaleY : float)
  | BlitTransform (image : option addr) (src_rect : option GPU_Rect.t)
      (target : option addr) (x y degrees scaleX scaleY : float)
  | BlitTransformX (image : option addr) (src_rect : option GPU_Rect.t)
      (target : option addr) (x y pivot_x pivot_y degrees scaleX scaleY : float)
  | UnsetClip (target : option addr)
  | ClearRGBA (target : option addr) (r g b a : Z)
  | Flip (target : option addr)
  | Pixel (target : option addr) (x y : float) (color : SDL_Color.t)
  | Line (target : option addr) (x1 y1 x2 y2 : float) (color : SDL_Color.t)
  | Rectangle (target : option addr) (x1 y1 x2 y2 : float) (color : SDL_Color.t)
  | RectangleFilled (target : option addr) (x1 y1 x2 y2 : float) (color : SDL_Color.t).

(** A call whose result is dropped. *)
Definition discard {A : Type} (m : M A) : M unit := _ ← m; mret tt.

Definition run (c : Call) : M unit :=
  match c with
  | CreateTargetFromWindow window sdlr_ok ww hh target_ok context_ok
      context_data_ok windowID target =>
      discard (swrender_CreateTargetFromWindow window sdlr_ok ww hh target_ok
              context_ok context_data_ok windowID target)
  | MakeCurrent target => swrender_MakeCurrent target
  | Quit => swrender_Quit
  | CreateImage image_ok image_data_ok tex_ok w h format =>
      discard (swrender_CreateImage image_ok image_data_ok tex_ok w h format)
  | CreateAliasImage result_ok image =>
      discard (swrender_CreateAliasImage result_ok image)
  | UpdateImage converted image image_rect surface surface_rect =>
      swrender_UpdateImage converted image image_rect surface surface_rect
  | UpdateImageBytes image image_rect bytes bytes_per_row =>
      swrender_UpdateImageBytes image image_rect bytes bytes_per_row
  | CopyImageFromSurface image_ok image_data_ok tex_ok converted surface =>
      discard (swrender_CopyImageFromSurface image_ok image_data_ok tex_ok converted
              surface)
  | FreeImage image => swrender_FreeImage image
  | LoadTarget target_ok image => discard (swrender_LoadTarget target_ok image)
  | FreeTarget target => swrender_FreeTarget target
  | Blit image src_rect target x y => swrender_Blit round image src_rect target x y
  | BlitRotate image src_rect target x y degrees =>
      discard (swrender_BlitRotate round image src_rect target x y degrees)
  | BlitScale image src_rect target x y scaleX scaleY =>
      discard (swrender_BlitScale round image src_rect target x y scaleX scaleY)
  | BlitTransform image src_rect target x y degrees scaleX scaleY =>
      discard (swrender_BlitTransform round image src_rect target x y degrees
              scaleX scaleY)
  | BlitTransformX image src_rect target x y pivot_x pivot_y degrees scaleX scaleY =>
      discard (swrender_BlitTransformX round image src_rect target x y pivot_x
              pivot_y degrees scaleX scaleY)
  | UnsetClip target => discard (swrender_UnsetClip target)
  | ClearRGBA target r g b a => discard (swrender_ClearRGBA target r g b a)
  | Flip target => discard (swrender_Flip target)
  | Pixel target x y color => discard (swrender_Pixel target x y color)
  | Line target x1 y1 x2 y2 color => discard (swrender_Line target x1 y1 x2 y2 color)
  | Rectangle target x1 y1 x2 y2 color =>
      discard (swrender_Rectangle round target x1 y1 x2 y2 color)
  | RectangleFilled target x1 y1 x2 y2 color =>
      discard (swrender_RectangleFilled round target x1 y1 x2 y2 color)
  end.

(** The calls on images and the drawing calls: everything but the creation
    and the release of targets and the choice of the current one. *)
Definition on_images (c : Call) : bool :=
  match c with
  | CreateTargetFromWindow _ _ _ _ _ _ _ _ _ | MakeCurrent _ | Quit
  | FreeImage _ | LoadTarget _ _ | FreeTarget _ | UnsetClip _ => false
  | _ => true
  end.

(** The target a drawing call draws on. *)
Definition destination (c : Call) : option (option addr) :=
  match c with
  | Blit _ _ target _ _ | BlitRotate _ _ target _ _ _
  | BlitScale _ _ target _ _ _ _ | BlitTransform _ _ target _ _ _ _ _
  | BlitTransformX _ _ target _ _ _ _ _ _ _ | UnsetClip target
  | ClearRGBA target _ _ _ _ | Flip target | Pixel target _ _ _
  | Line target _ _ _ _ _ | Rectangle target _ _ _ _ _
  | RectangleFilled target _ _ _ _ _ => Some target
  | _ => None
  end.

(** A sequence of calls, each one made only if the one before returned. *)
Fixpoint run_all (cs : list Call) : M unit :=
  match cs with
  | [] => mret tt
  | c :: cs => run c;; run_all cs
  end.

End Table.
End API.

(** ** Relations between the state before and after an operation *)

(** [m] relates every state to the state in which it returns from it. *)
Definition frames {A : Type} (R : State → State → Prop) (m : M A) : Prop :=
  ∀ s a s', m s = Ok a s' → R s s'.

(** No target and no Context is created, changed or released, the current
    context target and the renderers of the drawing library stay. *)
Definition targets_kept (s s' : State) : Prop :=
  targets s' = targets s ∧ contexts s' = contexts s
  ∧ current_context_target s' = current_context_target s
  ∧ sdl_renderers s' = sdl_renderers s.

(** A current context target that is a live target with a Context before
    is one after. *)
Definition keeps_window (s s' : State) : Prop :=
  current_is_window s → current_is_window s'.

(** The drawing library is not told to switch its destination, and what was
    bound stays bound. *)
Definition quiet (s s' : State) : Prop :=
  set_destination_calls (trace s') = set_destination_calls (trace s)
  ∧ ∀ T, bound s T → bound s' T.

(** What a bind of [target] achieves: the target is bound, the drawing
    library was told to switch its destination at most once, and not at all
    if the target was bound before. *)
Definition binds (target : option addr) (s s' : State) : Prop :=
  ∃ T, target = Some T ∧ bound s' T
    ∧ (set_destination_calls (trace s') <= set_destination_calls (trace s) + 1)%nat
    ∧ (bound s T →
       set_destination_calls (trace s') = set_destination_calls (trace s)).

(** The renderer a call into the drawing library is addressed to. *)
Definition renderer_of (c : DrawCall) : option addr :=
  match c with
  | SDL_SetRenderDrawColor sdlr _ _ _ _ | SDL_RenderClear sdlr
  | SDL_RenderPresent sdlr | SDL_RenderDrawPoint sdlr _ _
  | SDL_RenderDrawLine sdlr _ _ _ _ | SDL_RenderDrawRect sdlr _
  | SDL_RenderFillRect sdlr _ | SDL_RenderSetClipRect sdlr _
  | SDL_RenderCopyEx sdlr _ _ _ _ _ _ => sdlr
  end.

(** The same call with the horizontal, or the vertical, flip bit toggled. *)
Definition toggle_flip (bit : Z) (c : DrawCall) : DrawCall :=
  match c with
  | SDL_RenderCopyEx sdlr tex src dst degrees center flip =>
      SDL_RenderCopyEx sdlr tex src dst degrees center (Z.lxor flip bit)
  | _ => c
  end.

(** * Theorems *)

(** ** Integer arithmetic *)

Lemma wrap_id (z : Z) : CInt.in_range z → CInt.wrap z = z.
Proof.
  unfold CInt.in_range, CInt.int_min, CInt.int_max, CInt.wrap. intros Hz.
  rewrite Z.mod_small; lia.
Qed.

Lemma int_of_float_in_range (f : float) : CInt.in_range (int_of_float f).
Proof.
  unfold int_of_float, CInt.in_range. cbv zeta.
  destruct (Z.leb_spec CInt.int_min (Z.quot (Qnum f) (Z.pos (Qden f))));
    destruct (Z.leb_spec (Z.quot (Qnum f) (Z.pos (Qden f))) CInt.int_max);
    cbn [andb]; unfold CInt.int_min, CInt.int_max in *; lia.
Qed.

Lemma wrap_in_range (z : Z) : CInt.in_range (CInt.wrap z).
Proof.
  unfold CInt.in_range, CInt.int_min, CInt.int_max, CInt.wrap.
  pose proof (Z.mod_pos_bound (z + 2 ^ 31) (2 ^ 32)). lia.
Qed.

(** Rewrites one wrapped expression that provably needs no wrapping. *)
Ltac unwrap_one :=
  match goal with
  | |- context [CInt.wrap ?z] =>
      rewrite (wrap_id z)
        by (unfold CInt.in_range, CInt.int_min, CInt.int_max; lia)
  | H : context [CInt.wrap ?z] |- _ =>
      rewrite (wrap_id z) in H
        by (unfold CInt.in_range, CInt.int_min, CInt.int_max; lia)
  end.

Ltac unfold_cint := unfold CInt.add, CInt.sub, CInt.neg, CInt.mul in *.

(** Reduces projections and updates of rectangles, and nothing else. *)
Ltac rect_simpl :=
  cbv beta iota zeta delta
    [SDL_Rect.x SDL_Rect.y SDL_Rect.w SDL_Rect.h SDL_Rect.add_x SDL_Rect.add_y
     SDL_Rect.sub_w SDL_Rect.sub_h SDL_Rect.set_w SDL_Rect.set_h fst snd] in *.

(** ** The blit clipper *)

(** The last block leaves [src] alone and takes the minimum on each axis. *)
Lemma clip_dst_against_src_spec (src dst : SDL_Rect.t) :
  Clip.clip_dst_against_src (src, dst)
  = (src, SDL_Rect.mk (SDL_Rect.x dst) (SDL_Rect.y dst)
            (Z.min (SDL_Rect.w src) (SDL_Rect.w dst))
            (Z.min (SDL_Rect.h src) (SDL_Rect.h dst))).
Proof.
  unfold Clip.clip_dst_against_src, SDL_Rect.set_w, SDL_Rect.set_h.
  destruct src as [sx sy sw sh], dst as [dx dy dw dh]. cbn.
  destruct (Z.ltb_spec sw dw); cbn; destruct (Z.ltb_spec sh dh); cbn;
    do 2 f_equal; lia.
Qed.

Lemma nothing_left_iff (dst : SDL_Rect.t) :
  Clip.nothing_left dst = true ↔ SDL_Rect.w dst <= 0 ∨ SDL_Rect.h dst <= 0.
Proof.
  unfold Clip.nothing_left. rewrite orb_true_iff, !Z.leb_le. tauto.
Qed.

(** C1: a 10x10 surface, a 10x10 image, the source rectangle
    {-2, 0, 5, 5} and no destination rectangle.  The first block trims the
    overhang of 2 from the origin and the width of both rectangles, the
    clipping ends with source {0, 0, 3, 5} and destination {2, 0, 3, 5}, and
    that destination is the one the copy is issued with. *)
Theorem updateImage_clips_negative_source_origin :
  let surface := SDL_Surface.mk 10 10 SDL_PIXELFORMAT_RGBA8888 4 40 1000 in
  let surface_rect := Some (GPU_Rect.mk (-2#1) (0#1) (5#1) (5#1)) in
  let src0 := rect_or_full surface_rect 10 10 in
  let dst0 := rect_or_full None 10 10 in
  Clip.trim_neg_x src0 (src0, dst0)
    = (SDL_Rect.mk 0 0 3 5, SDL_Rect.mk 2 0 8 10)
  ∧ Clip.clip 10 10 10 10 surface_rect None
    = (SDL_Rect.mk 0 0 3 5, SDL_Rect.mk 2 0 3 5)
  ∧ swrender_UpdateImage None (Some 1%positive) None surface surface_rect
      (image_state 10 10)
    = Ok tt (with_trace
               (λ tr, tr ++ [SDL_UpdateTexture (Some 1%positive)
                               (SDL_Rect.mk 2 0 3 5) 1000 40])
               (image_state 10 10)).
Proof.
  cbv zeta. split; [|split]; vm_compute; reflexivity.
Qed.

(** C2: whatever the surface, the image and the two rectangles, when the
    clipping is over the destination is no wider and no taller than the
    source; each destination extent is the minimum of the two extents that
    reached the last block, and that block changes nothing in the source
    rectangle nor in the destination origin. *)
Theorem clip_pairs_destination_to_source
    (surface_w surface_h image_w image_h : Z)
    (surface_rect image_rect : option GPU_Rect.t) :
  let before :=
    Clip.before_pairing surface_w surface_h image_w image_h surface_rect image_rect in
  let after :=
    Clip.clip surface_w surface_h image_w image_h surface_rect image_rect in
  SDL_Rect.w (snd after) <= SDL_Rect.w (fst after)
  ∧ SDL_Rect.h (snd after) <= SDL_Rect.h (fst after)
  ∧ SDL_Rect.w (snd after) = Z.min (SDL_Rect.w (fst before)) (SDL_Rect.w (snd before))
  ∧ SDL_Rect.h (snd after) = Z.min (SDL_Rect.h (fst before)) (SDL_Rect.h (snd before))
  ∧ fst after = fst before
  ∧ SDL_Rect.x (snd after) = SDL_Rect.x (snd before)
  ∧ SDL_Rect.y (snd after) = SDL_Rect.y (snd before).
Proof.
  cbv zeta. unfold Clip.clip.
  destruct (Clip.before_pairing _ _ _ _ _ _) as [src dst].
  rewrite clip_dst_against_src_spec. cbn. repeat split; lia.
Qed.

(** *** A destination rectangle outside the image

    The blocks that work on one axis leave the other axis of both rectangles
    alone, so each axis can be followed on its own. *)

Lemma x_axis_trim_neg_y a p : x_axis (Clip.trim_neg_y a p) = x_axis p.
Proof.
  destruct p as [src dst]. unfold Clip.trim_neg_y.
  destruct (SDL_Rect.y a <? 0); reflexivity.
Qed.

Lemma x_axis_trim_far_y a bound p : x_axis (Clip.trim_far_y a bound p) = x_axis p.
Proof.
  destruct p as [src dst]. unfold Clip.trim_far_y.
  destruct (_ >? bound); reflexivity.
Qed.

Lemma y_axis_trim_neg_x a p : y_axis (Clip.trim_neg_x a p) = y_axis p.
Proof.
  destruct p as [src dst]. unfold Clip.trim_neg_x.
  destruct (SDL_Rect.x a <? 0); reflexivity.
Qed.

Lemma y_axis_trim_far_x a bound p : y_axis (Clip.trim_far_x a bound p) = y_axis p.
Proof.
  destruct p as [src dst]. unfold Clip.trim_far_x.
  destruct (_ >? bound); reflexivity.
Qed.

Lemma y_axis_trim_neg_y a p :
  y_axis (Clip.trim_neg_y a p) = Axis.trim_neg (SDL_Rect.y a) (y_axis p).
Proof.
  destruct p as [src dst]. unfold Clip.trim_neg_y, Axis.trim_neg. cbn.
  destruct (SDL_Rect.y a <? 0); reflexivity.
Qed.

Lemma y_axis_trim_far_y a bound p :
  y_axis (Clip.trim_far_y a bound p)
  = Axis.trim_far (SDL_Rect.y a) (SDL_Rect.h a) bound (y_axis p).
Proof.
  destruct p as [src dst]. unfold Clip.trim_far_y, Axis.trim_far. cbn.
  destruct (_ >? bound); reflexivity.
Qed.

Lemma x_axis_trim_neg_x_axis a p :
  x_axis (Clip.trim_neg_x a p) = Axis.trim_neg (SDL_Rect.x a) (x_axis p).
Proof.
  destruct p as [src dst]. unfold Clip.trim_neg_x, Axis.trim_neg. cbn.
  destruct (SDL_Rect.x a <? 0); reflexivity.
Qed.

Lemma x_axis_trim_far_x_axis a bound p :
  x_axis (Clip.trim_far_x a bound p)
  = Axis.trim_far (SDL_Rect.x a) (SDL_Rect.w a) bound (x_axis p).
Proof.
  destruct p as [src dst]. unfold Clip.trim_far_x, Axis.trim_far. cbn.
  destruct (_ >? bound); reflexivity.
Qed.

Lemma x_axis_src p : SDL_Rect.x (fst p) = Axis.src_origin (x_axis p)
  ∧ SDL_Rect.w (fst p) = Axis.src_extent (x_axis p)
  ∧ SDL_Rect.x (snd p) = Axis.dst_origin (x_axis p)
  ∧ SDL_Rect.w (snd p) = Axis.dst_extent (x_axis p).
Proof. by destruct p. Qed.

Lemma y_axis_src p : SDL_Rect.y (fst p) = Axis.src_origin (y_axis p)
  ∧ SDL_Rect.h (fst p) = Axis.src_extent (y_axis p)
  ∧ SDL_Rect.y (snd p) = Axis.dst_origin (y_axis p)
  ∧ SDL_Rect.h (snd p) = Axis.dst_extent (y_axis p).
Proof. by destruct p. Qed.

Lemma x_axis_clip_dst_against_src p :
  x_axis (Clip.clip_dst_against_src p)
  = let '(so, se, do, de) := x_axis p in (so, se, do, if se <? de then se else de).
Proof.
  destruct p as [src dst]. rewrite clip_dst_against_src_spec.
  unfold x_axis. cbn [fst snd SDL_Rect.x SDL_Rect.w].
  destruct (Z.ltb_spec (SDL_Rect.w src) (SDL_Rect.w dst)); f_equal; lia.
Qed.

Lemma y_axis_clip_dst_against_src p :
  y_axis (Clip.clip_dst_against_src p)
  = let '(so, se, do, de) := y_axis p in (so, se, do, if se <? de then se else de).
Proof.
  destruct p as [src dst]. rewrite clip_dst_against_src_spec.
  unfold y_axis. cbn [fst snd SDL_Rect.y SDL_Rect.h].
  destruct (Z.ltb_spec (SDL_Rect.h src) (SDL_Rect.h dst)); f_equal; lia.
Qed.

(** The clipper of [swrender_UpdateImage] on the x axis and on the y axis. *)
Lemma x_axis_clip surface_w surface_h image_w image_h p :
  x_axis (Clip.clip_dst_against_src
            (Clip.clip_dst_to_image image_w image_h
               (Clip.clip_src_to_surface surface_w surface_h p)))
  = Axis.clip surface_w image_w (x_axis p).
Proof.
  unfold Clip.clip_dst_to_image, Clip.clip_src_to_surface, Axis.clip. cbv zeta.
  set (p1 := Clip.trim_neg_x (fst p) p).
  set (p2 := Clip.trim_neg_y (fst p1) p1).
  set (p3 := Clip.trim_far_x (fst p2) surface_w p2).
  set (p4 := Clip.trim_far_y (fst p3) surface_h p3).
  set (p5 := Clip.trim_neg_x (snd p4) p4).
  set (p6 := Clip.trim_neg_y (snd p5) p5).
  set (p7 := Clip.trim_far_x (snd p6) image_w p6).
  set (p8 := Clip.trim_far_y (snd p7) image_h p7).
  assert (E1 : x_axis p1 = Axis.trim_neg (Axis.src_origin (x_axis p)) (x_axis p))
    by exact (x_axis_trim_neg_x_axis _ _).
  assert (E2 : x_axis p2 = x_axis p1) by exact (x_axis_trim_neg_y _ _).
  assert (E3 : x_axis p3 = Axis.trim_far (Axis.src_origin (x_axis p2))
                             (Axis.src_extent (x_axis p2)) surface_w (x_axis p2))
    by exact (x_axis_trim_far_x_axis _ _ _).
  assert (E4 : x_axis p4 = x_axis p3) by exact (x_axis_trim_far_y _ _ _).
  assert (E5 : x_axis p5 = Axis.trim_neg (Axis.dst_origin (x_axis p4)) (x_axis p4))
    by exact (x_axis_trim_neg_x_axis _ _).
  assert (E6 : x_axis p6 = x_axis p5) by exact (x_axis_trim_neg_y _ _).
  assert (E7 : x_axis p7 = Axis.trim_far (Axis.dst_origin (x_axis p6))
                             (Axis.dst_extent (x_axis p6)) image_w (x_axis p6))
    by exact (x_axis_trim_far_x_axis _ _ _).
  assert (E8 : x_axis p8 = x_axis p7) by exact (x_axis_trim_far_y _ _ _).
  rewrite x_axis_clip_dst_against_src, E8, E7, E6, E5, E4, E3, E2, E1.
  reflexivity.
Qed.

Lemma y_axis_clip surface_w surface_h image_w image_h p :
  y_axis (Clip.clip_dst_against_src
            (Clip.clip_dst_to_image image_w image_h
               (Clip.clip_src_to_surface surface_w surface_h p)))
  = Axis.clip surface_h image_h (y_axis p).
Proof.
  unfold Clip.clip_dst_to_image, Clip.clip_src_to_surface, Axis.clip. cbv zeta.
  set (p1 := Clip.trim_neg_x (fst p) p).
  set (p2 := Clip.trim_neg_y (fst p1) p1).
  set (p3 := Clip.trim_far_x (fst p2) surface_w p2).
  set (p4 := Clip.trim_far_y (fst p3) surface_h p3).
  set (p5 := Clip.trim_neg_x (snd p4) p4).
  set (p6 := Clip.trim_neg_y (snd p5) p5).
  set (p7 := Clip.trim_far_x (snd p6) image_w p6).
  set (p8 := Clip.trim_far_y (snd p7) image_h p7).
  assert (E1 : y_axis p1 = y_axis p) by exact (y_axis_trim_neg_x _ _).
  assert (E2 : y_axis p2 = Axis.trim_neg (Axis.src_origin (y_axis p1)) (y_axis p1))
    by exact (y_axis_trim_neg_y _ _).
  assert (E3 : y_axis p3 = y_axis p2) by exact (y_axis_trim_far_x _ _ _).
  assert (E4 : y_axis p4 = Axis.trim_far (Axis.src_origin (y_axis p3))
                             (Axis.src_extent (y_axis p3)) surface_h (y_axis p3))
    by exact (y_axis_trim_far_y _ _ _).
  assert (E5 : y_axis p5 = y_axis p4) by exact (y_axis_trim_neg_x _ _).
  assert (E6 : y_axis p6 = Axis.trim_neg (Axis.dst_origin (y_axis p5)) (y_axis p5))
    by exact (y_axis_trim_neg_y _ _).
  assert (E7 : y_axis p7 = y_axis p6) by exact (y_axis_trim_far_x _ _ _).
  assert (E8 : y_axis p8 = Axis.trim_far (Axis.dst_origin (y_axis p7))
                             (Axis.dst_extent (y_axis p7)) image_h (y_axis p7))
    by exact (y_axis_trim_far_y _ _ _).
  rewrite y_axis_clip_dst_against_src, E8, E7, E6, E5, E4, E3, E2, E1.
  reflexivity.
Qed.

Ltac int_range := unfold CInt.in_range, CInt.int_min, CInt.int_max; lia.

(** The two trims when nothing wraps around. *)
Lemma trim_neg_exact a so se do de :
  let o := Z.max 0 (- a) in
  CInt.in_range o → CInt.in_range (so + o) → CInt.in_range (se - o) →
  CInt.in_range (do + o) → CInt.in_range (de - o) →
  Axis.trim_neg a (so, se, do, de) = (so + o, se - o, do + o, de - o).
Proof.
  cbv zeta. unfold Axis.trim_neg, CInt.in_range, CInt.int_min, CInt.int_max.
  intros Ha H1 H2 H3 H4.
  destruct (Z.ltb_spec a 0); unfold_cint.
  - rewrite (wrap_id (- a)) by int_range.
    rewrite !wrap_id by int_range. repeat f_equal; lia.
  - repeat f_equal; lia.
Qed.

Lemma trim_far_exact a e bound so se do de :
  let o := Z.max 0 (a + e - bound) in
  CInt.in_range (a + e) → CInt.in_range o →
  CInt.in_range (se - o) → CInt.in_range (de - o) →
  Axis.trim_far a e bound (so, se, do, de) = (so, se - o, do, de - o).
Proof.
  cbv zeta. unfold Axis.trim_far, CInt.in_range, CInt.int_min, CInt.int_max.
  intros Ha Hb H1 H2. unfold_cint.
  rewrite (wrap_id (a + e)) by int_range.
  destruct (Z.gtb_spec (a + e) bound).
  - rewrite (wrap_id (a + e - bound)) by int_range.
    rewrite !wrap_id by int_range. repeat f_equal; lia.
  - repeat f_equal; lia.
Qed.

(** One axis of the clipper in closed form, when no sum or difference it
    forms leaves the range of [int]. *)
Lemma axis_clip_exact src_bound dst_bound so se do de :
  small so → small se → small do → small de →
  0 <= src_bound <= 2 ^ 28 → 0 <= dst_bound <= 2 ^ 28 →
  let o1 := Z.max 0 (- so) in
  let o2 := Z.max 0 (so + o1 + (se - o1) - src_bound) in
  let o3 := Z.max 0 (- (do + o1)) in
  let o4 := Z.max 0 (do + o1 + o3 + (de - o1 - o2 - o3) - dst_bound) in
  Axis.clip src_bound dst_bound (so, se, do, de)
  = (so + o1 + o3, se - o1 - o2 - o3 - o4, do + o1 + o3,
     Z.min (se - o1 - o2 - o3 - o4) (de - o1 - o2 - o3 - o4)).
Proof.
  unfold small. intros Hso Hse Hdo Hde Hsb Hdb. cbv zeta.
  unfold Axis.clip. cbn [Axis.src_origin].
  rewrite trim_neg_exact by int_range.
  cbn [Axis.src_origin Axis.src_extent Axis.dst_origin Axis.dst_extent].
  rewrite trim_far_exact by int_range.
  cbn [Axis.src_origin Axis.src_extent Axis.dst_origin Axis.dst_extent].
  rewrite trim_neg_exact by int_range.
  cbn [Axis.src_origin Axis.src_extent Axis.dst_origin Axis.dst_extent].
  rewrite trim_far_exact by int_range.
  match goal with |- context [?a <? ?b] => destruct (Z.ltb_spec a b) end;
    repeat f_equal; lia.
Qed.

(** What one axis of the clipper guarantees. *)
Lemma axis_clip_spec src_bound dst_bound so se do de :
  small so → small se → small do → small de →
  0 <= src_bound <= 2 ^ 28 → 0 <= dst_bound <= 2 ^ 28 →
  let q := Axis.clip src_bound dst_bound (so, se, do, de) in
  (0 <= Axis.src_origin q
   ∧ Axis.src_origin q + Axis.dst_extent q <= src_bound
   ∧ 0 <= Axis.dst_origin q
   ∧ Axis.dst_origin q + Axis.dst_extent q <= dst_bound)
  ∧ Axis.dst_origin q - Axis.src_origin q = do - so
  ∧ (so <= Axis.src_origin q
     ∧ Axis.src_origin q + Axis.src_extent q <= so + se
     ∧ do <= Axis.dst_origin q
     ∧ Axis.dst_origin q + Axis.dst_extent q <= do + de)
  ∧ Axis.dst_extent q <= Axis.src_extent q.
Proof.
  intros Hso Hse Hdo Hde Hsb Hdb. cbv zeta.
  rewrite axis_clip_exact by assumption. unfold small in *.
  cbn [Axis.src_origin Axis.src_extent Axis.dst_origin Axis.dst_extent]. lia.
Qed.

(** One axis that is already in bounds and paired passes unchanged. *)
Lemma axis_clip_id src_bound dst_bound so se do de :
  CInt.in_range so → CInt.in_range se → CInt.in_range do → CInt.in_range de →
  CInt.in_range src_bound → CInt.in_range dst_bound →
  0 <= so → so + se <= src_bound → 0 <= do → do + de <= dst_bound → de <= se →
  Axis.clip src_bound dst_bound (so, se, do, de) = (so, se, do, de).
Proof.
  unfold CInt.in_range, CInt.int_min, CInt.int_max.
  intros Hso Hse Hdo Hde Hsb Hdb H1 H2 H3 H4 H5.
  unfold Axis.clip. cbn [Axis.src_origin].
  rewrite trim_neg_exact by int_range.
  cbn [Axis.src_origin Axis.src_extent Axis.dst_origin Axis.dst_extent].
  rewrite trim_far_exact by int_range.
  cbn [Axis.src_origin Axis.src_extent Axis.dst_origin Axis.dst_extent].
  rewrite trim_neg_exact by int_range.
  cbn [Axis.src_origin Axis.src_extent Axis.dst_origin Axis.dst_extent].
  rewrite trim_far_exact by int_range.
  match goal with |- context [?a <? ?b] => destruct (Z.ltb_spec a b) end;
    repeat f_equal; lia.
Qed.

Lemma small_rect_axes r :
  small_rect r →
  small (SDL_Rect.x r) ∧ small (SDL_Rect.w r)
  ∧ small (SDL_Rect.y r) ∧ small (SDL_Rect.h r).
Proof. unfold small_rect. tauto. Qed.

Lemma mul_0_l b : CInt.mul 0 b = 0.
Proof. unfold CInt.mul. rewrite Z.mul_0_l. reflexivity. Qed.

(** The clipper of [swrender_UpdateImageBytes] in closed form, when no sum
    or difference it forms leaves the range of [int]. *)
Lemma clip_bytes_exact image_w image_h bytes_per_pixel bytes_per_row x y w h bytes :
  small x → small y → small w → small h →
  0 <= image_w <= 2 ^ 28 → 0 <= image_h <= 2 ^ 28 →
  let ox := Z.max 0 (- x) in
  let oy := Z.max 0 (- y) in
  let fx := Z.max 0 (x + w - image_w) in
  let fy := Z.max 0 (y + h - image_h) in
  ClipBytes.clip_dst_to_image image_w image_h bytes_per_pixel bytes_per_row
    (SDL_Rect.mk x y w h, bytes)
  = (SDL_Rect.mk (x + ox) (y + oy) (w - ox - fx) (h - oy - fy),
     bytes + CInt.mul ox bytes_per_pixel + CInt.mul oy bytes_per_row).
Proof.
  unfold small. intros Hx Hy Hw Hh Hiw Hih. cbv zeta.
  unfold ClipBytes.clip_dst_to_image. rect_simpl.
  destruct (Z.ltb_spec x 0); destruct (Z.ltb_spec y 0); rect_simpl; unfold_cint;
    repeat unwrap_one;
    repeat match goal with
    | |- context [?a >? ?b] => destruct (Z.gtb_spec a b); rect_simpl
    end;
    repeat unwrap_one;
    rewrite ?Z.max_l, ?Z.max_r by lia;
    rewrite ?Z.mul_0_l; change (CInt.wrap 0) with 0;
    f_equal; first [lia | f_equal; lia].
Qed.

(** A destination rectangle that has no point in common with the image:
    after the clipping no width or no height is left. *)
Lemma clip_outside surface_w surface_h image_w image_h surface_rect image_rect :
  small_rect (rect_or_full surface_rect surface_w surface_h) →
  small_rect (rect_or_full image_rect image_w image_h) →
  0 <= surface_w <= 2 ^ 28 → 0 <= surface_h <= 2 ^ 28 →
  0 <= image_w <= 2 ^ 28 → 0 <= image_h <= 2 ^ 28 →
  fully_outside (rect_or_full image_rect image_w image_h) image_w image_h →
  Clip.nothing_left
    (snd (Clip.clip surface_w surface_h image_w image_h surface_rect image_rect))
  = true.
Proof.
  intros Hs Hd Hsw Hsh Hiw Hih Hout. apply nothing_left_iff.
  apply small_rect_axes in Hs as (Hsx & Hsww & Hsy & Hshh).
  apply small_rect_axes in Hd as (Hdx & Hdww & Hdy & Hdhh).
  unfold Clip.clip, Clip.before_pairing. cbv zeta.
  set (src0 := rect_or_full surface_rect surface_w surface_h) in *.
  set (dst0 := rect_or_full image_rect image_w image_h) in *.
  pose proof (x_axis_clip surface_w surface_h image_w image_h (src0, dst0)) as Hx.
  pose proof (y_axis_clip surface_w surface_h image_w image_h (src0, dst0)) as Hy.
  pose proof (axis_clip_spec surface_w image_w _ _ _ _ Hsx Hsww Hdx Hdww Hsw Hiw) as Ax.
  pose proof (axis_clip_spec surface_h image_h _ _ _ _ Hsy Hshh Hdy Hdhh Hsh Hih) as Ay.
  cbv zeta in Ax, Ay.
  change (SDL_Rect.x src0, SDL_Rect.w src0, SDL_Rect.x dst0, SDL_Rect.w dst0)
    with (x_axis (src0, dst0)) in Ax.
  change (SDL_Rect.y src0, SDL_Rect.h src0, SDL_Rect.y dst0, SDL_Rect.h dst0)
    with (y_axis (src0, dst0)) in Ay.
  rewrite <- Hx in Ax. rewrite <- Hy in Ay.
  destruct (Clip.clip_dst_against_src _) as [src dst].
  unfold x_axis, y_axis in Ax, Ay.
  cbn [fst snd Axis.src_origin Axis.src_extent Axis.dst_origin Axis.dst_extent]
    in Ax, Ay |- *.
  unfold fully_outside in Hout. lia.
Qed.

Lemma clip_bytes_outside image_w image_h bytes_per_pixel bytes_per_row
    image_rect bytes :
  small_rect (rect_or_full image_rect image_w image_h) →
  0 <= image_w <= 2 ^ 28 → 0 <= image_h <= 2 ^ 28 →
  fully_outside (rect_or_full image_rect image_w image_h) image_w image_h →
  Clip.nothing_left
    (fst (ClipBytes.clip image_w image_h bytes_per_pixel bytes_per_row
            image_rect bytes))
  = true.
Proof.
  intros Hd Hiw Hih Hout. apply nothing_left_iff. unfold ClipBytes.clip.
  destruct (rect_or_full image_rect image_w image_h) as [x y w h].
  destruct Hd as (Hx & Hy & Hw & Hh). unfold fully_outside in Hout.
  cbn [SDL_Rect.x SDL_Rect.y SDL_Rect.w SDL_Rect.h] in *.
  rewrite clip_bytes_exact by assumption. cbv zeta.
  cbn [fst SDL_Rect.w SDL_Rect.h]. unfold small in *. lia.
Qed.

(** The two upload operations at the "anything left?" test. *)
Lemma UpdateImage_nothing_left converted s a i image_rect surface surface_rect :
  images s !! a = Some i →
  Clip.nothing_left
    (snd (Clip.clip (SDL_Surface.w surface) (SDL_Surface.h surface)
            (GPU_Image.w i) (GPU_Image.h i) surface_rect image_rect)) = true →
  swrender_UpdateImage converted (Some a) image_rect surface surface_rect s = Ok tt s.
Proof.
  intros Hi Hn. unfold swrender_UpdateImage, deref_image, deref, mbind, M_bind.
  rewrite Hi. destruct (Clip.clip _ _ _ _ _ _) as [src dst].
  cbn [snd] in Hn. cbv beta iota. rewrite Hn. reflexivity.
Qed.

Lemma UpdateImageBytes_nothing_left s a i image_rect bytes bytes_per_row :
  images s !! a = Some i →
  Clip.nothing_left
    (fst (ClipBytes.clip (GPU_Image.w i) (GPU_Image.h i) (GPU_Image.bytes_per_pixel i)
            bytes_per_row image_rect bytes)) = true →
  swrender_UpdateImageBytes (Some a) image_rect bytes bytes_per_row s = Ok tt s.
Proof.
  intros Hi Hn.
  unfold swrender_UpdateImageBytes, IMAGE_DATA, deref_image, deref, mbind, M_bind.
  rewrite Hi. cbv beta iota delta [mret M_ret]. rewrite Hi.
  destruct (ClipBytes.clip _ _ _ _ _ _) as [dst bytes'].
  cbn [fst] in Hn. cbv beta iota. rewrite Hn. reflexivity.
Qed.

(** C3 (amended): for a live image, when the clipped destination has no
    width or no height left, [swrender_UpdateImage] and
    [swrender_UpdateImageBytes] return with the state as it was: no call to
    the drawing library (nothing copied, the texture untouched) and no error
    pushed.  This is what happens when the destination rectangle lies fully
    outside the image, on any of its four sides, as long as the sizes are at
    most [2^28] and the coordinates of the rectangles have a magnitude of at
    most [2^28], which keeps the clipper's [int] arithmetic exact. *)
Theorem update_with_nothing_left_is_a_no_op
    (s : State) (a : addr) (i : GPU_Image.t) :
  images s !! a = Some i →
  (∀ converted image_rect surface surface_rect,
     let dst :=
       snd (Clip.clip (SDL_Surface.w surface) (SDL_Surface.h surface)
              (GPU_Image.w i) (GPU_Image.h i) surface_rect image_rect) in
     SDL_Rect.w dst <= 0 ∨ SDL_Rect.h dst <= 0 →
     swrender_UpdateImage converted (Some a) image_rect surface surface_rect s
     = Ok tt s)
  ∧ (∀ image_rect bytes bytes_per_row,
       let dst :=
         fst (ClipBytes.clip (GPU_Image.w i) (GPU_Image.h i)
                (GPU_Image.bytes_per_pixel i) bytes_per_row image_rect bytes) in
       SDL_Rect.w dst <= 0 ∨ SDL_Rect.h dst <= 0 →
       swrender_UpdateImageBytes (Some a) image_rect bytes bytes_per_row s
       = Ok tt s)
  ∧ (∀ converted image_rect surface surface_rect,
       small_rect (rect_or_full surface_rect (SDL_Surface.w surface)
                     (SDL_Surface.h surface)) →
       small_rect (rect_or_full image_rect (GPU_Image.w i) (GPU_Image.h i)) →
       0 <= SDL_Surface.w surface <= 2 ^ 28 →
       0 <= SDL_Surface.h surface <= 2 ^ 28 →
       0 <= GPU_Image.w i <= 2 ^ 28 → 0 <= GPU_Image.h i <= 2 ^ 28 →
       fully_outside (rect_or_full image_rect (GPU_Image.w i) (GPU_Image.h i))
         (GPU_Image.w i) (GPU_Image.h i) →
       swrender_UpdateImage converted (Some a) image_rect surface surface_rect s
       = Ok tt s)
  ∧ (∀ image_rect bytes bytes_per_row,
       small_rect (rect_or_full image_rect (GPU_Image.w i) (GPU_Image.h i)) →
       0 <= GPU_Image.w i <= 2 ^ 28 → 0 <= GPU_Image.h i <= 2 ^ 28 →
       fully_outside (rect_or_full image_rect (GPU_Image.w i) (GPU_Image.h i))
         (GPU_Image.w i) (GPU_Image.h i) →
       swrender_UpdateImageBytes (Some a) image_rect bytes bytes_per_row s
       = Ok tt s).
Proof.
  intros Hi. split; [|split; [|split]].
  - intros converted image_rect surface surface_rect dst Hd.
    eapply UpdateImage_nothing_left; [exact Hi|]. by apply nothing_left_iff.
  - intros image_rect bytes bytes_per_row dst Hd.
    eapply UpdateImageBytes_nothing_left; [exact Hi|]. by apply nothing_left_iff.
  - intros converted image_rect surface surface_rect Hs Hd Hsw Hsh Hiw Hih Hout.
    eapply UpdateImage_nothing_left; [exact Hi|]. by apply clip_outside.
  - intros image_rect bytes bytes_per_row Hd Hiw Hih Hout.
    eapply UpdateImageBytes_nothing_left; [exact Hi|]. by apply clip_bytes_outside.
Qed.

(** ** The target binding cache *)

Ltac unfold_monad :=
  unfold mbind, M_bind, mret, M_ret, fault, get_state, emit, update in *.

Ltac unfold_access :=
  unfold deref_target, deref_image, deref_context, deref_context_data,
    deref_image_data, modify_target, modify_image, modify_context_data,
    modify_image_data, free_target, free_image, free_context,
    free_context_data, free_image_data, malloc_target, malloc_image,
    malloc_context, malloc_context_data, malloc_image_data,
    modify, free, malloc, deref in *.

Lemma owner_data_eval s T d cd :
  owner_cache s T d cd → owner_data (Some T) s = Ok (Some d) s.
Proof.
  intros (t & W & wt & c & cv & Ht & HW & Hwt & Hc & Hcv & Hd & Hcd).
  unfold owner_data, CONTEXT_DATA. unfold_access. unfold_monad.
  rewrite Ht, HW, Hwt, Hc, Hcv, Hd. reflexivity.
Qed.

Lemma SDL_RENDERER_of_target_eval s T d cd :
  owner_cache s T d cd →
  SDL_RENDERER_of_target (Some T) s = Ok (SW_CONTEXT_DATA.sdl_renderer cd) s.
Proof.
  intros (t & W & wt & c & cv & Ht & HW & Hwt & Hc & Hcv & Hd & Hcd).
  unfold SDL_RENDERER_of_target, CONTEXT_of_target, SDL_RENDERER, CONTEXT_DATA.
  unfold_access. unfold_monad.
  rewrite Ht, HW, Hwt, Hc, Hcv, Hd, Hcd. reflexivity.
Qed.

(** What [owner_data] followed by the read of the cache record can do. *)
Lemma owner_data_inv p s :
  match (d ← owner_data p; cd ← deref_context_data d; mret (d, cd)) s with
  | Ok (d', cd) s' =>
      s' = s ∧ ∃ T d, p = Some T ∧ d' = Some d ∧ owner_cache s T d cd
  | Fault s' => s' = s
  end.
Proof.
  unfold owner_data, CONTEXT_DATA. unfold_access. unfold_monad.
  repeat case_match; simplify_eq; try done.
  split; [done|]. eexists _, _. repeat split. unfold owner_cache. eauto 12.
Qed.

(** Every way [setRenderTarget] can end. *)
Lemma setRenderTarget_inv p s :
  match setRenderTarget p s with
  | Ok r s' =>
      ∃ T d cd, p = Some T ∧ owner_cache s T d cd
        ∧ r = SW_CONTEXT_DATA.sdl_renderer cd
        ∧ ((SW_CONTEXT_DATA.render_target cd = Some T ∧ s' = s)
           ∨ (SW_CONTEXT_DATA.render_target cd ≠ Some T
              ∧ ∃ tex, s' = log (SDL_SetRenderTarget r tex) (rebind T d cd s)))
  | Fault s' =>
      s' = s
      ∨ ∃ T d cd, p = Some T ∧ owner_cache s T d cd
          ∧ SW_CONTEXT_DATA.render_target cd ≠ Some T ∧ s' = rebind T d cd s
  end.
Proof.
  unfold setRenderTarget.
  destruct p as [T|]; [|left; reflexivity].
  unfold mbind at 1, M_bind at 1.
  destruct (SDL_RENDERER_of_target (Some T) s) as [r s1|s1] eqn:Hr.
  2:{ left. revert Hr.
      unfold SDL_RENDERER_of_target, CONTEXT_of_target, SDL_RENDERER, CONTEXT_DATA.
      unfold_access. unfold_monad. repeat case_match; congruence. }
  assert (s1 = s) as ->.
  { revert Hr.
    unfold SDL_RENDERER_of_target, CONTEXT_of_target, SDL_RENDERER, CONTEXT_DATA.
    unfold_access. unfold_monad. repeat case_match; congruence. }
  pose proof (owner_data_inv (Some T) s) as Hinv.
  unfold mbind, M_bind in Hinv |- *.
  destruct (owner_data (Some T) s) as [d' s2|s2] eqn:Hd; [|left; congruence].
  destruct (deref_context_data d' s2) as [cd s3|s3] eqn:Hcd; [|left; congruence].
  cbn in Hinv. destruct Hinv as (-> & T' & d & HT & -> & Hown).
  injection HT as <-.
  assert (s2 = s) as ->.
  { pose proof (owner_data_eval _ _ _ _ Hown). congruence. }
  assert (r = SW_CONTEXT_DATA.sdl_renderer cd) as ->.
  { pose proof (SDL_RENDERER_of_target_eval _ _ _ _ Hown). congruence. }
  case_decide as Hne.
  - rewrite Hd. unfold modify_context_data, modify. unfold mbind, M_bind.
    unfold deref_context_data in Hcd. rewrite Hcd. unfold update at 1.
    destruct Hown as (t & W & wt & c & cv & Ht & HW & Hwt & Hc & Hcv & Hdd & Hcdd).
    assert (Hown : owner_cache s T d cd) by (unfold owner_cache; eauto 12).
    fold (rebind T d cd s).
    unfold deref_target, deref at 1. cbn [targets rebind with_context_datas].
    rewrite Ht.
    destruct (GPU_Target.image t) as [im|].
    + unfold IMAGE_DATA, deref_image, deref_image_data, deref, emit, update.
      unfold_monad. cbn [images image_datas rebind with_context_datas].
      repeat case_match; simplify_eq.
      * exists T, d, cd. split; [done|]. split; [done|]. split; [done|].
        right. split; [done|]. eexists. reflexivity.
      * right. by exists T, d, cd.
      * right. by exists T, d, cd.
      * right. by exists T, d, cd.
    + unfold emit, update. unfold_monad.
      exists T, d, cd. split; [done|]. split; [done|]. split; [done|].
      right. split; [done|]. eexists. reflexivity.
  - unfold_monad. exists T, d, cd. split; [done|]. split; [done|]. split; [done|].
    left. split; [|done].
    by destruct (decide (SW_CONTEXT_DATA.render_target cd = Some T)).
Qed.

Lemma set_destination_calls_snoc tr e :
  set_destination_calls (tr ++ [e])
  = (set_destination_calls tr + if is_SetRenderTarget e then 1 else 0)%nat.
Proof.
  unfold set_destination_calls. rewrite filter_app, length_app. f_equal.
  destruct e; reflexivity.
Qed.

Lemma owner_cache_log e s T d cd : owner_cache (log e s) T d cd ↔ owner_cache s T d cd.
Proof. reflexivity. Qed.

Lemma bound_log e s T : bound (log e s) T ↔ bound s T.
Proof. reflexivity. Qed.

Lemma bound_rebind s T d cd : owner_cache s T d cd → bound (rebind T d cd s) T.
Proof.
  intros (t & W & wt & c & cv & Ht & HW & Hwt & Hc & Hcv & Hd & Hcd).
  exists d, (SW_CONTEXT_DATA.set_render_target (Some T) cd). split; [|done].
  exists t, W, wt, c, cv. cbn. repeat split; try done. apply lookup_insert_eq.
Qed.

(** A bind of the cached destination: no call, no change, the handle of the
    Context's renderer returned. *)
Lemma setRenderTarget_hit s T d cd :
  owner_cache s T d cd → SW_CONTEXT_DATA.render_target cd = Some T →
  setRenderTarget (Some T) s = Ok (SW_CONTEXT_DATA.sdl_renderer cd) s.
Proof.
  intros Hown Hc. unfold setRenderTarget. unfold mbind, M_bind.
  rewrite (SDL_RENDERER_of_target_eval _ _ _ _ Hown), (owner_data_eval _ _ _ _ Hown).
  destruct Hown as (t & W & wt & c & cv & Ht & HW & Hwt & Hcx & Hcv & Hd & Hcd).
  unfold deref_context_data, deref. rewrite Hcd.
  case_decide; [congruence|]. reflexivity.
Qed.

Lemma setRenderTarget_calls p s :
  let r := setRenderTarget p s in
  (set_destination_calls (trace (final_state r))
   <= set_destination_calls (trace s) + 1)%nat
  ∧ (∀ a, r = Ok a (final_state r) → ∃ T, p = Some T ∧ bound (final_state r) T).
Proof.
  cbv zeta. pose proof (setRenderTarget_inv p s) as H.
  destruct (setRenderTarget p s) as [r s'|s']; cbn [final_state].
  - destruct H as (T & d & cd & -> & Hown & -> & [[Hc ->] | [Hc [tex ->]]]).
    + split; [lia|]. intros _ _. exists T. split; [done|]. by exists d, cd.
    + split.
      * cbn [trace log with_trace rebind with_context_datas].
        rewrite set_destination_calls_snoc. cbn. lia.
      * intros _ _. exists T. split; [done|]. apply bound_log. by apply bound_rebind.
  - split; [|done].
    destruct H as [-> | (T & d & cd & _ & _ & _ & ->)];
      cbn [trace rebind with_context_datas]; lia.
Qed.

(** Every way a blit can end, as far as the destination switches go. *)
Lemma Blit_calls round image src_rect target x y s r :
  swrender_Blit round image src_rect target x y s = r →
  (set_destination_calls (trace (final_state r))
   <= set_destination_calls (trace s) + 1)%nat
  ∧ (∀ T, target = Some T → bound s T →
       set_destination_calls (trace (final_state r)) = set_destination_calls (trace s))
  ∧ (∀ u, r = Ok u (final_state r) → ∃ T, target = Some T ∧ bound (final_state r) T).
Proof.
  intros Hr. unfold swrender_Blit in Hr. unfold mbind at 1, M_bind at 1 in Hr.
  destruct (deref_image image s) as [i s0|s0] eqn:Hi.
  2:{ assert (s0 = s) as ->.
      { revert Hi. unfold_access. repeat case_match; congruence. }
      subst r. cbn [final_state]. split; [lia|]. split; done. }
  assert (s0 = s) as ->.
  { revert Hi. unfold_access. repeat case_match; congruence. }
  cbv zeta in Hr. unfold mbind at 1, M_bind at 1 in Hr.
  pose proof (setRenderTarget_calls target s) as [Hle Hb].
  assert (Hhit : ∀ T, target = Some T → bound s T →
            ∃ h, setRenderTarget target s = Ok h s).
  { intros T -> (d & cd & Hown & Hc).
    rewrite (setRenderTarget_hit _ _ _ _ Hown Hc). eauto. }
  destruct (setRenderTarget target s) as [h s1|s1] eqn:Hs; cbn [final_state] in *.
  - destruct (Hb h eq_refl) as (T & -> & Hbound).
    assert (Hsame : bound s T → s1 = s).
    { intros HbT. destruct (Hhit T eq_refl HbT) as (h' & Hh). congruence. }
    revert Hr. unfold IMAGE_DATA, deref_image, deref_image_data, deref, emit, update.
    unfold_monad.
    repeat case_match; intros <-; simplify_eq; cbn [final_state trace with_trace];
      rewrite ?set_destination_calls_snoc; cbn [is_SetRenderTarget];
      (split; [lia|]); (split; [|intros; try done; exists T; by split]);
      intros T' [= <-] HbT; rewrite (Hsame HbT); lia.
  - subst r. cbn [final_state]. split; [lia|]. split; [|done].
    intros T -> HbT. destruct (Hhit T eq_refl HbT) as (h & Hh). congruence.
Qed.

(** C4: binding the cached destination is idempotent.  When the cache record
    of the Context that owns [T] already holds [T], [setRenderTarget] makes no
    call and changes nothing, and returns that Context's renderer handle.
    Hence two consecutive blits to one target, from any state and whatever
    else they are given, tell the drawing library to switch its destination
    at most once. *)
Theorem bind_is_idempotent :
  (∀ s T d cd,
     owner_cache s T d cd → SW_CONTEXT_DATA.render_target cd = Some T →
     setRenderTarget (Some T) s = Ok (SW_CONTEXT_DATA.sdl_renderer cd) s)
  ∧ (∀ round s target image1 src_rect1 x1 y1 image2 src_rect2 x2 y2,
       (set_destination_calls
          (trace (final_state
                    ((swrender_Blit round image1 src_rect1 target x1 y1;;
                      swrender_Blit round image2 src_rect2 target x2 y2) s)))
        <= set_destination_calls (trace s) + 1)%nat).
Proof.
  split; [exact setRenderTarget_hit|].
  intros round s target image1 src_rect1 x1 y1 image2 src_rect2 x2 y2.
  unfold mbind, M_bind.
  pose proof (Blit_calls round image1 src_rect1 target x1 y1 s _ eq_refl)
    as (Hle & _ & Hb).
  destruct (swrender_Blit round image1 src_rect1 target x1 y1 s) as [u s1|s1];
    cbn [final_state] in *; [|exact Hle].
  destruct (Hb u eq_refl) as (T & -> & HbT).
  pose proof (Blit_calls round image2 src_rect2 (Some T) x2 y2 s1 _ eq_refl)
    as (_ & Hsame & _).
  rewrite (Hsame T eq_refl HbT). exact Hle.
Qed.

(** ** Lifetimes: symbolic evaluation of the operations *)

Ltac is_numeral z :=
  lazymatch z with Z0 => idtac | Zpos _ => idtac | Zneg _ => idtac end.

(** Computes the integer operations and tests whose operands are numerals. *)
Ltac cint_eval :=
  repeat match goal with
  | |- context [CInt.add ?a ?b] =>
      is_numeral a; is_numeral b;
      let v := eval vm_compute in (CInt.add a b) in
      change (CInt.add a b) with v
  | |- context [CInt.sub ?a ?b] =>
      is_numeral a; is_numeral b;
      let v := eval vm_compute in (CInt.sub a b) in
      change (CInt.sub a b) with v
  | |- context [?a >? ?b] =>
      is_numeral a; is_numeral b;
      let v := eval vm_compute in (a >? b) in
      change (a >? b) with v
  | |- context [?a <=? ?b] =>
      is_numeral a; is_numeral b;
      let v := eval vm_compute in (a <=? b) in
      change (a <=? b) with v
  end.

(** Reduces the projections and updates of the state and of the heap's
    records, and nothing of the maps and sets themselves. *)
Tactic Notation "state_simpl" :=
  cbn [targets images contexts context_datas image_datas sdl_renderers
       sdl_textures current_context_target default_image_anchor_x
       default_image_anchor_y trace
       with_targets with_images with_contexts with_context_datas
       with_image_datas with_sdl_renderers with_sdl_textures
       with_current_context_target with_trace log rebind final_state
       SW_CONTEXT_DATA.sdl_renderer SW_CONTEXT_DATA.render_target
       SW_CONTEXT_DATA.set_render_target
       SW_IMAGE_DATA.refcount SW_IMAGE_DATA.sdl_format SW_IMAGE_DATA.tex
       SW_IMAGE_DATA.set_refcount
       GPU_Context.data
       GPU_Target.context_target GPU_Target.image GPU_Target.context
       GPU_Target.refcount GPU_Target.is_alias GPU_Target.set_refcount
       GPU_Target.set_context
       GPU_Image.context_target GPU_Image.target GPU_Image.w GPU_Image.h
       GPU_Image.data GPU_Image.refcount GPU_Image.is_alias
       GPU_Image.anchor_x GPU_Image.anchor_y GPU_Image.blend_mode
       GPU_Image.filter_mode GPU_Image.format GPU_Image.bytes_per_pixel
       GPU_Image.set_target GPU_Image.set_refcount GPU_Image.set_is_alias
       negb andb orb fst snd].

Tactic Notation "state_simpl" "in" hyp(H) :=
  cbn [targets images contexts context_datas image_datas sdl_renderers
       sdl_textures current_context_target default_image_anchor_x
       default_image_anchor_y trace
       with_targets with_images with_contexts with_context_datas
       with_image_datas with_sdl_renderers with_sdl_textures
       with_current_context_target with_trace log rebind final_state
       SW_CONTEXT_DATA.sdl_renderer SW_CONTEXT_DATA.render_target
       SW_CONTEXT_DATA.set_render_target
       SW_IMAGE_DATA.refcount SW_IMAGE_DATA.sdl_format SW_IMAGE_DATA.tex
       SW_IMAGE_DATA.set_refcount
       GPU_Context.data
       GPU_Target.context_target GPU_Target.image GPU_Target.context
       GPU_Target.refcount GPU_Target.is_alias GPU_Target.set_refcount
       GPU_Target.set_context
       GPU_Image.context_target GPU_Image.target GPU_Image.w GPU_Image.h
       GPU_Image.data GPU_Image.refcount GPU_Image.is_alias
       GPU_Image.anchor_x GPU_Image.anchor_y GPU_Image.blend_mode
       GPU_Image.filter_mode GPU_Image.format GPU_Image.bytes_per_pixel
       GPU_Image.set_target GPU_Image.set_refcount GPU_Image.set_is_alias
       negb andb orb fst snd] in H.

(** Runs a program on a symbolic heap: reduces, resolves lookups through
    updates, and reads the heap's known cells from the hypotheses. *)
Ltac heap_eval :=
  repeat (progress
    (state_simpl;
     rewrite ?lookup_insert_eq, ?lookup_insert_ne, ?lookup_delete_eq,
       ?lookup_delete_ne by done;
     cint_eval;
     repeat match goal with
     | H : ?l = _ |- context [?l] =>
         tryif is_var l then fail else rewrite H
     end)).

Ltac unfold_ops :=
  unfold swrender_CreateAliasImage, swrender_FreeImage, swrender_LoadTarget,
    swrender_FreeTarget, swrender_CreateImage, swrender_CreateTargetFromWindow,
    setRenderTarget, owner_data, SDL_RENDERER_of_target, CONTEXT_of_target,
    SDL_RENDERER, IMAGE_DATA, CONTEXT_DATA, call_SDL_DestroyTexture,
    call_SDL_DestroyRenderer, call_SDL_CreateTexture, call_SDL_CreateRenderer in *;
  unfold_access; unfold_monad.

Lemma state_ext (s1 s2 : State) :
  targets s1 = targets s2 → images s1 = images s2 →
  contexts s1 = contexts s2 → context_datas s1 = context_datas s2 →
  image_datas s1 = image_datas s2 → sdl_renderers s1 = sdl_renderers s2 →
  sdl_textures s1 = sdl_textures s2 →
  current_context_target s1 = current_context_target s2 →
  default_image_anchor_x s1 = default_image_anchor_x s2 →
  default_image_anchor_y s1 = default_image_anchor_y s2 →
  trace s1 = trace s2 → s1 = s2.
Proof. destruct s1, s2; cbn; intros; subst; reflexivity. Qed.

(** Closes an equation between two results whose states differ only in how
    their maps are written. *)
Ltac state_eq :=
  lazymatch goal with
  | |- Ok ?a _ = Ok ?a _ => apply (f_equal (Ok a))
  | |- Fault _ = Fault _ => apply (f_equal Fault)
  | |- _ => idtac
  end;
  apply state_ext; state_simpl;
  rewrite ?insert_insert_eq, ?delete_insert_eq; try reflexivity.

Lemma fresh_lookup_None {T : Type} (m : gmap addr T) : m !! fresh (dom m) = None.
Proof. apply not_elem_of_dom, is_fresh. Qed.

Lemma fresh_ne_live {T : Type} (m : gmap addr T) (a : addr) (v : T) :
  m !! a = Some v → fresh (dom m) ≠ a.
Proof. intros Ha Heq. rewrite <- Heq, fresh_lookup_None in Ha. discriminate. Qed.

Lemma CreateAliasImage_ok s I i d idv :
  images s !! I = Some i → GPU_Image.data i = Some d →
  image_datas s !! d = Some idv →
  swrender_CreateAliasImage true (Some I) s
  = Ok (Some (fresh (dom (images s))))
       (aliased I (fresh (dom (images s))) i d idv s).
Proof.
  intros Hi Hd Hid.
  pose proof (fresh_ne_live _ _ _ Hi) as Hne.
  unfold_ops. remember (fresh (dom (images s))) as A eqn:HA.
  heap_eval. unfold aliased. state_eq.
Qed.

Lemma FreeImage_null s : swrender_FreeImage None s = Ok tt s.
Proof. reflexivity. Qed.

Lemma FreeImage_released s a :
  images s !! a = None → swrender_FreeImage (Some a) s = Fault s.
Proof. intros Ha. unfold_ops. heap_eval. reflexivity. Qed.

Lemma FreeImage_still_referenced s a i :
  images s !! a = Some i → 0 < CInt.sub (GPU_Image.refcount i) 1 →
  swrender_FreeImage (Some a) s
  = Ok tt (with_images
             (insert a (GPU_Image.set_refcount (CInt.sub (GPU_Image.refcount i) 1) i)) s).
Proof.
  intros Ha Hrc. unfold_ops. heap_eval.
  destruct (Z.gtb_spec (CInt.sub (GPU_Image.refcount i) 1) 0); [reflexivity|lia].
Qed.

Lemma FreeImage_keeps_texture s a i d idv :
  images s !! a = Some i → CInt.sub (GPU_Image.refcount i) 1 <= 0 →
  GPU_Image.target i = None → GPU_Image.data i = Some d →
  image_datas s !! d = Some idv → 0 < CInt.sub (SW_IMAGE_DATA.refcount idv) 1 →
  swrender_FreeImage (Some a) s = Ok tt (image_freed a d idv s).
Proof.
  intros Ha Hrc Ht Hd Hid Hdrc. unfold_ops. heap_eval.
  destruct (Z.gtb_spec (CInt.sub (GPU_Image.refcount i) 1) 0); [lia|].
  heap_eval.
  destruct (Z.leb_spec (CInt.sub (SW_IMAGE_DATA.refcount idv) 1) 0); [lia|].
  heap_eval. unfold image_freed. state_eq.
Qed.

Lemma FreeImage_destroys_texture s a i d idv :
  images s !! a = Some i → CInt.sub (GPU_Image.refcount i) 1 <= 0 →
  GPU_Image.target i = None → GPU_Image.data i = Some d →
  image_datas s !! d = Some idv → CInt.sub (SW_IMAGE_DATA.refcount idv) 1 <= 0 →
  swrender_FreeImage (Some a) s = Ok tt (image_destroyed a d idv s).
Proof.
  intros Ha Hrc Ht Hd Hid Hdrc. unfold_ops. heap_eval.
  destruct (Z.gtb_spec (CInt.sub (GPU_Image.refcount i) 1) 0); [lia|].
  heap_eval.
  destruct (Z.leb_spec (CInt.sub (SW_IMAGE_DATA.refcount idv) 1) 0); [|lia].
  unfold image_destroyed.
  destruct (SW_IMAGE_DATA.tex idv) as [t|]; heap_eval; state_eq.
Qed.

(** *** Targets *)

Lemma LoadTarget_new s I i :
  images s !! I = Some i → GPU_Image.target i = None →
  swrender_LoadTarget true (Some I) s
  = Ok (Some (fresh (dom (targets s))))
       (loaded I (fresh (dom (targets s))) i s).
Proof.
  intros Hi Ht. unfold_ops. remember (fresh (dom (targets s))) as T eqn:HT.
  symmetry in HT. heap_eval. unfold loaded, derived_target. state_eq.
Qed.

Lemma LoadTarget_new_failed s I i :
  images s !! I = Some i → GPU_Image.target i = None →
  swrender_LoadTarget false (Some I) s = Ok None s.
Proof. intros Hi Ht. unfold_ops. heap_eval. reflexivity. Qed.

Lemma LoadTarget_again ok s I i T tv :
  images s !! I = Some i → GPU_Image.target i = Some T →
  targets s !! T = Some tv →
  swrender_LoadTarget ok (Some I) s
  = Ok (Some T)
       (with_targets
          (insert T (GPU_Target.set_refcount (CInt.add (GPU_Target.refcount tv) 1) tv))
          s).
Proof. intros Hi Ht HT. unfold_ops. heap_eval. reflexivity. Qed.

Lemma FreeTarget_null s : swrender_FreeTarget None s = Ok tt s.
Proof. reflexivity. Qed.

Lemma FreeTarget_still_referenced s T tv :
  targets s !! T = Some tv → 0 < CInt.sub (GPU_Target.refcount tv) 1 →
  swrender_FreeTarget (Some T) s
  = Ok tt (with_targets
             (insert T (GPU_Target.set_refcount (CInt.sub (GPU_Target.refcount tv) 1) tv))
             s).
Proof.
  intros HT Hrc. unfold_ops. heap_eval.
  destruct (Z.gtb_spec (CInt.sub (GPU_Target.refcount tv) 1) 0); [reflexivity|lia].
Qed.

(** The last reference to an offscreen target that is not the cached
    destination: the image's back-reference is cleared, the struct freed. *)
Lemma FreeTarget_offscreen_unbound s T tv I i d cd :
  targets s !! T = Some tv → CInt.sub (GPU_Target.refcount tv) 1 <= 0 →
  GPU_Target.is_alias tv = false → GPU_Target.image tv = Some I →
  images s !! I = Some i → GPU_Target.context tv = None →
  owner_cache s T d cd → SW_CONTEXT_DATA.render_target cd ≠ Some T →
  swrender_FreeTarget (Some T) s
  = Ok tt (log (SDL_free BTarget (Some T)) (target_released T I i s)).
Proof.
  intros HT Hrc Hal Him Hi Hcx
    (t & W & wt & c & cv & Ht & HW & Hwt & Hc & Hcv & Hd & Hcd) Hne.
  assert (t = tv) as -> by congruence.
  assert (W ≠ T) by (intros ->; congruence).
  unfold_ops. heap_eval.
  destruct (Z.gtb_spec (CInt.sub (GPU_Target.refcount tv) 1) 0); [lia|].
  heap_eval. rewrite bool_decide_true by done. heap_eval.
  case_decide; [congruence|]. heap_eval. unfold target_released. state_eq.
Qed.

(** The last reference to an offscreen target that is the cached
    destination of its Context, whose window target is [W]: the cache is
    pointed back at [W] and the drawing library at the window, and only then
    the struct is freed. *)
Lemma FreeTarget_offscreen_bound s T tv I i W wt d cd :
  targets s !! T = Some tv → CInt.sub (GPU_Target.refcount tv) 1 <= 0 →
  GPU_Target.is_alias tv = false → GPU_Target.image tv = Some I →
  images s !! I = Some i → GPU_Target.context tv = None →
  GPU_Target.context_target tv = Some W →
  targets s !! W = Some wt → GPU_Target.context_target wt = Some W →
  GPU_Target.image wt = None →
  owner_cache s T d cd → SW_CONTEXT_DATA.render_target cd = Some T →
  swrender_FreeTarget (Some T) s
  = Ok tt (log (SDL_free BTarget (Some T))
             (log (SDL_SetRenderTarget (SW_CONTEXT_DATA.sdl_renderer cd) None)
                (rebind W d cd (target_released T I i s)))).
Proof.
  intros HT Hrc Hal Him Hi Hcx HWt HW HWW HWi
    (t & W' & wt' & c & cv & Ht & HW' & Hwt & Hc & Hcv & Hd & Hcd) Hb.
  assert (t = tv) as -> by congruence.
  assert (W' = W) as -> by congruence.
  assert (wt' = wt) as -> by congruence.
  assert (W ≠ T) by (intros ->; congruence).
  unfold_ops. heap_eval.
  destruct (Z.gtb_spec (CInt.sub (GPU_Target.refcount tv) 1) 0); [lia|].
  heap_eval. rewrite bool_decide_true by done. heap_eval.
  case_decide; [|congruence]. heap_eval.
  case_decide; [|congruence]. heap_eval.
  unfold target_released. state_eq.
Qed.

(** C6 (amended): a live image [I] with no derived target yet, whose
    [context_target] is a window target with its Context, and a cache that
    holds no dangling pointer.  With the Target allocated, two calls of
    [loadTarget] return the same pointer, the second only counting the
    existing Target once more, and leave its refcount at 2; the first
    [freeTarget] leaves the struct in place with refcount 1, the second
    releases it and clears the image's back-reference. *)
Theorem loadTarget_twice_freeTarget_twice
    (s : State) (I W c dd : addr) (i : GPU_Image.t) (wt : GPU_Target.t)
    (cv : GPU_Context.t) (cd : SW_CONTEXT_DATA.t) :
  images s !! I = Some i →
  GPU_Image.target i = None →
  GPU_Image.context_target i = Some W →
  targets s !! W = Some wt →
  GPU_Target.context wt = Some c →
  contexts s !! c = Some cv →
  GPU_Context.data cv = Some dd →
  context_datas s !! dd = Some cd →
  (∀ t, SW_CONTEXT_DATA.render_target cd = Some t → is_Some (targets s !! t)) →
  ∃ T s1 s2 s3 s4,
    swrender_LoadTarget true (Some I) s = Ok (Some T) s1
    ∧ (∀ ok, swrender_LoadTarget ok (Some I) s1 = Ok (Some T) s2)
    ∧ (GPU_Target.refcount <$> (targets s1 !! T)) = Some 1
    ∧ (GPU_Target.refcount <$> (targets s2 !! T)) = Some 2
    ∧ swrender_FreeTarget (Some T) s2 = Ok tt s3
    ∧ (GPU_Target.refcount <$> (targets s3 !! T)) = Some 1
    ∧ trace s3 = trace s
    ∧ swrender_FreeTarget (Some T) s3 = Ok tt s4
    ∧ targets s4 !! T = None
    ∧ (GPU_Image.target <$> (images s4 !! I)) = Some None
    ∧ trace s4 = trace s ++ [SDL_free BTarget (Some T)].
Proof.
  intros Hi Ht HW Hwt Hc Hcv Hdd Hcd Hlive.
  pose proof (fresh_lookup_None (targets s)) as HTn.
  pose proof (fresh_ne_live _ _ _ Hwt) as HTW.
  pose proof (LoadTarget_new s I i Hi Ht) as H1.
  remember (fresh (dom (targets s))) as T eqn:HT. clear HT.
  set (tv1 := derived_target I i) in *.
  set (i1 := GPU_Image.set_target (Some T) i).
  set (s1 := loaded I T i s) in *.
  assert (Hi1 : images s1 !! I = Some i1) by apply lookup_insert_eq.
  assert (HT1 : targets s1 !! T = Some tv1) by apply lookup_insert_eq.
  set (tv2 := GPU_Target.set_refcount (CInt.add (GPU_Target.refcount tv1) 1) tv1).
  set (s2 := with_targets (insert T tv2) s1).
  assert (H2 : ∀ ok, swrender_LoadTarget ok (Some I) s1 = Ok (Some T) s2).
  { intros ok. by apply (LoadTarget_again ok s1 I i1 T tv1). }
  assert (HT2 : targets s2 !! T = Some tv2) by apply lookup_insert_eq.
  set (tv3 := GPU_Target.set_refcount (CInt.sub (GPU_Target.refcount tv2) 1) tv2).
  set (s3 := with_targets (insert T tv3) s2).
  assert (H3 : swrender_FreeTarget (Some T) s2 = Ok tt s3).
  { apply (FreeTarget_still_referenced s2 T tv2 HT2). vm_compute. reflexivity. }
  assert (HT3 : targets s3 !! T = Some tv3) by apply lookup_insert_eq.
  assert (Hi3 : images s3 !! I = Some i1) by exact Hi1.
  assert (Hown : owner_cache s3 T dd cd).
  { exists tv3, W, wt, c, cv. repeat split; try assumption.
    unfold s3, s2, s1, loaded. state_simpl.
    rewrite !lookup_insert_ne by done. exact Hwt. }
  assert (Hne : SW_CONTEXT_DATA.render_target cd ≠ Some T).
  { intros Heq. destruct (Hlive T Heq) as [x Hx]. congruence. }
  assert (H4 : swrender_FreeTarget (Some T) s3
               = Ok tt (log (SDL_free BTarget (Some T)) (target_released T I i1 s3))).
  { apply (FreeTarget_offscreen_unbound s3 T tv3 I i1 dd cd);
      [exact HT3| |reflexivity|reflexivity|exact Hi3|reflexivity|exact Hown|exact Hne].
    vm_compute. congruence. }
  exists T, s1, s2, s3, (log (SDL_free BTarget (Some T)) (target_released T I i1 s3)).
  split; [exact H1|]. split; [exact H2|].
  split; [by rewrite HT1|]. split; [by rewrite HT2|].
  split; [exact H3|]. split; [by rewrite HT3|].
  split; [reflexivity|]. split; [exact H4|].
  split; [apply lookup_delete_eq|].
  split; [|reflexivity].
  unfold target_released. state_simpl. by rewrite lookup_insert_eq.
Qed.

(** ** Creation and its failures *)

(** C7 (amended): [createTargetFromWindow] pushes
    [GPU_ERROR_UNSUPPORTED_FUNCTION] and returns null when a target is passed
    for re-initialization or when the renderer already has a window target;
    when the window handle cannot be resolved it pushes
    [GPU_ERROR_BACKEND_ERROR] and returns null.  In the three cases the state
    is the one before the call with the error appended to the calls made: the
    renderer's current target, its Context and the whole heap are unchanged. *)
Theorem createTargetFromWindow_failures
    (window : option addr) (sdlr_ok : bool) (ww hh : Z)
    (target_ok context_ok context_data_ok : bool) (windowID : Z) (s : State) :
  (∀ t,
     swrender_CreateTargetFromWindow window sdlr_ok ww hh target_ok context_ok
       context_data_ok windowID (Some t) s
     = Ok None
         (log (GPU_PushErrorCode "GPU_CreateTargetFromWindow"
                 GPU_ERROR_UNSUPPORTED_FUNCTION
                 "reinitializing target not supported") s))
  ∧ (∀ cur, current_context_target s = Some cur →
       swrender_CreateTargetFromWindow window sdlr_ok ww hh target_ok context_ok
         context_data_ok windowID None s
       = Ok None
           (log (GPU_PushErrorCode "GPU_CreateTargetFromWindow"
                   GPU_ERROR_UNSUPPORTED_FUNCTION
                   "multiple windows not supported") s))
  ∧ (current_context_target s = None →
       swrender_CreateTargetFromWindow None sdlr_ok ww hh target_ok context_ok
         context_data_ok windowID None s
       = Ok None
           (log (GPU_PushErrorCode "GPU_CreateTargetFromWindow"
                   GPU_ERROR_BACKEND_ERROR
                   "Failed to acquire the window from the given ID.") s)).
Proof.
  repeat apply conj.
  - intros t. reflexivity.
  - intros cur Hcur. unfold swrender_CreateTargetFromWindow. unfold_monad.
    rewrite Hcur. reflexivity.
  - intros Hcur. unfold swrender_CreateTargetFromWindow. unfold_monad.
    rewrite Hcur. reflexivity.
Qed.

Lemma CreateImage_no_context image_ok image_data_ok tex_ok w h format s :
  current_context_target s = None →
  swrender_CreateImage image_ok image_data_ok tex_ok w h format s
  = Ok None (log (GPU_PushErrorCode "GPU_CreateImage" GPU_ERROR_USER_ERROR
                    "No current context") s).
Proof.
  intros Hcur. unfold swrender_CreateImage. unfold_monad. rewrite Hcur. reflexivity.
Qed.

Lemma CreateImage_ok w h format sdl_format num_layers bytes_per_pixel s sdlr :
  has_context s sdlr →
  sdl_format_of format = Some (sdl_format, num_layers, bytes_per_pixel) →
  let a := fresh (dom (images s)) in
  let d := fresh (dom (image_datas s)) in
  let tex := fresh (sdl_textures s) in
  swrender_CreateImage true true true w h format s
  = Ok (Some a)
      (with_images
         (insert a (created_image s w h format sdl_format num_layers bytes_per_pixel d))
         (log (SDL_SetTextureBlendMode (Some tex) SDL_BLENDMODE_BLEND)
            (with_image_datas (insert d (SW_IMAGE_DATA.mk 1 sdl_format (Some tex)))
               (with_sdl_textures (λ ts, {[tex]} ∪ ts)
                  (log (SDL_CreateTexture sdlr sdl_format w h) s))))).
Proof.
  intros (W & wt & c & cv & dd & cd & Hcur & HW & Hc & Hcv & Hdd & Hcd & Hr) Hf.
  cbv zeta. unfold_ops.
  remember (fresh (dom (images s))) as a eqn:Ha. symmetry in Ha.
  remember (fresh (dom (image_datas s))) as d eqn:Hd. symmetry in Hd.
  remember (fresh (sdl_textures s)) as tex eqn:Htex. symmetry in Htex.
  heap_eval. unfold created_image. state_eq. rewrite Hcur. reflexivity.
Qed.

Lemma CreateImage_unsupported_format tex_ok w h format s sdlr :
  has_context s sdlr → sdl_format_of format = None →
  swrender_CreateImage true true tex_ok w h format s
  = Ok None
      (log (SDL_free BImageData (Some (fresh (dom (image_datas s)))))
         (log (SDL_free BImage (Some (fresh (dom (images s)))))
            (log (GPU_PushErrorCode "GPU_CreateImage" GPU_ERROR_BACKEND_ERROR
                    "Unsupported format") s))).
Proof.
  intros (W & wt & c & cv & dd & cd & Hcur & HW & Hc & Hcv & Hdd & Hcd & Hr) Hf.
  pose proof (fresh_lookup_None (images s)) as Hna.
  pose proof (fresh_lookup_None (image_datas s)) as Hnd.
  unfold_ops.
  remember (fresh (dom (images s))) as a eqn:Ha. symmetry in Ha.
  remember (fresh (dom (image_datas s))) as d eqn:Hd. symmetry in Hd.
  heap_eval. state_eq; by apply delete_id.
Qed.

Lemma CreateImage_texture_failure w h format sdl_format num_layers bytes_per_pixel s sdlr :
  has_context s sdlr →
  sdl_format_of format = Some (sdl_format, num_layers, bytes_per_pixel) →
  swrender_CreateImage true true false w h format s
  = Ok None
      (log (GPU_PushErrorCode "GPU_CreateImage" GPU_ERROR_BACKEND_ERROR
              "SDL_CreateTexture failed: %s")
         (log (SDL_free BImageData (Some (fresh (dom (image_datas s)))))
            (log (SDL_free BImage (Some (fresh (dom (images s)))))
               (log (SDL_CreateTexture sdlr sdl_format w h) s)))).
Proof.
  intros (W & wt & c & cv & dd & cd & Hcur & HW & Hc & Hcv & Hdd & Hcd & Hr) Hf.
  pose proof (fresh_lookup_None (images s)) as Hna.
  pose proof (fresh_lookup_None (image_datas s)) as Hnd.
  unfold_ops.
  remember (fresh (dom (images s))) as a eqn:Ha. symmetry in Ha.
  remember (fresh (dom (image_datas s))) as d eqn:Hd. symmetry in Hd.
  heap_eval. state_eq; by apply delete_id.
Qed.

(** An allocation that fails: what was allocated is released, null is
    returned, the heap is as before and no error is pushed. *)
Lemma CreateImage_allocation_failure image_ok image_data_ok tex_ok w h format s sdlr :
  has_context s sdlr → image_ok && image_data_ok = false →
  ∃ p q,
    swrender_CreateImage image_ok image_data_ok tex_ok w h format s
    = Ok None (log (SDL_free BImageData q) (log (SDL_free BImage p) s))
    ∧ p = (if image_ok then Some (fresh (dom (images s))) else None)
    ∧ q = (if image_data_ok then Some (fresh (dom (image_datas s))) else None).
Proof.
  intros (W & wt & c & cv & dd & cd & Hcur & HW & Hc & Hcv & Hdd & Hcd & Hr) Hok.
  pose proof (fresh_lookup_None (images s)) as Hna.
  pose proof (fresh_lookup_None (image_datas s)) as Hnd.
  eexists _, _. split; [|split; reflexivity].
  unfold_ops.
  remember (fresh (dom (images s))) as a eqn:Ha. symmetry in Ha.
  remember (fresh (dom (image_datas s))) as d eqn:Hd. symmetry in Hd.
  destruct image_ok, image_data_ok; try discriminate; heap_eval; state_eq;
    by apply delete_id.
Qed.

Lemma sdl_format_of_supported format :
  format = GPU_FORMAT_RGB ∨ format = GPU_FORMAT_RGBA →
  ∃ sdl_format num_layers,
    sdl_format_of format = Some (sdl_format, num_layers, 4).
Proof. intros [-> | ->]; eexists _, _; reflexivity. Qed.

Lemma sdl_format_of_other format :
  format ≠ GPU_FORMAT_RGB → format ≠ GPU_FORMAT_RGBA → sdl_format_of format = None.
Proof. destruct format; intros; first [reflexivity | congruence]. Qed.

(** C8 (amended): without a current context target [createImage] pushes
    [GPU_ERROR_USER_ERROR] and returns null.  With one, and with both structs
    allocated: for RGB and RGBA, when the texture is created, it returns an
    image whose anchor is the renderer's default anchor ((0.5, 0.5) as long
    as the renderer keeps the defaults it was created with), with blend mode
    normal, filter linear and refcount 1; for RGB and RGBA, when the texture
    cannot be created, and for every other format tag, it pushes
    [GPU_ERROR_BACKEND_ERROR] and returns null.  When an allocation fails it
    returns null and pushes nothing. *)
Theorem createImage_outcomes (w h : Z) (s : State) :
  (∀ image_ok image_data_ok tex_ok format,
     current_context_target s = None →
     ∃ msg,
       swrender_CreateImage image_ok image_data_ok tex_ok w h format s
       = Ok None (log (GPU_PushErrorCode "GPU_CreateImage" GPU_ERROR_USER_ERROR msg) s))
  ∧ (∀ sdlr format,
       has_context s sdlr →
       format = GPU_FORMAT_RGB ∨ format = GPU_FORMAT_RGBA →
       ∃ a i s',
         swrender_CreateImage true true true w h format s = Ok (Some a) s'
         ∧ images s' !! a = Some i
         ∧ GPU_Image.anchor_x i = default_image_anchor_x s
         ∧ GPU_Image.anchor_y i = default_image_anchor_y s
         ∧ (default_image_anchor_x s = default_image_anchor_x swrender_CreateRenderer →
            default_image_anchor_y s = default_image_anchor_y swrender_CreateRenderer →
            GPU_Image.anchor_x i = (1#2)%Q ∧ GPU_Image.anchor_y i = (1#2)%Q)
         ∧ GPU_Image.blend_mode i = GPU_GetBlendModeFromPreset GPU_BLEND_NORMAL
         ∧ GPU_Image.filter_mode i = GPU_FILTER_LINEAR
         ∧ GPU_Image.refcount i = 1
         ∧ GPU_Image.format i = format)
  ∧ (∀ sdlr format,
       has_context s sdlr →
       format = GPU_FORMAT_RGB ∨ format = GPU_FORMAT_RGBA →
       ∃ msg s',
         swrender_CreateImage true true false w h format s = Ok None s'
         ∧ In (GPU_PushErrorCode "GPU_CreateImage" GPU_ERROR_BACKEND_ERROR msg) (trace s')
         ∧ images s' = images s ∧ image_datas s' = image_datas s
         ∧ sdl_textures s' = sdl_textures s)
  ∧ (∀ sdlr tex_ok format,
       has_context s sdlr →
       format ≠ GPU_FORMAT_RGB → format ≠ GPU_FORMAT_RGBA →
       ∃ msg s',
         swrender_CreateImage true true tex_ok w h format s = Ok None s'
         ∧ In (GPU_PushErrorCode "GPU_CreateImage" GPU_ERROR_BACKEND_ERROR msg) (trace s')
         ∧ images s' = images s ∧ image_datas s' = image_datas s
         ∧ sdl_textures s' = sdl_textures s)
  ∧ (∀ sdlr image_ok image_data_ok tex_ok format,
       has_context s sdlr → image_ok && image_data_ok = false →
       ∃ p q,
         swrender_CreateImage image_ok image_data_ok tex_ok w h format s
         = Ok None (log (SDL_free BImageData q) (log (SDL_free BImage p) s))).
Proof.
  repeat apply conj.
  - intros image_ok image_data_ok tex_ok format Hcur. eexists.
    by apply CreateImage_no_context.
  - intros sdlr format Hctx Hf.
    destruct (sdl_format_of_supported format Hf) as (sf & nl & Hsf).
    eexists _, _, _. split; [exact (CreateImage_ok w h format sf nl 4 s sdlr Hctx Hsf)|].
    split; [apply lookup_insert_eq|]. unfold created_image. state_simpl.
    split; [reflexivity|]. split; [reflexivity|].
    split; [intros -> ->; split; reflexivity|]. repeat split.
  - intros sdlr format Hctx Hf.
    destruct (sdl_format_of_supported format Hf) as (sf & nl & Hsf).
    eexists _, _.
    split; [exact (CreateImage_texture_failure w h format sf nl 4 s sdlr Hctx Hsf)|].
    split; [|repeat split]. state_simpl. apply in_or_app. right. left. reflexivity.
  - intros sdlr tex_ok format Hctx H1 H2.
    pose proof (sdl_format_of_other format H1 H2) as Hsf.
    eexists _, _.
    split; [exact (CreateImage_unsupported_format tex_ok w h format s sdlr Hctx Hsf)|].
    split; [|repeat split]. state_simpl.
    apply in_or_app. left. apply in_or_app. left. apply in_or_app. right. left.
    reflexivity.
  - intros sdlr image_ok image_data_ok tex_ok format Hctx Hok.
    destruct (CreateImage_allocation_failure image_ok image_data_ok tex_ok w h format
                s sdlr Hctx Hok) as (p & q & H & _).
    by exists p, q.
Qed.

(** C10, at an allocation that fails.  [createAliasImage] writes through the
    null result of its allocation; [createTargetFromWindow] frees the structs
    it did allocate and returns null, but the renderer it created before
    stays alive. *)
Theorem allocation_failure_in_creation :
  (∀ s I i, images s !! I = Some i →
     swrender_CreateAliasImage false (Some I) s = Fault s)
  ∧ (let r :=
       swrender_CreateTargetFromWindow (Some 7%positive) true 640 480
         false true true 1 None swrender_CreateRenderer in
     r = Ok None (final_state r)
     ∧ sdl_renderers (final_state r) = {[1%positive]}
     ∧ trace (final_state r)
       = [SDL_CreateRenderer 7%positive; SDL_free BTarget None;
          SDL_free BContext (Some 1%positive);
          SDL_free BContextData (Some 1%positive)]).
Proof.
  split.
  - intros s I i Hi. unfold_ops. heap_eval. reflexivity.
  - cbv zeta. split; [|split]; vm_compute; reflexivity.
Qed.

(** ** The cache never dangles *)

Lemma owner_cache_functional s T d cd d' cd' :
  owner_cache s T d cd → owner_cache s T d' cd' → d = d' ∧ cd = cd'.
Proof.
  intros (t & W & wt & c & cv & Ht & HW & Hwt & Hc & Hcv & Hd & Hcd)
         (t' & W' & wt' & c' & cv' & Ht' & HW' & Hwt' & Hc' & Hcv' & Hd' & Hcd').
  simplify_eq. done.
Qed.

(** [setRenderTarget], the only writer of the cache, keeps the caches
    pointing at live targets of their own Context. *)
Lemma setRenderTarget_keeps_cache target s r s' :
  cache_live s → cache_owned s →
  setRenderTarget target s = Ok r s' →
  cache_live s' ∧ cache_owned s'.
Proof.
  intros Hlive Howned Hrun.
  pose proof (setRenderTarget_inv target s) as Hinv. rewrite Hrun in Hinv.
  destruct Hinv as (T & d & cd & -> & Hown & -> & [[_ ->] | [_ [tex ->]]]);
    [by split|].
  pose proof Hown as (t & W & wt & c & cv & Ht & HW & Hwt & Hc & Hcv & Hd & Hcd).
  split.
  - intros dx cdx tx. state_simpl. intros Hdx Hr.
    destruct (decide (d = dx)) as [<-|Hne].
    + rewrite lookup_insert_eq in Hdx. injection Hdx as <-. injection Hr as <-. eauto.
    + rewrite lookup_insert_ne in Hdx by done. eauto.
  - intros dx cdx tx. state_simpl. intros Hdx Hr.
    destruct (decide (d = dx)) as [<-|Hne].
    + rewrite lookup_insert_eq in Hdx. injection Hdx as <-. injection Hr as <-.
      exists t, W, wt, c, cv. state_simpl. rewrite lookup_insert_eq. done.
    + rewrite lookup_insert_ne in Hdx by done.
      destruct (Howned dx cdx tx Hdx Hr)
        as (t' & W' & wt' & c' & cv' & G1 & G2 & G3 & G4 & G5 & G6 & G7).
      exists t', W', wt', c', cv'. state_simpl.
      rewrite lookup_insert_ne by done. done.
Qed.

(** The block that clears the image's back-reference touches nothing but
    the images. *)
Lemma clear_back_reference_frame (tv : GPU_Target.t) (s : State) r :
  (if negb (GPU_Target.is_alias tv) && bool_decide (GPU_Target.image tv ≠ None)
   then modify_image (GPU_Target.image tv) (GPU_Image.set_target None)
   else mret tt) s = r →
  match r with
  | Ok _ s1 =>
      targets s1 = targets s ∧ contexts s1 = contexts s
      ∧ context_datas s1 = context_datas s
      ∧ current_context_target s1 = current_context_target s
  | Fault _ => True
  end.
Proof.
  intros <-. unfold_access. unfold_monad.
  repeat case_match; simplify_eq; done.
Qed.

Ltac unfold_FreeTarget :=
  unfold swrender_FreeTarget, owner_data, SDL_RENDERER, CONTEXT_DATA,
    call_SDL_DestroyRenderer, modify_target, deref_target, deref_context,
    deref_context_data, free_target, free_context, free_context_data,
    modify, free, deref;
  unfold_monad.

(** A call of [swrender_FreeTarget] that returns leaves no dangling cache. *)
Lemma FreeTarget_cache_live s T s' :
  cache_live s → cache_owned s → window_shape s T →
  swrender_FreeTarget (Some T) s = Ok tt s' → cache_live s'.
Proof.
  intros Hlive Howned Hshape. unfold_FreeTarget.
  destruct (targets s !! T) as [tv|] eqn:HT; heap_eval; [|discriminate].
  specialize (Hshape tv HT).
  destruct (Z.gtb_spec (CInt.sub (GPU_Target.refcount tv) 1) 0) as [Hpos|Hrel].
  { intros [= <-]. intros d cd t. state_simpl. intros Hd Hr.
    destruct (Hlive d cd t Hd Hr) as [x Hx].
    destruct (decide (T = t)) as [->|Hn]; rewrite ?lookup_insert_eq, ?lookup_insert_ne by done; eauto. }
  set (sa := with_targets _ s).
  match goal with |- context [?blk sa] =>
    lazymatch blk with (if _ then _ else _) =>
      destruct (blk sa) as [[] sb|sb] eqn:Hblk; [|discriminate];
      pose proof (clear_back_reference_frame tv sa _ Hblk) as (Ft & Fc & Fd & Fcur)
    end end.
  clear Hblk. revert Ft Fc Fd Fcur. unfold sa. state_simpl. intros Ft Fc Fd Fcur.
  destruct (GPU_Target.context tv) as [c|] eqn:Hctx.
  - (* the window target: its Context goes with it *)
    heap_eval.
    destruct (contexts s !! c) as [cv|] eqn:Hcv; heap_eval; [|discriminate].
    destruct (GPU_Context.data cv) as [d0|] eqn:Hd0; heap_eval; [|discriminate].
    destruct (context_datas s !! d0) as [cd0|] eqn:Hcd0; heap_eval; [|discriminate].
    assert (Hfinal : ∀ sf, context_datas sf = delete d0 (context_datas s) →
              targets sf = delete T (<[T:=GPU_Target.set_context None (GPU_Target.set_refcount (CInt.sub (GPU_Target.refcount tv) 1) tv)]> (<[T:=(GPU_Target.set_refcount (CInt.sub (GPU_Target.refcount tv) 1) tv)]> (targets s))) →
              cache_live sf).
    { intros sf Hcds Htg d cd t Hd Hr. rewrite Hcds in Hd. rewrite Htg.
      apply lookup_delete_Some in Hd as [Hne Hd].
      destruct (Hlive d cd t Hd Hr) as [x Hx].
      assert (t ≠ T).
      { intros ->. destruct (Howned d cd T Hd Hr)
          as (t0 & W & wt & c0 & cv0 & H1 & H2 & H3 & H4 & H5 & H6 & H7).
        simplify_eq. }
      rewrite lookup_delete_ne, !lookup_insert_ne by done. eauto. }
    destruct (SW_CONTEXT_DATA.sdl_renderer cd0); heap_eval;
      case_decide; heap_eval; intros [= <-]; apply Hfinal; state_simpl;
      rewrite ?Fd, ?Ft; reflexivity.
  - (* an offscreen target *)
    heap_eval.
    destruct (GPU_Target.context_target tv) as [W|] eqn:HW; heap_eval; [|discriminate].
    destruct (decide (W = T)) as [->|HWT].
    { heap_eval. discriminate. }
    assert (HTW : T ≠ W) by congruence.
    heap_eval.
    destruct (targets s !! W) as [wt|] eqn:HwtE; heap_eval; [|discriminate].
    destruct (GPU_Target.context wt) as [c|] eqn:Hc; heap_eval; [|discriminate].
    destruct (contexts s !! c) as [cv|] eqn:Hcv; heap_eval; [|discriminate].
    destruct (GPU_Context.data cv) as [d|] eqn:Hd; heap_eval; [|discriminate].
    destruct (context_datas s !! d) as [cd|] eqn:Hcd; heap_eval; [|discriminate].
    assert (Hown : owner_cache s T d cd) by (by exists tv, W, wt, c, cv).
    specialize (Hshape W wt eq_refl HwtE).
    assert (Hothers : ∀ dx cdx t,
              context_datas s !! dx = Some cdx →
              SW_CONTEXT_DATA.render_target cdx = Some t →
              (dx = d → t ≠ T) →
              is_Some (delete T (<[T:=(GPU_Target.set_refcount (CInt.sub (GPU_Target.refcount tv) 1) tv)]> (targets s)) !! t)).
    { intros dx cdx t Hdx Hr Hnot.
      destruct (Hlive dx cdx t Hdx Hr) as [x Hx].
      assert (t ≠ T).
      { intros ->.
        destruct (owner_cache_functional _ _ _ _ _ _ Hown (Howned dx cdx T Hdx Hr))
          as [-> ->].
        by apply Hnot. }
      rewrite lookup_delete_ne, lookup_insert_ne by done. eauto. }
    case_decide as Hb.
    + pose proof (setRenderTarget_inv (Some W) sb) as Hinv.
      destruct (setRenderTarget (Some W) sb) as [r s1|s1]; [|discriminate].
      destruct Hinv as (W0 & d1 & cd1 & [= <-] & Hown1 & -> & Hcase).
      assert (d1 = d ∧ cd1 = cd) as [-> ->].
      { destruct Hown1 as (t0 & W1 & wt1 & c1 & cv1 & G1 & G2 & G3 & G4 & G5 & G6 & G7).
        rewrite Ft in G1, G3. rewrite Fc in G5. rewrite Fd in G7.
        rewrite lookup_insert_ne in G1 by done. simplify_eq.
        rewrite lookup_insert_ne in G3 by done. simplify_eq. done. }
      destruct Hcase as [[Hhit _] | [_ [tex ->]]]; [congruence|].
      heap_eval. intros [= <-]. intros dx cdx t. state_simpl. rewrite Fd, Ft.
      intros Hdx Hr.
      destruct (decide (dx = d)) as [->|Hnd].
      * rewrite lookup_insert_eq in Hdx. injection Hdx as <-.
        injection Hr as <-.
        rewrite lookup_delete_ne, lookup_insert_ne by done. eauto.
      * rewrite lookup_insert_ne in Hdx by done.
        apply (Hothers dx cdx t Hdx Hr). intros ->. done.
    + heap_eval. intros [= <-]. intros dx cdx t. state_simpl. rewrite Fd, Ft.
      intros Hdx Hr. apply (Hothers dx cdx t Hdx Hr).
      intros -> ->. simplify_eq.
Qed.

(** C9: when [freeTarget] takes the last reference of an offscreen target
    [T] (no Context of its own) that is the cached destination of its owning
    Context, it points the cache back at the window target [W] and the
    drawing library back at the window, and only then frees the struct.  So,
    in a heap of the documented shape whose caches hold live targets of their
    own Context, the caches still hold only live targets after any call of
    [freeTarget] that returns. *)
Theorem freeTarget_rebinds_before_release :
  (∀ s T tv I i W wt d cd,
     targets s !! T = Some tv → GPU_Target.refcount tv = 1 →
     GPU_Target.is_alias tv = false → GPU_Target.image tv = Some I →
     images s !! I = Some i → GPU_Target.context tv = None →
     GPU_Target.context_target tv = Some W →
     targets s !! W = Some wt → GPU_Target.context_target wt = Some W →
     GPU_Target.image wt = None →
     owner_cache s T d cd → SW_CONTEXT_DATA.render_target cd = Some T →
     ∃ s',
       swrender_FreeTarget (Some T) s = Ok tt s'
       ∧ context_datas s' !! d
         = Some (SW_CONTEXT_DATA.set_render_target (Some W) cd)
       ∧ targets s' !! W = Some wt
       ∧ targets s' !! T = None
       ∧ trace s'
         = trace s ++ [SDL_SetRenderTarget (SW_CONTEXT_DATA.sdl_renderer cd) None;
                       SDL_free BTarget (Some T)])
  ∧ (∀ s target s',
       cache_live s → cache_owned s →
       (∀ T, target = Some T → window_shape s T) →
       swrender_FreeTarget target s = Ok tt s' → cache_live s').
Proof.
  split.
  - intros s T tv I i W wt d cd HT Hrc Hal Him Hi Hcx HWt HW HWW HWi Hown Hb.
    assert (HWT : W ≠ T).
    { intros ->.
      destruct Hown as (t0 & W0 & wt0 & c & cv & G1 & G2 & G3 & G4 & _).
      congruence. }
    eexists. split.
    { apply (FreeTarget_offscreen_bound s T tv I i W wt d cd); try assumption.
      rewrite Hrc. cint_eval. lia. }
    unfold target_released. state_simpl.
    split; [apply lookup_insert_eq|].
    split; [by rewrite lookup_delete_ne by done|].
    split; [apply lookup_delete_eq|].
    rewrite <- app_assoc. reflexivity.
  - intros s [T|] s' Hlive Howned Hshape Hrun.
    + exact (FreeTarget_cache_live s T s' Hlive Howned (Hshape T eq_refl) Hrun).
    + injection Hrun as <-. exact Hlive.
Qed.

(** *** What the teardown of a target leaves alone *)

Lemma clear_back_reference_textures (tv : GPU_Target.t) (s s1 : State) :
  (if negb (GPU_Target.is_alias tv) && bool_decide (GPU_Target.image tv ≠ None)
   then modify_image (GPU_Target.image tv) (GPU_Image.set_target None)
   else mret tt) s = Ok tt s1 →
  textures_kept s s1.
Proof.
  unfold_access. unfold_monad.
  repeat case_match; intros [= <-]; simplify_eq;
    (split; [reflexivity|]); (split; [reflexivity|]); intros b;
    try reflexivity.
  state_simpl.
  match goal with H : images _ !! ?a = Some ?i |- _ =>
    destruct (decide (a = b)) as [<-|Hne];
      [rewrite lookup_insert_eq, H; reflexivity
      |rewrite lookup_insert_ne by done; reflexivity]
  end.
Qed.

Lemma FreeTarget_textures target s s' :
  swrender_FreeTarget target s = Ok tt s' → textures_kept s s'.
Proof.
  destruct target as [T|]; [|by intros [= <-]].
  unfold_FreeTarget.
  destruct (targets s !! T) as [tv|] eqn:HT; heap_eval; [|discriminate].
  destruct (Z.gtb_spec (CInt.sub (GPU_Target.refcount tv) 1) 0) as [Hpos|Hrel].
  { intros [= <-]. by repeat split. }
  set (sa := with_targets _ s).
  match goal with |- context [?blk sa] =>
    lazymatch blk with (if _ then _ else _) =>
      destruct (blk sa) as [[] sb|sb] eqn:Hblk; [|discriminate];
      pose proof (clear_back_reference_frame tv sa _ Hblk) as (Ft & Fc & Fd & Fcur);
      pose proof (clear_back_reference_textures tv sa sb Hblk) as (Kd & Kt & Ki)
    end end.
  clear Hblk. revert Ft Fc Fd Fcur Kd Kt Ki. unfold sa, images_agree. state_simpl.
  intros Ft Fc Fd Fcur Kd Kt Ki.
  destruct (GPU_Target.context tv) as [c|] eqn:Hctx.
  - heap_eval.
    destruct (contexts s !! c) as [cv|] eqn:Hcv; heap_eval; [|discriminate].
    destruct (GPU_Context.data cv) as [d0|] eqn:Hd0; heap_eval; [|discriminate].
    destruct (context_datas s !! d0) as [cd0|] eqn:Hcd0; heap_eval; [|discriminate].
    destruct (SW_CONTEXT_DATA.sdl_renderer cd0); heap_eval;
      case_decide; heap_eval; intros [= <-]; by repeat split.
  - heap_eval.
    destruct (GPU_Target.context_target tv) as [W|] eqn:HW; heap_eval; [|discriminate].
    destruct (decide (W = T)) as [->|HWT].
    { heap_eval. discriminate. }
    assert (HTW : T ≠ W) by congruence.
    heap_eval.
    destruct (targets s !! W) as [wt|] eqn:HwtE; heap_eval; [|discriminate].
    destruct (GPU_Target.context wt) as [c|] eqn:Hc; heap_eval; [|discriminate].
    destruct (contexts s !! c) as [cv|] eqn:Hcv; heap_eval; [|discriminate].
    destruct (GPU_Context.data cv) as [d|] eqn:Hd; heap_eval; [|discriminate].
    destruct (context_datas s !! d) as [cd|] eqn:Hcd; heap_eval; [|discriminate].
    case_decide as Hb.
    + pose proof (setRenderTarget_inv (Some W) sb) as Hinv.
      destruct (setRenderTarget (Some W) sb) as [r s1|s1]; [|discriminate].
      destruct Hinv as (W0 & d1 & cd1 & [= <-] & Hown1 & -> & [[_ ->] | [_ [tex ->]]]);
        heap_eval; intros [= <-]; by repeat split.
    + heap_eval. intros [= <-]. by repeat split.
Qed.

Lemma agree_up_to_target (i j : GPU_Image.t) :
  Some (GPU_Image.set_target None i) = Some (GPU_Image.set_target None j) →
  GPU_Image.data i = GPU_Image.data j
  ∧ GPU_Image.refcount i = GPU_Image.refcount j.
Proof. intros H. injection H. intros. split; assumption. Qed.

Ltac unfold_FreeImage :=
  unfold swrender_FreeImage, IMAGE_DATA, call_SDL_DestroyTexture, modify_image,
    deref_image, modify_image_data, deref_image_data, free_image,
    free_image_data, modify, free, deref;
  unfold_monad.

(** The last handle of an image, whatever its derived target. *)
Lemma FreeImage_last_handle s a i d idv s' :
  images s !! a = Some i → CInt.sub (GPU_Image.refcount i) 1 <= 0 →
  GPU_Image.data i = Some d → image_datas s !! d = Some idv →
  swrender_FreeImage (Some a) s = Ok tt s' →
  after_last_handle a d idv s s'.
Proof.
  intros Ha Hrc Hd Hid. unfold_FreeImage. heap_eval.
  destruct (Z.gtb_spec (CInt.sub (GPU_Image.refcount i) 1) 0); [lia|].
  destruct (GPU_Image.target i) as [T|] eqn:Ht; heap_eval.
  - set (sb := with_images _ (with_images _ s)).
    destruct (swrender_FreeTarget (Some T) sb) as [[] sc|sc] eqn:HF; [|discriminate].
    destruct (FreeTarget_textures _ _ _ HF) as (Kd & Kt & Ki).
    revert Kd Kt Ki. unfold sb, images_agree. state_simpl. intros Kd Kt Ki.
    pose proof (Ki a) as Kia. rewrite lookup_insert_eq in Kia.
    destruct (images sc !! a) as [i2|] eqn:H2; [|discriminate].
    destruct (agree_up_to_target _ _ Kia) as [Hd2 _]. state_simpl in Hd2.
    heap_eval.
    assert (Hothers : ∀ b, b ≠ a →
              (GPU_Image.set_target None <$> (delete a (images sc) !! b))
              = (GPU_Image.set_target None <$> (images s !! b))).
    { intros b Hb. rewrite lookup_delete_ne by done. rewrite Ki.
      by rewrite !lookup_insert_ne by done. }
    unfold after_last_handle.
    destruct (Z.leb_spec (CInt.sub (SW_IMAGE_DATA.refcount idv) 1) 0).
    + destruct (SW_IMAGE_DATA.tex idv) as [t|]; heap_eval; intros [= <-];
        state_simpl; rewrite ?Kd, ?Kt, ?delete_insert_eq;
        (split; [apply lookup_delete_eq|]); (split; [exact Hothers|]);
        split; reflexivity.
    + heap_eval. intros [= <-]. state_simpl. rewrite ?Kd, ?Kt.
      split; [apply lookup_delete_eq|]. split; [exact Hothers|].
      split; reflexivity.
  - assert (Hothers : ∀ b, b ≠ a →
              (GPU_Image.set_target None <$> (delete a (images s) !! b))
              = (GPU_Image.set_target None <$> (images s !! b))).
    { intros b Hb. by rewrite lookup_delete_ne by done. }
    unfold after_last_handle.
    destruct (Z.leb_spec (CInt.sub (SW_IMAGE_DATA.refcount idv) 1) 0).
    + destruct (SW_IMAGE_DATA.tex idv) as [t|]; heap_eval; intros [= <-];
        state_simpl; rewrite ?delete_insert_eq;
        (split; [apply lookup_delete_eq|]); (split; [exact Hothers|]);
        split; reflexivity.
    + heap_eval. intros [= <-]. state_simpl. rewrite ?delete_insert_eq.
      split; [apply lookup_delete_eq|]. split; [exact Hothers|].
      split; reflexivity.
Qed.

(** C5 (amended): an image [I] that is the only handle of its struct
    (refcount 1) and whose backing texture is counted once.  With the alias
    allocated, whenever [freeImage(createAliasImage(I))] returns the texture
    is still alive and its count is back from 2 to 1, and whenever
    [freeImage(I)] then returns the texture is destroyed and the shared record
    and the struct are released; the count is never negative.  Both frees do
    return when [I] has no derived target (with one, they first run its
    teardown).  After that the handle [I] is released storage: a third
    [freeImage(I)] dereferences it, and only a null handle is a no-op. *)
Theorem alias_free_then_image_free
    (s : State) (I d t : addr) (i : GPU_Image.t) (idv : SW_IMAGE_DATA.t) :
  images s !! I = Some i →
  GPU_Image.refcount i = 1 →
  GPU_Image.data i = Some d →
  image_datas s !! d = Some idv →
  SW_IMAGE_DATA.refcount idv = 1 →
  SW_IMAGE_DATA.tex idv = Some t →
  t ∈ sdl_textures s →
  ∃ A s0,
    swrender_CreateAliasImage true (Some I) s = Ok (Some A) s0
    ∧ A ≠ I
    ∧ (SW_IMAGE_DATA.refcount <$> (image_datas s0 !! d)) = Some 2
    ∧ t ∈ sdl_textures s0
    ∧ (∀ s1, swrender_FreeImage (Some A) s0 = Ok tt s1 →
         t ∈ sdl_textures s1
         ∧ (SW_IMAGE_DATA.refcount <$> (image_datas s1 !! d)) = Some 1
         ∧ images s1 !! A = None
         ∧ (GPU_Image.refcount <$> (images s1 !! I)) = Some 1
         ∧ ∀ s2, swrender_FreeImage (Some I) s1 = Ok tt s2 →
             (t ∉ sdl_textures s2)
             ∧ image_datas s2 !! d = None
             ∧ images s2 !! I = None
             ∧ swrender_FreeImage (Some I) s2 = Fault s2
             ∧ swrender_FreeImage None s2 = Ok tt s2)
    ∧ (GPU_Image.target i = None →
       ∃ s1 s2,
         swrender_FreeImage (Some A) s0 = Ok tt s1
         ∧ trace s1 = trace s ++ [SDL_free BImage (Some A)]
         ∧ swrender_FreeImage (Some I) s1 = Ok tt s2
         ∧ trace s2 = trace s1 ++ [SDL_DestroyTexture (Some t);
                                   SDL_free BImageData (Some d);
                                   SDL_free BImage (Some I)]).
Proof.
  intros Hi Hrc Hd Hid Hdrc Htex Hlive.
  pose proof (fresh_ne_live _ _ _ Hi) as Hne.
  pose proof (CreateAliasImage_ok s I i d idv Hi Hd Hid) as H0.
  remember (fresh (dom (images s))) as A eqn:HA. clear HA.
  set (iA := GPU_Image.set_is_alias true (GPU_Image.set_refcount 1 i)).
  set (idv0 := SW_IMAGE_DATA.set_refcount (CInt.add (SW_IMAGE_DATA.refcount idv) 1) idv).
  set (s0 := aliased I A i d idv s) in *.
  assert (HA0 : images s0 !! A = Some iA) by apply lookup_insert_eq.
  assert (HI0 : images s0 !! I = Some i).
  { unfold s0, aliased. state_simpl. by rewrite lookup_insert_ne by done. }
  assert (Hd0 : image_datas s0 !! d = Some idv0) by apply lookup_insert_eq.
  assert (Hrc0 : SW_IMAGE_DATA.refcount idv0 = 2).
  { unfold idv0. state_simpl. rewrite Hdrc. reflexivity. }
  exists A, s0.
  split; [exact H0|]. split; [exact Hne|].
  split; [rewrite Hd0; exact (f_equal Some Hrc0)|].
  split; [exact Hlive|]. split.
  - intros s1 H1.
    destruct (FreeImage_last_handle s0 A iA d idv0 s1 HA0) as (HA1 & Hoth1 & Hdata1);
      [unfold iA; state_simpl; cint_eval; lia|exact Hd|exact Hd0|exact H1|].
    rewrite Hrc0 in Hdata1.
    change (CInt.sub 2 1 <=? 0) with false in Hdata1.
    destruct Hdata1 as [Hd1 Ht1].
    set (idv1 := SW_IMAGE_DATA.set_refcount (CInt.sub 2 1) idv0) in *.
    assert (Hrc1 : SW_IMAGE_DATA.refcount idv1 = 1) by reflexivity.
    assert (HI1 : ∃ i1, images s1 !! I = Some i1
                        ∧ GPU_Image.data i1 = Some d ∧ GPU_Image.refcount i1 = 1).
    { pose proof (Hoth1 I ltac:(congruence)) as E. rewrite HI0 in E.
      destruct (images s1 !! I) as [i1|]; [|discriminate].
      destruct (agree_up_to_target _ _ E) as [E1 E2].
      exists i1. split; [done|]. split; congruence. }
    destruct HI1 as (i1 & HI1 & Hd1' & Hrc1').
    split; [rewrite Ht1; exact Hlive|].
    split; [rewrite Hd1, lookup_insert_eq; exact (f_equal Some Hrc1)|].
    split; [exact HA1|].
    split; [rewrite HI1; exact (f_equal Some Hrc1')|].
    intros s2 H2.
    destruct (FreeImage_last_handle s1 I i1 d idv1 s2 HI1) as (HI2 & _ & Hdata2);
      [rewrite Hrc1'; cint_eval; lia|exact Hd1'
      |rewrite Hd1; apply lookup_insert_eq|exact H2|].
    rewrite Hrc1 in Hdata2.
    change (CInt.sub 1 1 <=? 0) with true in Hdata2.
    change (SW_IMAGE_DATA.tex idv1) with (SW_IMAGE_DATA.tex idv) in Hdata2.
    rewrite Htex in Hdata2. destruct Hdata2 as [Hd2 Ht2].
    split; [rewrite Ht2; apply not_elem_of_difference; right; by apply elem_of_singleton|].
    split; [rewrite Hd2; apply lookup_delete_eq|].
    split; [exact HI2|].
    split; [by apply FreeImage_released|reflexivity].
  - intros Ht.
    assert (H1 : swrender_FreeImage (Some A) s0 = Ok tt (image_freed A d idv0 s0)).
    { apply (FreeImage_keeps_texture s0 A iA d idv0);
        [exact HA0| |exact Ht|exact Hd|exact Hd0|].
      - unfold iA. state_simpl. cint_eval. lia.
      - rewrite Hrc0. cint_eval. lia. }
    set (s1 := image_freed A d idv0 s0) in *.
    set (idv1 := SW_IMAGE_DATA.set_refcount (CInt.sub (SW_IMAGE_DATA.refcount idv0) 1) idv0).
    assert (Hrc1 : SW_IMAGE_DATA.refcount idv1 = 1).
    { unfold idv1. state_simpl. rewrite Hrc0. reflexivity. }
    assert (HI1 : images s1 !! I = Some i).
    { unfold s1, image_freed. state_simpl. by rewrite lookup_delete_ne by done. }
    assert (Hd1 : image_datas s1 !! d = Some idv1) by apply lookup_insert_eq.
    assert (H2 : swrender_FreeImage (Some I) s1 = Ok tt (image_destroyed I d idv1 s1)).
    { apply (FreeImage_destroys_texture s1 I i d idv1);
        [exact HI1| |exact Ht|exact Hd|exact Hd1|].
      - rewrite Hrc. cint_eval. lia.
      - rewrite Hrc1. cint_eval. lia. }
    exists s1, (image_destroyed I d idv1 s1).
    split; [exact H1|]. split; [reflexivity|]. split; [exact H2|].
    unfold image_destroyed.
    change (SW_IMAGE_DATA.tex idv1) with (SW_IMAGE_DATA.tex idv). rewrite Htex.
    state_simpl. rewrite <- !app_assoc. reflexivity.
Qed.

(** ** Concrete runs *)

(** C3 as stated fails for a destination rectangle that lies fully outside
    the image when its far edge is beyond the range of [int].  On a 10x10
    image, the rectangle {200, 0, 2147483520, 5} starts to the right of the
    image and {0, 200, 5, 2147483520} below it; the sum of origin and extent
    wraps around to a negative number, the test of the far edge does not
    fire, and both operations upload the rectangle. *)
Lemma outside_destination_is_uploaded :
  let s := image_state 10 10 in
  let surface := SDL_Surface.mk 10 10 SDL_PIXELFORMAT_RGBA8888 4 40 1000 in
  let right := Some (GPU_Rect.mk (200#1) (0#1) (2147483520#1) (5#1)) in
  let below := Some (GPU_Rect.mk (0#1) (200#1) (5#1) (2147483520#1)) in
  fully_outside (rect_or_full right 10 10) 10 10
  ∧ fully_outside (rect_or_full below 10 10) 10 10
  ∧ swrender_UpdateImageBytes (Some 1%positive) right 1000 40 s
    = Ok tt (log (SDL_UpdateTexture (Some 1%positive)
                    (SDL_Rect.mk 200 0 2147483520 5) 1000 40) s)
  ∧ swrender_UpdateImageBytes (Some 1%positive) below 1000 40 s
    = Ok tt (log (SDL_UpdateTexture (Some 1%positive)
                    (SDL_Rect.mk 0 200 5 2147483520) 1000 40) s)
  ∧ swrender_UpdateImage None (Some 1%positive) right surface None s
    = Ok tt (log (SDL_UpdateTexture (Some 1%positive)
                    (SDL_Rect.mk 200 0 10 5) 1000 40) s)
  ∧ swrender_UpdateImage None (Some 1%positive) below surface None s
    = Ok tt (log (SDL_UpdateTexture (Some 1%positive)
                    (SDL_Rect.mk 0 200 5 10) 1000 40) s)
  ∧ swrender_UpdateImageBytes (Some 1%positive) right 1000 40 s ≠ Ok tt s
  ∧ swrender_UpdateImage None (Some 1%positive) right surface None s ≠ Ok tt s.
Proof.
  cbv zeta.
  split; [left; vm_compute; discriminate|].
  split; [right; left; vm_compute; discriminate|].
  split; [vm_compute; reflexivity|]. split; [vm_compute; reflexivity|].
  split; [vm_compute; reflexivity|]. split; [vm_compute; reflexivity|].
  split; vm_compute; discriminate.
Qed.

(** C5 as stated fails on the third free: after the alias and the image have
    been freed, the image handle is released storage, and [freeImage] on it
    is a dereference of that storage, not a no-op. *)
Lemma third_freeImage_is_not_a_no_op :
  let r :=
    (a ← swrender_CreateAliasImage true (Some 1%positive);
     swrender_FreeImage a;;
     swrender_FreeImage (Some 1%positive)) (image_state 64 64) in
  r = Ok tt (final_state r)
  ∧ images (final_state r) !! 1%positive = None
  ∧ swrender_FreeImage (Some 1%positive) (final_state r) = Fault (final_state r)
  ∧ swrender_FreeImage (Some 1%positive) (final_state r) ≠ Ok tt (final_state r).
Proof.
  cbv zeta.
  assert (H : swrender_FreeImage (Some 1%positive)
                (final_state
                   ((a ← swrender_CreateAliasImage true (Some 1%positive);
                     swrender_FreeImage a;;
                     swrender_FreeImage (Some 1%positive)) (image_state 64 64)))
              = Fault
                  (final_state
                     ((a ← swrender_CreateAliasImage true (Some 1%positive);
                       swrender_FreeImage a;;
                       swrender_FreeImage (Some 1%positive)) (image_state 64 64))))
    by (vm_compute; reflexivity).
  split; [vm_compute; reflexivity|]. split; [vm_compute; reflexivity|].
  split; [exact H|]. rewrite H. discriminate.
Qed.

(** C6 as stated fails for an image that already has a derived target: two
    more calls of [loadTarget] return that target both times and leave its
    refcount at 3.  It also fails when the allocation does: both calls return
    null. *)
Lemma loadTarget_twice_on_a_loaded_image :
  let r :=
    (t1 ← swrender_LoadTarget true (Some 1%positive);
     t2 ← swrender_LoadTarget true (Some 1%positive);
     mret (t1, t2)) (target_state 64 64) in
  r = Ok (Some 2%positive, Some 2%positive) (final_state r)
  ∧ (GPU_Target.refcount <$> (targets (final_state r) !! 2%positive)) = Some 3
  ∧ (GPU_Target.refcount <$> (targets (final_state r) !! 2%positive)) ≠ Some 2
  ∧ (t1 ← swrender_LoadTarget false (Some 1%positive);
     t2 ← swrender_LoadTarget false (Some 1%positive);
     mret (t1, t2)) (image_state 64 64)
    = Ok (None, None) (image_state 64 64).
Proof.
  cbv zeta.
  split; [vm_compute; reflexivity|]. split; [vm_compute; reflexivity|].
  split; [vm_compute; discriminate|]. vm_compute; reflexivity.
Qed.

(** C7 as stated fails for a window handle that cannot be resolved: the
    error pushed is [GPU_ERROR_BACKEND_ERROR], and no
    [GPU_ERROR_UNSUPPORTED_FUNCTION] is pushed. *)
Lemma unresolved_window_is_a_backend_error :
  let r :=
    swrender_CreateTargetFromWindow None true 640 480 true true true 1 None
      swrender_CreateRenderer in
  r = Ok None (final_state r)
  ∧ trace (final_state r)
    = [GPU_PushErrorCode "GPU_CreateTargetFromWindow" GPU_ERROR_BACKEND_ERROR
         "Failed to acquire the window from the given ID."]
  ∧ ¬ (∃ fn msg,
         In (GPU_PushErrorCode fn GPU_ERROR_UNSUPPORTED_FUNCTION msg)
            (trace (final_state r))).
Proof.
  cbv zeta. split; [reflexivity|]. split; [reflexivity|].
  intros (fn & msg & [H | []]). discriminate H.
Qed.

(** C8 as stated fails for RGBA with a context when the texture cannot be
    created: null is returned and [GPU_ERROR_BACKEND_ERROR] pushed.  It also
    fails for an unsupported format when an allocation fails: null is
    returned and no error is pushed. *)
Lemma createImage_rgba_can_fail :
  let r := swrender_CreateImage true true false 64 64 GPU_FORMAT_RGBA window_state in
  r = Ok None (final_state r)
  ∧ last (trace (final_state r))
    = Some (GPU_PushErrorCode "GPU_CreateImage" GPU_ERROR_BACKEND_ERROR
              "SDL_CreateTexture failed: %s")
  ∧ swrender_CreateImage false true true 64 64 GPU_FORMAT_LUMINANCE window_state
    = Ok None
        (log (SDL_free BImageData (Some 1%positive))
           (log (SDL_free BImage None) window_state)).
Proof.
  cbv zeta. split; [vm_compute; reflexivity|]. split; vm_compute; reflexivity.
Qed.

(** ** The theorems at concrete inputs *)

Lemma update_with_nothing_left_witness :
  let s := image_state 10 10 in
  let surface := SDL_Surface.mk 10 10 SDL_PIXELFORMAT_RGBA8888 4 40 1000 in
  let empty := Some (GPU_Rect.mk (0#1) (0#1) (0#1) (5#1)) in
  let right := Some (GPU_Rect.mk (20#1) (0#1) (5#1) (5#1)) in
  let above := Some (GPU_Rect.mk (2#1) (-9#1) (5#1) (5#1)) in
  swrender_UpdateImage None (Some 1%positive) empty surface None s = Ok tt s
  ∧ swrender_UpdateImageBytes (Some 1%positive) empty 1000 40 s = Ok tt s
  ∧ swrender_UpdateImage None (Some 1%positive) right surface None s = Ok tt s
  ∧ swrender_UpdateImage None (Some 1%positive) above surface None s = Ok tt s
  ∧ swrender_UpdateImageBytes (Some 1%positive) right 1000 40 s = Ok tt s
  ∧ swrender_UpdateImageBytes (Some 1%positive) above 1000 40 s = Ok tt s.
Proof.
  cbv zeta.
  destruct (update_with_nothing_left_is_a_no_op (image_state 10 10) 1%positive
              (image_at (image_state 10 10) 1%positive))
    as (A & B & C & D); [vm_compute; reflexivity|].
  split; [|split; [|split; [|split; [|split]]]].
  - apply A. left. vm_compute. discriminate.
  - apply B. left. vm_compute. discriminate.
  - apply C; try (repeat split; vm_compute; discriminate).
    left. vm_compute. discriminate.
  - apply C; try (repeat split; vm_compute; discriminate).
    do 3 right. vm_compute. discriminate.
  - apply D; try (repeat split; vm_compute; discriminate).
    left. vm_compute. discriminate.
  - apply D; try (repeat split; vm_compute; discriminate).
    do 3 right. vm_compute. discriminate.
Defined.

Lemma bind_is_idempotent_witness :
  setRenderTarget (Some 1%positive) window_state = Ok (Some 1%positive) window_state.
Proof.
  apply (proj1 bind_is_idempotent window_state 1%positive 1%positive
           (SW_CONTEXT_DATA.mk (Some 1%positive) (Some 1%positive))).
  - exists (target_at window_state 1%positive), 1%positive,
      (target_at window_state 1%positive), 1%positive,
      (context_at window_state 1%positive).
    repeat split; vm_compute; reflexivity.
  - reflexivity.
Defined.

Lemma alias_free_then_image_free_witness :
  ∃ A s0 s1 s2,
    swrender_CreateAliasImage true (Some 1%positive) (image_state 64 64) = Ok (Some A) s0
    ∧ swrender_FreeImage (Some A) s0 = Ok tt s1
    ∧ 1%positive ∈ sdl_textures s1
    ∧ swrender_FreeImage (Some 1%positive) s1 = Ok tt s2
    ∧ (1%positive ∉ sdl_textures s2)
    ∧ swrender_FreeImage (Some 1%positive) s2 = Fault s2.
Proof.
  destruct (alias_free_then_image_free (image_state 64 64)
              1%positive 1%positive 1%positive
              (image_at (image_state 64 64) 1%positive)
              (image_data_at (image_state 64 64) 1%positive)
              ltac:(vm_compute; reflexivity) ltac:(vm_compute; reflexivity)
              ltac:(vm_compute; reflexivity) ltac:(vm_compute; reflexivity)
              ltac:(vm_compute; reflexivity) ltac:(vm_compute; reflexivity)
              ltac:(vm_compute; reflexivity))
    as (A & s0 & H0 & _ & _ & _ & Hfrees & Hreturn).
  destruct (Hreturn ltac:(vm_compute; reflexivity)) as (s1 & s2 & H1 & _ & H2 & _).
  destruct (Hfrees s1 H1) as (L1 & _ & _ & _ & Hsecond).
  destruct (Hsecond s2 H2) as (L2 & _ & _ & H3 & _).
  exists A, s0, s1, s2.
  split; [exact H0|]. split; [exact H1|]. split; [exact L1|].
  split; [exact H2|]. split; [exact L2|exact H3].
Defined.

(** The same two frees on an image whose derived target, target 2, is the
    cached destination: the first free tears the target down and rebinds the
    window, and leaves the texture alive. *)
Example alias_free_with_derived_target :
  let r1 :=
    (a ← swrender_CreateAliasImage true (Some 1%positive); swrender_FreeImage a)
      (bound_state 64 64) in
  let r2 := swrender_FreeImage (Some 1%positive) (final_state r1) in
  r1 = Ok tt (final_state r1)
  ∧ bool_decide (1%positive ∈ sdl_textures (final_state r1)) = true
  ∧ targets (final_state r1) !! 2%positive = None
  ∧ r2 = Ok tt (final_state r2)
  ∧ bool_decide (1%positive ∈ sdl_textures (final_state r2)) = false
  ∧ skipn 5 (trace (final_state r2))
    = [SDL_SetRenderTarget (Some 1%positive) None;
       SDL_free BTarget (Some 2%positive);
       SDL_free BImage (Some 2%positive);
       SDL_DestroyTexture (Some 1%positive);
       SDL_free BImageData (Some 1%positive);
       SDL_free BImage (Some 1%positive)].
Proof.
  cbv zeta.
  split; [vm_compute; reflexivity|]. split; [vm_compute; reflexivity|].
  split; [vm_compute; reflexivity|]. split; [vm_compute; reflexivity|].
  split; vm_compute; reflexivity.
Qed.

Lemma loadTarget_twice_freeTarget_twice_witness :
  ∃ T s1 s2 s3 s4,
    swrender_LoadTarget true (Some 1%positive) (image_state 64 64) = Ok (Some T) s1
    ∧ swrender_LoadTarget true (Some 1%positive) s1 = Ok (Some T) s2
    ∧ (GPU_Target.refcount <$> (targets s2 !! T)) = Some 2
    ∧ swrender_FreeTarget (Some T) s2 = Ok tt s3
    ∧ is_Some (targets s3 !! T)
    ∧ swrender_FreeTarget (Some T) s3 = Ok tt s4
    ∧ targets s4 !! T = None.
Proof.
  assert (Hlive : ∀ t,
            SW_CONTEXT_DATA.render_target
              (context_data_at (image_state 64 64) 1%positive) = Some t →
            is_Some (targets (image_state 64 64) !! t)).
  { intros t Ht. vm_compute in Ht. injection Ht as <-. vm_compute. eauto. }
  destruct (loadTarget_twice_freeTarget_twice (image_state 64 64)
              1%positive 1%positive 1%positive 1%positive
              (image_at (image_state 64 64) 1%positive)
              (target_at (image_state 64 64) 1%positive)
              (context_at (image_state 64 64) 1%positive)
              (context_data_at (image_state 64 64) 1%positive)
              ltac:(vm_compute; reflexivity) ltac:(vm_compute; reflexivity)
              ltac:(vm_compute; reflexivity) ltac:(vm_compute; reflexivity)
              ltac:(vm_compute; reflexivity) ltac:(vm_compute; reflexivity)
              ltac:(vm_compute; reflexivity) ltac:(vm_compute; reflexivity)
              Hlive)
    as (T & s1 & s2 & s3 & s4 & H1 & H2 & _ & R2 & H3 & R3 & _ & H4 & R4 & _).
  exists T, s1, s2, s3, s4.
  split; [exact H1|]. split; [exact (H2 true)|]. split; [exact R2|].
  split; [exact H3|]. split; [|split; [exact H4|exact R4]].
  destruct (targets s3 !! T); [eauto|discriminate].
Defined.

Lemma createTargetFromWindow_failures_witness :
  swrender_CreateTargetFromWindow (Some 7%positive) true 640 480 true true true 1
    None window_state
  = Ok None
      (log (GPU_PushErrorCode "GPU_CreateTargetFromWindow"
              GPU_ERROR_UNSUPPORTED_FUNCTION "multiple windows not supported")
         window_state)
  ∧ swrender_CreateTargetFromWindow None true 640 480 true true true 1
      None swrender_CreateRenderer
    = Ok None
        (log (GPU_PushErrorCode "GPU_CreateTargetFromWindow"
                GPU_ERROR_BACKEND_ERROR
                "Failed to acquire the window from the given ID.")
           swrender_CreateRenderer).
Proof.
  split.
  - apply (proj1 (proj2 (createTargetFromWindow_failures (Some 7%positive) true
                           640 480 true true true 1 window_state)) 1%positive).
    vm_compute. reflexivity.
  - apply (proj2 (proj2 (createTargetFromWindow_failures None true
                           640 480 true true true 1 swrender_CreateRenderer))).
    reflexivity.
Defined.

Lemma window_state_has_context : has_context window_state (Some 1%positive).
Proof.
  exists 1%positive, (target_at window_state 1%positive), 1%positive,
    (context_at window_state 1%positive), 1%positive,
    (context_data_at window_state 1%positive).
  repeat split; vm_compute; reflexivity.
Defined.

Lemma createImage_outcomes_witness :
  (∃ msg,
     swrender_CreateImage true true true 64 64 GPU_FORMAT_RGBA swrender_CreateRenderer
     = Ok None (log (GPU_PushErrorCode "GPU_CreateImage" GPU_ERROR_USER_ERROR msg)
                  swrender_CreateRenderer))
  ∧ (∃ a i s',
       swrender_CreateImage true true true 64 64 GPU_FORMAT_RGBA window_state
       = Ok (Some a) s'
       ∧ images s' !! a = Some i
       ∧ GPU_Image.anchor_x i = (1#2)%Q ∧ GPU_Image.anchor_y i = (1#2)%Q
       ∧ GPU_Image.refcount i = 1)
  ∧ (∃ msg s',
       swrender_CreateImage true true true 64 64 GPU_FORMAT_ALPHA window_state
       = Ok None s'
       ∧ In (GPU_PushErrorCode "GPU_CreateImage" GPU_ERROR_BACKEND_ERROR msg) (trace s')).
Proof.
  destruct (createImage_outcomes 64 64 swrender_CreateRenderer) as (A & _).
  destruct (createImage_outcomes 64 64 window_state) as (_ & B & _ & D & _).
  split; [|split].
  - apply A. reflexivity.
  - destruct (B (Some 1%positive) GPU_FORMAT_RGBA window_state_has_context
                (or_intror eq_refl))
      as (a & i & s' & H & Hi & _ & _ & Hanchor & _ & _ & Hrc & _).
    destruct Hanchor as [Hx Hy]; [reflexivity|reflexivity|].
    exists a, i, s'.
    split; [exact H|]. split; [exact Hi|]. split; [exact Hx|]. split; [exact Hy|exact Hrc].
  - destruct (D (Some 1%positive) true GPU_FORMAT_ALPHA window_state_has_context)
      as (msg & s' & H & Hin & _); [discriminate|discriminate|].
    exists msg, s'. split; assumption.
Defined.

Lemma allocation_failure_in_creation_witness :
  swrender_CreateAliasImage false (Some 1%positive) (image_state 64 64)
  = Fault (image_state 64 64).
Proof.
  apply (proj1 allocation_failure_in_creation (image_state 64 64) 1%positive
           (image_at (image_state 64 64) 1%positive)).
  vm_compute. reflexivity.
Defined.

Lemma bound_state_owner_cache :
  owner_cache (bound_state 64 64) 2%positive 1%positive
    (SW_CONTEXT_DATA.mk (Some 1%positive) (Some 2%positive)).
Proof.
  exists (target_at (bound_state 64 64) 2%positive), 1%positive,
    (target_at (bound_state 64 64) 1%positive), 1%positive,
    (context_at (bound_state 64 64) 1%positive).
  repeat split; vm_compute; reflexivity.
Defined.

Lemma bound_state_shape :
  cache_live (bound_state 64 64) ∧ cache_owned (bound_state 64 64)
  ∧ window_shape (bound_state 64 64) 2%positive.
Proof.
  assert (E : context_datas (bound_state 64 64)
              = {[ 1%positive := SW_CONTEXT_DATA.mk (Some 1%positive) (Some 2%positive) ]})
    by (vm_compute; reflexivity).
  split; [|split].
  - intros d cd t Hd Hr. rewrite E in Hd.
    apply lookup_singleton_Some in Hd as [<- <-]. injection Hr as <-.
    vm_compute. eauto.
  - intros d cd t Hd Hr. rewrite E in Hd.
    apply lookup_singleton_Some in Hd as [<- <-]. injection Hr as <-.
    exact bound_state_owner_cache.
  - intros tv Htv.
    assert (Some tv = Some (target_at (bound_state 64 64) 2%positive)) as [= ->]
      by (rewrite <- Htv; vm_compute; reflexivity).
    change (∀ W wt,
              Some 1%positive = Some W →
              targets (bound_state 64 64) !! W = Some wt →
              GPU_Target.context_target wt = Some W).
    intros W wt [= <-] Hwt.
    assert (Some wt = Some (target_at (bound_state 64 64) 1%positive)) as [= ->]
      by (rewrite <- Hwt; vm_compute; reflexivity).
    reflexivity.
Defined.

Lemma freeTarget_rebinds_before_release_witness :
  ∃ s',
    swrender_FreeTarget (Some 2%positive) (bound_state 64 64) = Ok tt s'
    ∧ context_datas s' !! 1%positive
      = Some (SW_CONTEXT_DATA.mk (Some 1%positive) (Some 1%positive))
    ∧ targets s' !! 2%positive = None
    ∧ cache_live s'.
Proof.
  destruct freeTarget_rebinds_before_release as [A B].
  destruct (A (bound_state 64 64) 2%positive
              (target_at (bound_state 64 64) 2%positive) 1%positive
              (image_at (bound_state 64 64) 1%positive) 1%positive
              (target_at (bound_state 64 64) 1%positive) 1%positive
              (SW_CONTEXT_DATA.mk (Some 1%positive) (Some 2%positive))
              ltac:(vm_compute; reflexivity) ltac:(vm_compute; reflexivity)
              ltac:(vm_compute; reflexivity) ltac:(vm_compute; reflexivity)
              ltac:(vm_compute; reflexivity) ltac:(vm_compute; reflexivity)
              ltac:(vm_compute; reflexivity) ltac:(vm_compute; reflexivity)
              ltac:(vm_compute; reflexivity) ltac:(vm_compute; reflexivity)
              bound_state_owner_cache ltac:(reflexivity))
    as (s' & Hrun & Hcache & _ & Hgone & _).
  destruct bound_state_shape as (Hlive & Howned & Hshape).
  exists s'. split; [exact Hrun|]. split; [exact Hcache|]. split; [exact Hgone|].
  apply (B (bound_state 64 64) (Some 2%positive) s' Hlive Howned); [|exact Hrun].
  intros T [= <-]. exact Hshape.
Defined.

(** * Further properties of the operations *)

(** ** The clipper's guarantees *)

(** X1: the rectangles that leave the clipper of [swrender_UpdateImage] lie
    inside the buffers they address.  For a surface and an image of
    non-negative size and rectangles whose coordinates keep the [int]
    arithmetic exact, the clipped destination rectangle lies inside the
    image, and the region read from the surface (the clipped source origin,
    with the extents of the destination) lies inside the surface. *)
Theorem clip_stays_inside
    (surface_w surface_h image_w image_h : Z)
    (surface_rect image_rect : option GPU_Rect.t) :
  small_rect (rect_or_full surface_rect surface_w surface_h) →
  small_rect (rect_or_full image_rect image_w image_h) →
  0 <= surface_w <= 2 ^ 28 → 0 <= surface_h <= 2 ^ 28 →
  0 <= image_w <= 2 ^ 28 → 0 <= image_h <= 2 ^ 28 →
  let src := fst (Clip.clip surface_w surface_h image_w image_h surface_rect image_rect) in
  let dst := snd (Clip.clip surface_w surface_h image_w image_h surface_rect image_rect) in
  (0 <= SDL_Rect.x dst ∧ SDL_Rect.x dst + SDL_Rect.w dst <= image_w
   ∧ 0 <= SDL_Rect.y dst ∧ SDL_Rect.y dst + SDL_Rect.h dst <= image_h)
  ∧ (0 <= SDL_Rect.x src ∧ SDL_Rect.x src + SDL_Rect.w dst <= surface_w
     ∧ 0 <= SDL_Rect.y src ∧ SDL_Rect.y src + SDL_Rect.h dst <= surface_h).
Proof.
  intros Hs Hd Hsw Hsh Hiw Hih. cbv zeta.
  apply small_rect_axes in Hs as (Hsx & Hsww & Hsy & Hshh).
  apply small_rect_axes in Hd as (Hdx & Hdww & Hdy & Hdhh).
  unfold Clip.clip, Clip.before_pairing. cbv zeta.
  set (src0 := rect_or_full surface_rect surface_w surface_h) in *.
  set (dst0 := rect_or_full image_rect image_w image_h) in *.
  pose proof (x_axis_clip surface_w surface_h image_w image_h (src0, dst0)) as Hx.
  pose proof (y_axis_clip surface_w surface_h image_w image_h (src0, dst0)) as Hy.
  pose proof (axis_clip_spec surface_w image_w _ _ _ _ Hsx Hsww Hdx Hdww Hsw Hiw) as Ax.
  pose proof (axis_clip_spec surface_h image_h _ _ _ _ Hsy Hshh Hdy Hdhh Hsh Hih) as Ay.
  cbv zeta in Ax, Ay.
  change (SDL_Rect.x src0, SDL_Rect.w src0, SDL_Rect.x dst0, SDL_Rect.w dst0)
    with (x_axis (src0, dst0)) in Ax.
  change (SDL_Rect.y src0, SDL_Rect.h src0, SDL_Rect.y dst0, SDL_Rect.h dst0)
    with (y_axis (src0, dst0)) in Ay.
  rewrite <- Hx in Ax. rewrite <- Hy in Ay.
  destruct (Clip.clip_dst_against_src _) as [src dst].
  unfold x_axis, y_axis in Ax, Ay.
  cbn [fst snd Axis.src_origin Axis.src_extent Axis.dst_origin Axis.dst_extent]
    in Ax, Ay |- *.
  lia.
Qed.

Lemma clip_stays_inside_witness :
  let clipped :=
    Clip.clip 10 10 10 10 (Some (GPU_Rect.mk (-2#1) (0#1) (5#1) (5#1)))
      (Some (GPU_Rect.mk (3#1) (4#1) (5#1) (5#1))) in
  clipped = (SDL_Rect.mk 0 0 3 5, SDL_Rect.mk 5 4 3 5)
  ∧ (0 <= SDL_Rect.x (snd clipped)
     ∧ SDL_Rect.x (snd clipped) + SDL_Rect.w (snd clipped) <= 10
     ∧ 0 <= SDL_Rect.y (snd clipped)
     ∧ SDL_Rect.y (snd clipped) + SDL_Rect.h (snd clipped) <= 10)
  ∧ (0 <= SDL_Rect.x (fst clipped)
     ∧ SDL_Rect.x (fst clipped) + SDL_Rect.w (snd clipped) <= 10
     ∧ 0 <= SDL_Rect.y (fst clipped)
     ∧ SDL_Rect.y (fst clipped) + SDL_Rect.h (snd clipped) <= 10).
Proof.
  cbv zeta. split; [vm_compute; reflexivity|].
  apply (clip_stays_inside 10 10 10 10
           (Some (GPU_Rect.mk (-2#1) (0#1) (5#1) (5#1)))
           (Some (GPU_Rect.mk (3#1) (4#1) (5#1) (5#1))));
    repeat split; vm_compute; discriminate.
Defined.

(** X2: clipping keeps the two rectangles in lockstep and never grows them.
    Under the same conditions, the offset between the destination origin
    and the source origin is the one the caller asked for on each axis (a
    pixel of the surface still lands where the request put it), and each
    clipped rectangle lies inside the requested one. *)
Theorem clip_keeps_lockstep
    (surface_w surface_h image_w image_h : Z)
    (surface_rect image_rect : option GPU_Rect.t) :
  small_rect (rect_or_full surface_rect surface_w surface_h) →
  small_rect (rect_or_full image_rect image_w image_h) →
  0 <= surface_w <= 2 ^ 28 → 0 <= surface_h <= 2 ^ 28 →
  0 <= image_w <= 2 ^ 28 → 0 <= image_h <= 2 ^ 28 →
  let src0 := rect_or_full surface_rect surface_w surface_h in
  let dst0 := rect_or_full image_rect image_w image_h in
  let src := fst (Clip.clip surface_w surface_h image_w image_h surface_rect image_rect) in
  let dst := snd (Clip.clip surface_w surface_h image_w image_h surface_rect image_rect) in
  (SDL_Rect.x dst - SDL_Rect.x src = SDL_Rect.x dst0 - SDL_Rect.x src0
   ∧ SDL_Rect.y dst - SDL_Rect.y src = SDL_Rect.y dst0 - SDL_Rect.y src0)
  ∧ (SDL_Rect.x dst0 <= SDL_Rect.x dst
     ∧ SDL_Rect.x dst + SDL_Rect.w dst <= SDL_Rect.x dst0 + SDL_Rect.w dst0
     ∧ SDL_Rect.y dst0 <= SDL_Rect.y dst
     ∧ SDL_Rect.y dst + SDL_Rect.h dst <= SDL_Rect.y dst0 + SDL_Rect.h dst0)
  ∧ (SDL_Rect.x src0 <= SDL_Rect.x src
     ∧ SDL_Rect.x src + SDL_Rect.w src <= SDL_Rect.x src0 + SDL_Rect.w src0
     ∧ SDL_Rect.y src0 <= SDL_Rect.y src
     ∧ SDL_Rect.y src + SDL_Rect.h src <= SDL_Rect.y src0 + SDL_Rect.h src0).
Proof.
  intros Hs Hd Hsw Hsh Hiw Hih. cbv zeta.
  apply small_rect_axes in Hs as (Hsx & Hsww & Hsy & Hshh).
  apply small_rect_axes in Hd as (Hdx & Hdww & Hdy & Hdhh).
  unfold Clip.clip, Clip.before_pairing. cbv zeta.
  set (src0 := rect_or_full surface_rect surface_w surface_h) in *.
  set (dst0 := rect_or_full image_rect image_w image_h) in *.
  pose proof (x_axis_clip surface_w surface_h image_w image_h (src0, dst0)) as Hx.
  pose proof (y_axis_clip surface_w surface_h image_w image_h (src0, dst0)) as Hy.
  pose proof (axis_clip_spec surface_w image_w _ _ _ _ Hsx Hsww Hdx Hdww Hsw Hiw) as Ax.
  pose proof (axis_clip_spec surface_h image_h _ _ _ _ Hsy Hshh Hdy Hdhh Hsh Hih) as Ay.
  cbv zeta in Ax, Ay.
  change (SDL_Rect.x src0, SDL_Rect.w src0, SDL_Rect.x dst0, SDL_Rect.w dst0)
    with (x_axis (src0, dst0)) in Ax.
  change (SDL_Rect.y src0, SDL_Rect.h src0, SDL_Rect.y dst0, SDL_Rect.h dst0)
    with (y_axis (src0, dst0)) in Ay.
  rewrite <- Hx in Ax. rewrite <- Hy in Ay.
  destruct (Clip.clip_dst_against_src _) as [src dst].
  unfold x_axis, y_axis in Ax, Ay.
  cbn [fst snd Axis.src_origin Axis.src_extent Axis.dst_origin Axis.dst_extent]
    in Ax, Ay |- *.
  lia.
Qed.

Lemma clip_keeps_lockstep_witness :
  let clipped :=
    Clip.clip 10 10 10 10 (Some (GPU_Rect.mk (-2#1) (0#1) (5#1) (5#1)))
      (Some (GPU_Rect.mk (3#1) (4#1) (5#1) (5#1))) in
  clipped = (SDL_Rect.mk 0 0 3 5, SDL_Rect.mk 5 4 3 5)
  ∧ SDL_Rect.x (snd clipped) - SDL_Rect.x (fst clipped) = 3 - -2
  ∧ SDL_Rect.y (snd clipped) - SDL_Rect.y (fst clipped) = 4 - 0.
Proof.
  cbv zeta. split; [vm_compute; reflexivity|].
  apply (clip_keeps_lockstep 10 10 10 10
           (Some (GPU_Rect.mk (-2#1) (0#1) (5#1) (5#1)))
           (Some (GPU_Rect.mk (3#1) (4#1) (5#1) (5#1))));
    repeat split; vm_compute; discriminate.
Defined.

Lemma rect_or_full_in_range r full_w full_h :
  CInt.in_range full_w → CInt.in_range full_h →
  CInt.in_range (SDL_Rect.x (rect_or_full r full_w full_h))
  ∧ CInt.in_range (SDL_Rect.y (rect_or_full r full_w full_h))
  ∧ CInt.in_range (SDL_Rect.w (rect_or_full r full_w full_h))
  ∧ CInt.in_range (SDL_Rect.h (rect_or_full r full_w full_h)).
Proof.
  intros Hw Hh. destruct r as [r|]; cbn.
  - repeat split; apply int_of_float_in_range.
  - unfold CInt.in_range, CInt.int_min, CInt.int_max in *. lia.
Qed.

Lemma rect_eq_axes (p q : SDL_Rect.t * SDL_Rect.t) :
  x_axis p = x_axis q → y_axis p = y_axis q → p = q.
Proof.
  destruct p as [[] []], q as [[] []]. unfold x_axis, y_axis. cbn.
  intros [= -> -> -> ->] [= -> -> -> ->]. reflexivity.
Qed.

(** X3: a request that is already in bounds passes the clipper unchanged.
    When the source rectangle lies inside the surface, the destination
    rectangle inside the image, and the destination is no larger than the
    source, the clipper returns both rectangles as they were given; no
    assumption on the size of the coordinates is needed beyond their being
    [int] values. *)
Theorem clip_in_bounds_is_identity
    (surface_w surface_h image_w image_h : Z)
    (surface_rect image_rect : option GPU_Rect.t) :
  let src := rect_or_full surface_rect surface_w surface_h in
  let dst := rect_or_full image_rect image_w image_h in
  CInt.in_range surface_w → CInt.in_range surface_h →
  CInt.in_range image_w → CInt.in_range image_h →
  0 <= SDL_Rect.x src → SDL_Rect.x src + SDL_Rect.w src <= surface_w →
  0 <= SDL_Rect.y src → SDL_Rect.y src + SDL_Rect.h src <= surface_h →
  0 <= SDL_Rect.x dst → SDL_Rect.x dst + SDL_Rect.w dst <= image_w →
  0 <= SDL_Rect.y dst → SDL_Rect.y dst + SDL_Rect.h dst <= image_h →
  SDL_Rect.w dst <= SDL_Rect.w src → SDL_Rect.h dst <= SDL_Rect.h src →
  Clip.clip surface_w surface_h image_w image_h surface_rect image_rect = (src, dst).
Proof.
  cbv zeta. intros Hsw Hsh Hiw Hih Sx Sxw Sy Syh Dx Dxw Dy Dyh Hw Hh.
  destruct (rect_or_full_in_range surface_rect _ _ Hsw Hsh) as (R1 & R2 & R3 & R4).
  destruct (rect_or_full_in_range image_rect _ _ Hiw Hih) as (Q1 & Q2 & Q3 & Q4).
  unfold Clip.clip, Clip.before_pairing. cbv zeta.
  set (src0 := rect_or_full surface_rect surface_w surface_h) in *.
  set (dst0 := rect_or_full image_rect image_w image_h) in *.
  apply rect_eq_axes.
  - rewrite x_axis_clip. unfold x_axis. cbn [fst snd]. by apply axis_clip_id.
  - rewrite y_axis_clip. unfold y_axis. cbn [fst snd]. by apply axis_clip_id.
Qed.

Lemma clip_in_bounds_is_identity_witness :
  Clip.clip 10 10 20 20 (Some (GPU_Rect.mk (2#1) (3#1) (5#1) (6#1)))
    (Some (GPU_Rect.mk (15#1) (14#1) (5#1) (6#1)))
  = (SDL_Rect.mk 2 3 5 6, SDL_Rect.mk 15 14 5 6).
Proof.
  apply (clip_in_bounds_is_identity 10 10 20 20
           (Some (GPU_Rect.mk (2#1) (3#1) (5#1) (6#1)))
           (Some (GPU_Rect.mk (15#1) (14#1) (5#1) (6#1))));
    try (split; vm_compute; discriminate); vm_compute; discriminate.
Defined.

(** ** The upload operations *)






(** ** swrender_CopyImageFromSurface *)

Lemma mul_0_r a : CInt.mul a 0 = 0.
Proof. unfold CInt.mul. rewrite Z.mul_0_r. reflexivity. Qed.

(** The clipper on two full rectangles, the image no larger than the
    surface. *)
Lemma clip_full surface_w surface_h image_w image_h :
  CInt.in_range surface_w → CInt.in_range surface_h →
  0 <= image_w <= surface_w → 0 <= image_h <= surface_h →
  Clip.clip surface_w surface_h image_w image_h None None
  = (SDL_Rect.mk 0 0 surface_w surface_h, SDL_Rect.mk 0 0 image_w image_h).
Proof.
  intros Hsw Hsh Hw Hh.
  unfold Clip.clip, Clip.before_pairing, rect_or_full. cbv zeta.
  apply rect_eq_axes.
  - rewrite x_axis_clip. unfold x_axis. cbn [fst snd SDL_Rect.x SDL_Rect.w].
    apply axis_clip_id; unfold CInt.in_range, CInt.int_min, CInt.int_max in *; lia.
  - rewrite y_axis_clip. unfold y_axis. cbn [fst snd SDL_Rect.y SDL_Rect.h].
    apply axis_clip_id; unfold CInt.in_range, CInt.int_min, CInt.int_max in *; lia.
Qed.

Lemma to_Uint16_bounds z : 0 <= z → 0 <= CInt.to_Uint16 z <= z.
Proof.
  intros Hz. unfold CInt.to_Uint16.
  pose proof (Z.mod_pos_bound z (2 ^ 16)). pose proof (Z.mod_le z (2 ^ 16)). lia.
Qed.

(** The state in which [swrender_CreateImage] leaves a new RGBA image. *)
Lemma CopyImageFromSurface_created converted surface s sdlr :
  has_context s sdlr →
  swrender_CopyImageFromSurface true true true converted surface s
  = (swrender_UpdateImage converted (Some (fresh (dom (images s)))) None surface None;;
     mret (Some (fresh (dom (images s)))))
      (with_images
         (insert (fresh (dom (images s)))
            (created_image s (CInt.to_Uint16 (SDL_Surface.w surface))
               (CInt.to_Uint16 (SDL_Surface.h surface)) GPU_FORMAT_RGBA
               SDL_PIXELFORMAT_RGBA8888 4 4 (fresh (dom (image_datas s)))))
         (log (SDL_SetTextureBlendMode (Some (fresh (sdl_textures s))) SDL_BLENDMODE_BLEND)
            (with_image_datas
               (insert (fresh (dom (image_datas s)))
                  (SW_IMAGE_DATA.mk 1 SDL_PIXELFORMAT_RGBA8888
                     (Some (fresh (sdl_textures s)))))
               (with_sdl_textures (λ ts, {[fresh (sdl_textures s)]} ∪ ts)
                  (log (SDL_CreateTexture sdlr SDL_PIXELFORMAT_RGBA8888
                          (CInt.to_Uint16 (SDL_Surface.w surface))
                          (CInt.to_Uint16 (SDL_Surface.h surface))) s))))).
Proof.
  intros Hctx. unfold swrender_CopyImageFromSurface.
  unfold mbind at 1, M_bind at 1.
  rewrite (CreateImage_ok _ _ GPU_FORMAT_RGBA SDL_PIXELFORMAT_RGBA8888 4 4 s sdlr Hctx
             eq_refl).
  reflexivity.
Qed.

(** X6: the outcomes of [swrender_CopyImageFromSurface].  Without a current
    context target it returns null with the user error of image creation
    and uploads nothing.  With a current window target: when one of the two
    structs cannot be allocated it returns null, reports no error and
    uploads nothing, what was allocated released; when both are allocated
    and the texture cannot be created it returns null with the backend
    error, the two structs released; when both are allocated and the texture
    is created, for a surface whose sizes are non-negative [int] values, it
    returns a new RGBA image whose size is the surface's size reduced to
    [Uint16], with a new texture of its own, and uploads the whole image
    from the origin of the surface: directly when the surface is RGBA8888,
    through a temporary surface otherwise.  In that last case the image is
    returned even when nothing could be uploaded, because the reduced size
    is empty or because the temporary surface was not obtained. *)
Theorem copyImageFromSurface_outcomes
    (converted : option SDL_Surface.t) (surface : SDL_Surface.t) (s : State) :
  let w := CInt.to_Uint16 (SDL_Surface.w surface) in
  let h := CInt.to_Uint16 (SDL_Surface.h surface) in
  (∀ image_ok image_data_ok tex_ok,
     current_context_target s = None →
     swrender_CopyImageFromSurface image_ok image_data_ok tex_ok converted surface s
     = Ok None (log (GPU_PushErrorCode "GPU_CreateImage" GPU_ERROR_USER_ERROR
                       "No current context") s))
  ∧ (∀ sdlr image_ok image_data_ok tex_ok,
       has_context s sdlr → image_ok && image_data_ok = false →
       ∃ p q,
         swrender_CopyImageFromSurface image_ok image_data_ok tex_ok converted
           surface s
         = Ok None (log (SDL_free BImageData q) (log (SDL_free BImage p) s)))
  ∧ (∀ sdlr,
       has_context s sdlr →
       ∃ p q,
         swrender_CopyImageFromSurface true true false converted surface s
         = Ok None
             (log (GPU_PushErrorCode "GPU_CreateImage" GPU_ERROR_BACKEND_ERROR
                     "SDL_CreateTexture failed: %s")
                (log (SDL_free BImageData q)
                   (log (SDL_free BImage p)
                      (log (SDL_CreateTexture sdlr SDL_PIXELFORMAT_RGBA8888 w h) s)))))
  ∧ (∀ sdlr,
       has_context s sdlr →
       0 <= SDL_Surface.w surface <= CInt.int_max →
       0 <= SDL_Surface.h surface <= CInt.int_max →
       ∃ a d tex s' calls,
         swrender_CopyImageFromSurface true true true converted surface s
         = Ok (Some a) s'
         ∧ images s !! a = None
         ∧ images s' !! a
           = Some (created_image s w h GPU_FORMAT_RGBA SDL_PIXELFORMAT_RGBA8888 4 4 d)
         ∧ image_datas s' !! d
           = Some (SW_IMAGE_DATA.mk 1 SDL_PIXELFORMAT_RGBA8888 (Some tex))
         ∧ (tex ∉ sdl_textures s) ∧ (tex ∈ sdl_textures s')
         ∧ trace s'
           = trace s
             ++ [SDL_CreateTexture sdlr SDL_PIXELFORMAT_RGBA8888 w h;
                 SDL_SetTextureBlendMode (Some tex) SDL_BLENDMODE_BLEND]
             ++ calls
         ∧ if (w <=? 0) || (h <=? 0) then calls = []
           else if decide (SDL_Surface.format surface = SDL_PIXELFORMAT_RGBA8888)
           then calls = [SDL_UpdateTexture (Some tex) (SDL_Rect.mk 0 0 w h)
                           (SDL_Surface.pixels surface) (SDL_Surface.pitch surface)]
           else match converted with
                | None =>
                    calls = [SDL_CreateRGBSurface (SDL_Surface.w surface)
                               (SDL_Surface.h surface) SDL_PIXELFORMAT_RGBA8888]
                | Some c =>
                    calls = [SDL_CreateRGBSurface (SDL_Surface.w surface)
                               (SDL_Surface.h surface) SDL_PIXELFORMAT_RGBA8888;
                             SDL_BlitSurface surface
                               (SDL_Rect.mk 0 0 (SDL_Surface.w surface)
                                  (SDL_Surface.h surface)) c;
                             SDL_UpdateTexture (Some tex) (SDL_Rect.mk 0 0 w h)
                               (SDL_Surface.pixels c) (SDL_Surface.pitch c);
                             SDL_FreeSurface c]
                end).
Proof.
  cbv zeta. split; [|split; [|split]].
  - intros image_ok image_data_ok tex_ok Hcur.
    unfold swrender_CopyImageFromSurface. unfold mbind at 1, M_bind at 1.
    rewrite CreateImage_no_context by exact Hcur. reflexivity.
  - intros sdlr image_ok image_data_ok tex_ok Hctx Hok.
    destruct (CreateImage_allocation_failure image_ok image_data_ok tex_ok
                (CInt.to_Uint16 (SDL_Surface.w surface))
                (CInt.to_Uint16 (SDL_Surface.h surface)) GPU_FORMAT_RGBA s sdlr
                Hctx Hok) as (p & q & Hrun & _).
    exists p, q.
    unfold swrender_CopyImageFromSurface. unfold mbind at 1, M_bind at 1.
    rewrite Hrun. reflexivity.
  - intros sdlr Hctx. eexists _, _.
    unfold swrender_CopyImageFromSurface. unfold mbind at 1, M_bind at 1.
    rewrite (CreateImage_texture_failure _ _ GPU_FORMAT_RGBA SDL_PIXELFORMAT_RGBA8888
               4 4 s sdlr Hctx eq_refl).
    reflexivity.
  - intros sdlr Hctx Hw Hh.
    pose proof (to_Uint16_bounds _ (proj1 Hw)) as Hw'.
    pose proof (to_Uint16_bounds _ (proj1 Hh)) as Hh'.
    rewrite (CopyImageFromSurface_created converted surface s sdlr Hctx).
    set (a := fresh (dom (images s))).
    set (d := fresh (dom (image_datas s))).
    set (tex := fresh (sdl_textures s)).
    set (w := CInt.to_Uint16 (SDL_Surface.w surface)) in *.
    set (h := CInt.to_Uint16 (SDL_Surface.h surface)) in *.
    clearbody w h.
    set (s1 := with_images _ _).
    assert (Fa : images s !! a = None) by apply fresh_lookup_None.
    assert (Ft : tex ∉ sdl_textures s) by apply is_fresh.
    assert (Hrun : ∃ calls,
      (swrender_UpdateImage converted (Some a) None surface None;; mret (Some a)) s1
      = Ok (Some a) (with_trace (λ tr, tr ++ calls) s1)
      ∧ if (w <=? 0) || (h <=? 0) then calls = []
        else if decide (SDL_Surface.format surface = SDL_PIXELFORMAT_RGBA8888)
        then calls = [SDL_UpdateTexture (Some tex) (SDL_Rect.mk 0 0 w h)
                        (SDL_Surface.pixels surface) (SDL_Surface.pitch surface)]
        else match converted with
             | None =>
                 calls = [SDL_CreateRGBSurface (SDL_Surface.w surface)
                            (SDL_Surface.h surface) SDL_PIXELFORMAT_RGBA8888]
             | Some c =>
                 calls = [SDL_CreateRGBSurface (SDL_Surface.w surface)
                            (SDL_Surface.h surface) SDL_PIXELFORMAT_RGBA8888;
                          SDL_BlitSurface surface
                            (SDL_Rect.mk 0 0 (SDL_Surface.w surface)
                               (SDL_Surface.h surface)) c;
                          SDL_UpdateTexture (Some tex) (SDL_Rect.mk 0 0 w h)
                            (SDL_Surface.pixels c) (SDL_Surface.pitch c);
                          SDL_FreeSurface c]
             end).
    { unfold swrender_UpdateImage, IMAGE_DATA, deref_image, deref_image_data, deref.
      unfold_monad. unfold s1 at 1. state_simpl. rewrite lookup_insert_eq.
      cbv beta iota. unfold created_image at 1 2. state_simpl.
      rewrite clip_full
        by (unfold CInt.in_range, CInt.int_min, CInt.int_max in *; lia).
      unfold Clip.nothing_left. cbn [SDL_Rect.x SDL_Rect.y SDL_Rect.w SDL_Rect.h].
      destruct ((w <=? 0) || (h <=? 0)).
      { exists []. split; [|reflexivity]. apply (f_equal (Ok (Some a))).
        apply state_ext; try reflexivity. cbn. by rewrite app_nil_r. }
      unfold s1 at 1. state_simpl. rewrite lookup_insert_eq. cbv beta iota.
      unfold created_image at 1. state_simpl.
      unfold s1 at 1. state_simpl. rewrite lookup_insert_eq. cbv beta iota.
      state_simpl.
      destruct (decide (SDL_Surface.format surface = SDL_PIXELFORMAT_RGBA8888))
        as [Heq|Hne].
      - rewrite decide_False by (intros H; by apply H).
        rewrite !mul_0_r, !Z.add_0_r. eexists. split; reflexivity.
      - rewrite decide_True by done.
        destruct converted as [c|].
        + rewrite !mul_0_r, !Z.add_0_r. eexists. split; [|reflexivity].
          apply (f_equal (Ok (Some a))). apply state_ext; try reflexivity.
          cbn. rewrite <- !app_assoc. reflexivity.
        + eexists. split; reflexivity. }
    destruct Hrun as (calls & Hrun & Hcalls).
    exists a, d, tex, (with_trace (λ tr, tr ++ calls) s1), calls.
    split; [exact Hrun|]. unfold s1. state_simpl.
    split; [exact Fa|]. split; [apply lookup_insert_eq|].
    split; [apply lookup_insert_eq|]. split; [exact Ft|].
    split; [apply elem_of_union; left; by apply elem_of_singleton|].
    split; [|exact Hcalls]. rewrite <- !app_assoc. reflexivity.
Qed.

Lemma copyImageFromSurface_outcomes_witness :
  let surface := SDL_Surface.mk 10 10 SDL_PIXELFORMAT_RGBA8888 4 40 1000 in
  (∃ a tex s' calls,
     swrender_CopyImageFromSurface true true true None surface window_state
     = Ok (Some a) s'
     ∧ trace s'
       = trace window_state
         ++ [SDL_CreateTexture (Some 1%positive) SDL_PIXELFORMAT_RGBA8888 10 10;
             SDL_SetTextureBlendMode (Some tex) SDL_BLENDMODE_BLEND]
         ++ calls
     ∧ calls = [SDL_UpdateTexture (Some tex) (SDL_Rect.mk 0 0 10 10) 1000 40])
  ∧ (∃ p q,
       swrender_CopyImageFromSurface false true true None surface window_state
       = Ok None (log (SDL_free BImageData q) (log (SDL_free BImage p) window_state))).
Proof.
  cbv zeta.
  destruct (copyImageFromSurface_outcomes None
              (SDL_Surface.mk 10 10 SDL_PIXELFORMAT_RGBA8888 4 40 1000) window_state)
    as (_ & Hfail & _ & Hok).
  split.
  - destruct (Hok (Some 1%positive) window_state_has_context
                ltac:(split; vm_compute; discriminate)
                ltac:(split; vm_compute; discriminate))
      as (a & d & tex & s' & calls & H1 & _ & _ & _ & _ & _ & Ht & Hc).
    exists a, tex, s', calls. split; [exact H1|]. split; [exact Ht|]. exact Hc.
  - exact (Hfail (Some 1%positive) false true true window_state_has_context eq_refl).
Defined.

(** ** The window target, from creation to [swrender_Quit] *)

Lemma CreateTargetFromWindow_ok win ww hh windowID s :
  current_context_target s = None →
  swrender_CreateTargetFromWindow (Some win) true ww hh true true true windowID None s
  = Ok (Some (fresh (dom (targets s))))
       (window_created win (fresh (sdl_renderers s)) (fresh (dom (targets s)))
          (fresh (dom (contexts s))) (fresh (dom (context_datas s)))
          ww hh windowID s).
Proof.
  intros Hcur. unfold_ops. rewrite Hcur.
  remember (fresh (sdl_renderers s)) as r eqn:Hr. symmetry in Hr.
  remember (fresh (dom (targets s))) as T eqn:HT. symmetry in HT.
  remember (fresh (dom (contexts s))) as c eqn:Hc. symmetry in Hc.
  remember (fresh (dom (context_datas s))) as d eqn:Hd. symmetry in Hd.
  heap_eval. unfold window_created, window_target. state_eq.
Qed.

Lemma CreateTargetFromWindow_renderer_failed win ww hh t_ok c_ok d_ok windowID s :
  current_context_target s = None →
  swrender_CreateTargetFromWindow (Some win) false ww hh t_ok c_ok d_ok windowID None s
  = Ok None
       (log (GPU_PushErrorCode "GPU_CreateTargetFromWindow" GPU_ERROR_BACKEND_ERROR
               "Failed to initialize the SDL renderer: %s")
          (log (SDL_CreateRenderer win) s)).
Proof. intros Hcur. unfold_ops. rewrite Hcur. reflexivity. Qed.

(** The last reference to a window target: the renderer of the drawing
    library is destroyed, the Context's record, the Context and the target
    are released in this order. *)
Lemma FreeTarget_window s T tv c cv d cd :
  targets s !! T = Some tv → CInt.sub (GPU_Target.refcount tv) 1 <= 0 →
  GPU_Target.image tv = None → GPU_Target.context tv = Some c →
  contexts s !! c = Some cv → GPU_Context.data cv = Some d →
  context_datas s !! d = Some cd →
  swrender_FreeTarget (Some T) s
  = Ok tt (window_destroyed T c d (SW_CONTEXT_DATA.sdl_renderer cd) s).
Proof.
  intros HT Hrc Him Hc Hcv Hd Hcd.
  unfold_ops. heap_eval.
  destruct (Z.gtb_spec (CInt.sub (GPU_Target.refcount tv) 1) 0); [lia|].
  heap_eval. rewrite bool_decide_false by (intros Hx; by apply Hx).
  rewrite andb_false_r. heap_eval.
  unfold window_destroyed.
  destruct (SW_CONTEXT_DATA.sdl_renderer cd) as [r|]; heap_eval;
    case_decide; unfold id; heap_eval; state_eq.
Qed.

Lemma window_created_owner_cache win r T c d ww hh windowID s :
  owner_cache (window_created win r T c d ww hh windowID s) T d
    (SW_CONTEXT_DATA.mk (Some r) (Some T)).
Proof.
  exists (window_target T c ww hh), T, (window_target T c ww hh), c,
    (GPU_Context.mk (Some d) windowID ww hh ww hh).
  unfold window_created. state_simpl. rewrite !lookup_insert_eq. done.
Qed.

(** X7: a successful [swrender_CreateTargetFromWindow].  On a renderer
    without a current context target, with the window resolved, the drawing
    library's renderer created and the three structs allocated, the
    operation returns a new target that is the renderer's current context
    target, is its own [context_target], holds one reference and has the
    renderer's output size reduced to [Uint16]; its Context records the
    window id and the unreduced size; the Context's record holds the new
    renderer of the drawing library and names the target as the bound
    destination, so that the first drawing on the window switches nothing.
    Everything that was in the heap is as it was.  When the drawing library
    cannot create its renderer, the operation reports a backend error,
    returns null and allocates nothing. *)
Theorem createTargetFromWindow_builds_the_window
    (win : addr) (ww hh windowID : Z) (s : State) :
  current_context_target s = None →
  (∃ T r c d s',
     swrender_CreateTargetFromWindow (Some win) true ww hh true true true
       windowID None s = Ok (Some T) s'
     ∧ (targets s !! T = None ∧ contexts s !! c = None
        ∧ context_datas s !! d = None ∧ r ∉ sdl_renderers s)
     ∧ current_context_target s' = Some T
     ∧ targets s' !! T = Some (window_target T c ww hh)
     ∧ contexts s' !! c = Some (GPU_Context.mk (Some d) windowID ww hh ww hh)
     ∧ context_datas s' !! d = Some (SW_CONTEXT_DATA.mk (Some r) (Some T))
     ∧ r ∈ sdl_renderers s'
     ∧ bound s' T
     ∧ setRenderTarget (Some T) s' = Ok (Some r) s'
     ∧ (∀ a, a ≠ T → targets s' !! a = targets s !! a)
     ∧ (∀ a, a ≠ c → contexts s' !! a = contexts s !! a)
     ∧ (∀ a, a ≠ d → context_datas s' !! a = context_datas s !! a)
     ∧ images s' = images s ∧ image_datas s' = image_datas s
     ∧ sdl_textures s' = sdl_textures s
     ∧ trace s' = trace s ++ [SDL_CreateRenderer win])
  ∧ (∀ target_ok context_ok context_data_ok,
       swrender_CreateTargetFromWindow (Some win) false ww hh target_ok context_ok
         context_data_ok windowID None s
       = Ok None
           (log (GPU_PushErrorCode "GPU_CreateTargetFromWindow"
                   GPU_ERROR_BACKEND_ERROR "Failed to initialize the SDL renderer: %s")
              (log (SDL_CreateRenderer win) s))).
Proof.
  intros Hcur. split.
  - exists (fresh (dom (targets s))), (fresh (sdl_renderers s)),
      (fresh (dom (contexts s))), (fresh (dom (context_datas s))).
    eexists. split; [by apply CreateTargetFromWindow_ok|].
    set (T := fresh (dom (targets s))). set (r := fresh (sdl_renderers s)).
    set (c := fresh (dom (contexts s))). set (d := fresh (dom (context_datas s))).
    pose proof (window_created_owner_cache win r T c d ww hh windowID s) as Hown.
    split.
    { split; [apply fresh_lookup_None|]. split; [apply fresh_lookup_None|].
      split; [apply fresh_lookup_None|apply is_fresh]. }
    split; [reflexivity|].
    split; [apply lookup_insert_eq|]. split; [apply lookup_insert_eq|].
    split; [apply lookup_insert_eq|].
    split; [apply elem_of_union; left; by apply elem_of_singleton|].
    split; [by eexists _, _|].
    split; [exact (setRenderTarget_hit _ _ _ _ Hown eq_refl)|].
    unfold window_created. state_simpl.
    split; [intros a Ha; by rewrite lookup_insert_ne|].
    split; [intros a Ha; by rewrite lookup_insert_ne|].
    split; [intros a Ha; by rewrite lookup_insert_ne|].
    done.
  - intros t_ok c_ok d_ok. by apply CreateTargetFromWindow_renderer_failed.
Qed.

Lemma createTargetFromWindow_builds_the_window_witness :
  ∃ T r s',
    swrender_CreateTargetFromWindow (Some 7%positive) true 70000 480 true true true
      1 None swrender_CreateRenderer = Ok (Some T) s'
    ∧ current_context_target s' = Some T
    ∧ (GPU_Target.w <$> (targets s' !! T)) = Some 4464
    ∧ setRenderTarget (Some T) s' = Ok (Some r) s'.
Proof.
  destruct (proj1 (createTargetFromWindow_builds_the_window 7%positive 70000 480 1
                     swrender_CreateRenderer eq_refl))
    as (T & r & c & d & s' & Hrun & _ & Hcur & HT & _ & _ & _ & _ & Hset & _).
  exists T, r, s'. split; [exact Hrun|]. split; [exact Hcur|].
  split; [|exact Hset]. rewrite HT. reflexivity.
Defined.

(** [swrender_Quit] on a renderer whose current context target holds one
    reference. *)
Lemma Quit_window s T tv c cv d cd :
  current_context_target s = Some T →
  targets s !! T = Some tv → CInt.sub (GPU_Target.refcount tv) 1 <= 0 →
  GPU_Target.image tv = None → GPU_Target.context tv = Some c →
  contexts s !! c = Some cv → GPU_Context.data cv = Some d →
  context_datas s !! d = Some cd →
  swrender_Quit s
  = Ok tt (with_current_context_target None
             (window_destroyed T c d (SW_CONTEXT_DATA.sdl_renderer cd) s)).
Proof.
  intros Hcur HT Hrc Him Hc Hcv Hd Hcd.
  unfold swrender_Quit. unfold mbind, M_bind, get_state, update. rewrite Hcur.
  rewrite (FreeTarget_window s T tv c cv d cd) by assumption.
  reflexivity.
Qed.

(** X8: creating the window target and quitting leaves nothing behind.  On
    a renderer without a current context target, a successful
    [swrender_CreateTargetFromWindow] followed by [swrender_Quit] destroys
    the renderer of the drawing library it created and releases the
    Context's record, the Context and the target, in this order; the heap,
    the live renderers and textures and the current context target are then
    exactly what they were before the window was created. *)
Theorem create_then_quit_leaves_nothing
    (win : addr) (ww hh windowID : Z) (s : State) :
  current_context_target s = None →
  ∃ T r c d s1 s2,
    swrender_CreateTargetFromWindow (Some win) true ww hh true true true
      windowID None s = Ok (Some T) s1
    ∧ swrender_Quit s1 = Ok tt s2
    ∧ targets s2 = targets s ∧ contexts s2 = contexts s
    ∧ context_datas s2 = context_datas s ∧ sdl_renderers s2 = sdl_renderers s
    ∧ images s2 = images s ∧ image_datas s2 = image_datas s
    ∧ sdl_textures s2 = sdl_textures s
    ∧ current_context_target s2 = None
    ∧ trace s2
      = trace s ++ [SDL_CreateRenderer win; SDL_DestroyRenderer (Some r);
                    SDL_free BContextData (Some d); SDL_free BContext (Some c);
                    SDL_free BTarget (Some T)].
Proof.
  intros Hcur.
  exists (fresh (dom (targets s))), (fresh (sdl_renderers s)),
    (fresh (dom (contexts s))), (fresh (dom (context_datas s))).
  set (T := fresh (dom (targets s))). set (r := fresh (sdl_renderers s)).
  set (c := fresh (dom (contexts s))). set (d := fresh (dom (context_datas s))).
  eexists _, _. split; [by apply CreateTargetFromWindow_ok|].
  fold T r c d. split.
  { apply (Quit_window _ T (window_target T c ww hh) c
             (GPU_Context.mk (Some d) windowID ww hh ww hh) d
             (SW_CONTEXT_DATA.mk (Some r) (Some T)));
      unfold window_created; state_simpl;
      rewrite ?lookup_insert_eq; first [reflexivity | vm_compute; discriminate]. }
  unfold window_destroyed, window_created. state_simpl.
  rewrite decide_True by reflexivity. state_simpl.
  split; [apply delete_insert_id, fresh_lookup_None|].
  split; [apply delete_insert_id, fresh_lookup_None|].
  split; [apply delete_insert_id, fresh_lookup_None|].
  split.
  { pose proof (is_fresh (sdl_renderers s)) as Hr. fold r in Hr.
    apply set_eq. intros x. rewrite elem_of_difference, elem_of_union,
      elem_of_singleton. split; [tauto|]. intros Hx. split; [tauto|].
    intros ->. done. }
  split; [done|]. split; [done|]. split; [done|]. split; [done|].
  rewrite <- !app_assoc. reflexivity.
Qed.

Lemma create_then_quit_leaves_nothing_witness :
  ∃ T s1 s2,
    swrender_CreateTargetFromWindow (Some 7%positive) true 640 480 true true true
      1 None swrender_CreateRenderer = Ok (Some T) s1
    ∧ swrender_Quit s1 = Ok tt s2
    ∧ targets s2 = ∅ ∧ contexts s2 = ∅ ∧ context_datas s2 = ∅
    ∧ sdl_renderers s2 = ∅.
Proof.
  destruct (create_then_quit_leaves_nothing 7%positive 640 480 1
              swrender_CreateRenderer eq_refl)
    as (T & r & c & d & s1 & s2 & H1 & H2 & Ht & Hc & Hd & Hr & _).
  exists T, s1, s2. done.
Defined.

(** X9: [swrender_Quit] resets the renderer.  Whenever it returns, the
    renderer has no current context target: image creation is then refused
    with the user error, and a new window target can be created, which is
    not refused as a second window. *)
Theorem quit_resets_the_renderer (s s' : State) :
  swrender_Quit s = Ok tt s' →
  current_context_target s' = None
  ∧ (∀ image_ok image_data_ok tex_ok w h format,
       swrender_CreateImage image_ok image_data_ok tex_ok w h format s'
       = Ok None (log (GPU_PushErrorCode "GPU_CreateImage" GPU_ERROR_USER_ERROR
                         "No current context") s'))
  ∧ (∀ win ww hh windowID,
       ∃ T s'',
         swrender_CreateTargetFromWindow (Some win) true ww hh true true true
           windowID None s' = Ok (Some T) s''
         ∧ current_context_target s'' = Some T).
Proof.
  intros Hq.
  assert (Hcur : current_context_target s' = None).
  { revert Hq. unfold swrender_Quit. unfold mbind, M_bind, get_state, update.
    destruct (swrender_FreeTarget _ s) as [[] s1|s1]; [|discriminate].
    intros [= <-]. reflexivity. }
  split; [exact Hcur|]. split.
  - intros. by apply CreateImage_no_context.
  - intros win ww hh windowID. eexists _, _.
    split; [by apply CreateTargetFromWindow_ok|]. reflexivity.
Qed.

Lemma quit_resets_the_renderer_witness :
  ∃ s',
    swrender_Quit window_state = Ok tt s'
    ∧ current_context_target s' = None
    ∧ swrender_CreateImage true true true 8 8 GPU_FORMAT_RGBA s'
      = Ok None (log (GPU_PushErrorCode "GPU_CreateImage" GPU_ERROR_USER_ERROR
                        "No current context") s').
Proof.
  eexists. split; [vm_compute; reflexivity|].
  match goal with |- current_context_target ?s' = _ ∧ _ =>
    destruct (quit_resets_the_renderer window_state s'
                ltac:(vm_compute; reflexivity)) as (H1 & H2 & _)
  end.
  split; [exact H1|apply H2].
Defined.

(** ** What the operations leave alone *)

Lemma frames_bind {A B : Type} (R : State → State → Prop) (m : M A) (f : A → M B) :
  Transitive R → frames R m → (∀ a, frames R (f a)) → frames R (m ≫= f).
Proof.
  intros Htrans Hm Hf s b s''. unfold mbind, M_bind.
  destruct (m s) as [a s'|s'] eqn:Hms; [|discriminate].
  intros Hfs. exact (Htrans _ _ _ (Hm _ _ _ Hms) (Hf a _ _ _ Hfs)).
Qed.

Lemma frames_ret {A : Type} (R : State → State → Prop) (a : A) :
  Reflexive R → frames R (mret a).
Proof.
  intros Hrefl s a' s' Heq. assert (s' = s) as -> by (cbv in Heq; congruence).
  apply Hrefl.
Qed.

Lemma frames_fault {A : Type} (R : State → State → Prop) : frames R (@fault A).
Proof. intros s a s' [=]. Qed.

Lemma frames_get_state (R : State → State → Prop) : Reflexive R → frames R get_state.
Proof.
  intros Hrefl s a' s' Heq. assert (s' = s) as -> by (cbv in Heq; congruence).
  apply Hrefl.
Qed.

Lemma frames_update (R : State → State → Prop) (f : State → State) :
  (∀ s, R s (f s)) → frames R (update f).
Proof.
  intros Hf s a' s' Heq. assert (s' = f s) as -> by (cbv in Heq; congruence).
  apply Hf.
Qed.

Lemma frames_deref {T : Type} (R : State → State → Prop) (get : State → gmap addr T) p :
  Reflexive R → frames R (deref get p).
Proof.
  intros Hrefl s a s'. unfold deref.
  destruct p as [x|]; [|discriminate].
  destruct (get s !! x); [|discriminate]. intros [= _ <-]. apply Hrefl.
Qed.

Lemma frames_emit (R : State → State → Prop) (e : Event) :
  (∀ s, R s (log e s)) → frames R (emit e).
Proof. intros He. apply frames_update. exact He. Qed.

Section AccessFrames.
Context {T : Type}.
Variable R : State → State → Prop.
Variable get : State → gmap addr T.
Variable upd : (gmap addr T → gmap addr T) → State → State.
Hypothesis R_refl : Reflexive R.
Hypothesis R_trans : Transitive R.
Hypothesis R_upd : ∀ f s, R s (upd f s).
Hypothesis R_log : ∀ e s, R s (log e s).

Lemma frames_modify p f : frames R (modify get upd p f).
Proof.
  unfold modify. apply frames_bind; [done|by apply frames_deref|].
  intros v. destruct p; [|apply frames_fault]. by apply frames_update.
Qed.

Lemma frames_malloc zero ok : frames R (malloc get upd zero ok).
Proof.
  intros s a s'. unfold malloc. destruct ok; intros [= _ <-]; [apply R_upd|apply R_refl].
Qed.

Lemma frames_free b p : frames R (free get upd b p).
Proof.
  unfold free. destruct p.
  - apply frames_bind; [done|by apply frames_deref|]. intros _.
    apply frames_bind; [done|by apply frames_update|]. intros _.
    by apply frames_emit.
  - by apply frames_emit.
Qed.
End AccessFrames.

Lemma targets_kept_refl : Reflexive targets_kept.
Proof. intros s. by repeat split. Qed.

Lemma targets_kept_trans : Transitive targets_kept.
Proof.
  intros s1 s2 s3 (A1 & A2 & A3 & A4) (B1 & B2 & B3 & B4).
  repeat split; congruence.
Qed.

Lemma keeps_window_refl : Reflexive keeps_window.
Proof. intros s H. exact H. Qed.

Lemma keeps_window_trans : Transitive keeps_window.
Proof. intros s1 s2 s3 H12 H23 H. exact (H23 (H12 H)). Qed.

Lemma quiet_refl : Reflexive quiet.
Proof. intros s. by split. Qed.

Lemma quiet_trans : Transitive quiet.
Proof.
  intros s1 s2 s3 [A1 A2] [B1 B2]. split; [congruence|]. intros T H. eauto.
Qed.

(** The relations above are preorders. *)
Ltac preorder :=
  first [ assumption
        | exact targets_kept_refl | exact targets_kept_trans
        | exact keeps_window_refl | exact keeps_window_trans
        | exact quiet_refl | exact quiet_trans ].

(** One step of a proof of [frames R m] for a program built from binds,
    tests and the primitives that satisfy [R], whose side conditions [side]
    proves. *)
Ltac frames_step side :=
  lazymatch goal with
  | |- frames _ (mbind _ _) => apply frames_bind; [preorder| |]
  | |- frames _ (match ?x with _ => _ end) => destruct x
  | |- frames _ (mret _) => apply frames_ret; preorder
  | |- frames _ fault => apply frames_fault
  | |- frames _ get_state => apply frames_get_state; preorder
  | |- frames _ (deref _ _) => apply frames_deref; preorder
  | |- frames _ (update _) => apply frames_update; side
  | |- frames _ (emit _) => apply frames_emit; side
  | |- frames _ (modify _ _ _ _) => apply frames_modify; [preorder|preorder|side]
  | |- frames _ (malloc _ _ _ _) => apply frames_malloc; [preorder|side]
  | |- frames _ (free _ _ _ _) => apply frames_free; [preorder|preorder|side|side]
  | |- frames _ _ =>
      progress unfold modify_image, modify_image_data,
        modify_context_data, malloc_image, malloc_image_data,
        free_image, free_image_data,
        deref_target, deref_image, deref_context,
        deref_context_data, deref_image_data, call_SDL_CreateTexture,
        call_SDL_DestroyTexture, IMAGE_DATA, CONTEXT_DATA, SDL_RENDERER,
        SDL_RENDERER_of_target, CONTEXT_of_target, owner_data
  end.

Ltac frames_with side := repeat (intros; frames_step side).

Ltac kept_side := intros; by repeat split.

Lemma CreateImage_frames image_ok image_data_ok tex_ok w h format :
  frames targets_kept (swrender_CreateImage image_ok image_data_ok tex_ok w h format).
Proof. unfold swrender_CreateImage. frames_with kept_side. Qed.

Lemma CreateAliasImage_frames result_ok image :
  frames targets_kept (swrender_CreateAliasImage result_ok image).
Proof. unfold swrender_CreateAliasImage. frames_with kept_side. Qed.

Lemma UpdateImage_frames converted image image_rect surface surface_rect :
  frames targets_kept
    (swrender_UpdateImage converted image image_rect surface surface_rect).
Proof. unfold swrender_UpdateImage. frames_with kept_side. Qed.

Lemma UpdateImageBytes_frames image image_rect bytes bytes_per_row :
  frames targets_kept (swrender_UpdateImageBytes image image_rect bytes bytes_per_row).
Proof. unfold swrender_UpdateImageBytes. frames_with kept_side. Qed.

Lemma CopyImageFromSurface_frames image_ok image_data_ok tex_ok converted surface :
  frames targets_kept
    (swrender_CopyImageFromSurface image_ok image_data_ok tex_ok converted surface).
Proof.
  unfold swrender_CopyImageFromSurface.
  apply frames_bind; [preorder|apply CreateImage_frames|].
  intros [a|]; [|frames_with kept_side].
  apply frames_bind; [preorder|apply UpdateImage_frames|]. frames_with kept_side.
Qed.

Lemma setRenderTarget_frames target : frames targets_kept (setRenderTarget target).
Proof. unfold setRenderTarget. frames_with kept_side. Qed.

Lemma Blit_frames round image src_rect target x y :
  frames targets_kept (swrender_Blit round image src_rect target x y).
Proof.
  unfold swrender_Blit.
  apply frames_bind; [preorder|frames_with kept_side|]. intros i. cbv zeta.
  apply frames_bind; [preorder|apply setRenderTarget_frames|].
  frames_with kept_side.
Qed.

Lemma BlitTransformX_frames round image src_rect target x y px py degrees sx sy :
  frames targets_kept
    (swrender_BlitTransformX round image src_rect target x y px py degrees sx sy).
Proof.
  unfold swrender_BlitTransformX. cbv zeta.
  destruct (float_lt sx (0#1)), (float_lt sy (0#1));
    (apply frames_bind; [preorder|frames_with kept_side|]; intros src;
     apply frames_bind; [preorder|apply setRenderTarget_frames|];
     frames_with kept_side).
Qed.

Lemma anchor_pivot_frames round image src_rect :
  frames targets_kept (anchor_pivot round image src_rect).
Proof. unfold anchor_pivot. frames_with kept_side. Qed.

Lemma discard_frames {A : Type} (R : State → State → Prop) (m : M A) :
  Reflexive R → Transitive R → frames R m → frames R (API.discard m).
Proof.
  intros Hrefl Htrans Hm. unfold API.discard.
  apply frames_bind; [done|done|]. intros _. by apply frames_ret.
Qed.

Lemma on_images_frames (round : Q → float) (c : API.Call) :
  API.on_images c = true → frames targets_kept (API.run round c).
Proof.
  intros Hc. destruct c; try discriminate Hc; cbn [API.run];
    try (apply discard_frames; [preorder|preorder|]).
  - apply CreateImage_frames.
  - apply CreateAliasImage_frames.
  - apply UpdateImage_frames.
  - apply UpdateImageBytes_frames.
  - apply CopyImageFromSurface_frames.
  - apply Blit_frames.
  - unfold swrender_BlitRotate.
    apply frames_bind; [preorder|apply anchor_pivot_frames|]. intros p.
    apply BlitTransformX_frames.
  - unfold swrender_BlitScale.
    apply frames_bind; [preorder|apply anchor_pivot_frames|]. intros p.
    apply BlitTransformX_frames.
  - unfold swrender_BlitTransform.
    apply frames_bind; [preorder|apply anchor_pivot_frames|]. intros p.
    apply BlitTransformX_frames.
  - apply BlitTransformX_frames.
  - unfold swrender_ClearRGBA.
    apply frames_bind; [preorder|apply setRenderTarget_frames|].
    frames_with kept_side.
  - unfold swrender_Flip.
    apply frames_bind; [preorder|apply setRenderTarget_frames|].
    frames_with kept_side.
  - unfold swrender_Pixel.
    apply frames_bind; [preorder|apply setRenderTarget_frames|].
    frames_with kept_side.
  - unfold swrender_Line.
    apply frames_bind; [preorder|apply setRenderTarget_frames|].
    frames_with kept_side.
  - unfold swrender_Rectangle. cbv zeta.
    apply frames_bind; [preorder|apply setRenderTarget_frames|].
    frames_with kept_side.
  - unfold swrender_RectangleFilled. cbv zeta.
    apply frames_bind; [preorder|apply setRenderTarget_frames|].
    frames_with kept_side.
Qed.

(** X10: the calls on images and the drawing calls leave the targets alone.
    Creating, aliasing, updating and copying an image, the blits and the
    drawing operations, whenever they return, have created, changed and
    released no target and no Context, and have changed neither the
    renderer's current context target nor the renderers of the drawing
    library. *)
Theorem image_calls_keep_the_targets
    (round : Q → float) (c : API.Call) (s s' : State) :
  API.on_images c = true →
  API.run round c s = Ok tt s' →
  targets s' = targets s ∧ contexts s' = contexts s
  ∧ current_context_target s' = current_context_target s
  ∧ sdl_renderers s' = sdl_renderers s.
Proof.
  intros Hc Hrun. exact (on_images_frames round c Hc s tt s' Hrun).
Qed.

(** ** What [swrender_FreeTarget] changes *)

Lemma clear_back_reference_rest (tv : GPU_Target.t) (s : State) r :
  (if negb (GPU_Target.is_alias tv) && bool_decide (GPU_Target.image tv ≠ None)
   then modify_image (GPU_Target.image tv) (GPU_Image.set_target None)
   else mret tt) s = r →
  match r with
  | Ok _ s1 => sdl_renderers s1 = sdl_renderers s ∧ trace s1 = trace s
  | Fault _ => True
  end.
Proof.
  intros <-. unfold_access. unfold_monad.
  repeat case_match; simplify_eq; done.
Qed.

(** Every way a call of [swrender_FreeTarget] can return, as far as the
    targets, the Contexts and the current context target go. *)
Lemma FreeTarget_inv T s s' :
  swrender_FreeTarget (Some T) s = Ok tt s' →
  ∃ tv,
    targets s !! T = Some tv
    ∧ (∀ a, a ≠ T → targets s' !! a = targets s !! a)
    ∧ ((0 < CInt.sub (GPU_Target.refcount tv) 1
        ∧ targets s' !! T
          = Some (GPU_Target.set_refcount (CInt.sub (GPU_Target.refcount tv) 1) tv)
        ∧ current_context_target s' = current_context_target s
        ∧ contexts s' = contexts s ∧ context_datas s' = context_datas s
        ∧ sdl_renderers s' = sdl_renderers s ∧ trace s' = trace s)
       ∨ (CInt.sub (GPU_Target.refcount tv) 1 <= 0
          ∧ targets s' !! T = None
          ∧ match GPU_Target.context tv with
            | Some c =>
                current_context_target s'
                = (if decide (current_context_target s = Some T) then None
                   else current_context_target s)
                ∧ ∃ cv d cd,
                    contexts s !! c = Some cv ∧ GPU_Context.data cv = Some d
                    ∧ context_datas s !! d = Some cd
                    ∧ contexts s' = delete c (contexts s)
                    ∧ context_datas s' = delete d (context_datas s)
                    ∧ sdl_renderers s'
                      = match SW_CONTEXT_DATA.sdl_renderer cd with
                        | Some r => sdl_renderers s ∖ {[r]}
                        | None => sdl_renderers s
                        end
            | None =>
                current_context_target s' = current_context_target s
                ∧ contexts s' = contexts s
                ∧ dom (context_datas s') = dom (context_datas s)
                ∧ sdl_renderers s' = sdl_renderers s
            end)).
Proof.
  unfold_FreeTarget.
  destruct (targets s !! T) as [tv|] eqn:HT; heap_eval; [|discriminate].
  intros Hrun. exists tv. split; [reflexivity|]. revert Hrun.
  destruct (Z.gtb_spec (CInt.sub (GPU_Target.refcount tv) 1) 0) as [Hpos|Hrel].
  { intros [= <-]. state_simpl.
    split; [intros a Ha; by rewrite lookup_insert_ne|].
    left. split; [lia|]. split; [apply lookup_insert_eq|]. done. }
  set (sa := with_targets _ s).
  match goal with |- context [?blk sa] =>
    lazymatch blk with (if _ then _ else _) =>
      destruct (blk sa) as [[] sb|sb] eqn:Hblk; [|discriminate];
      pose proof (clear_back_reference_frame tv sa _ Hblk) as (Ft & Fc & Fd & Fcur);
      pose proof (clear_back_reference_textures tv sa sb Hblk) as (Kd & Kt & Ki)
    end end.
  pose proof (clear_back_reference_rest tv sa _ Hblk) as (Fr & Ftr).
  clear Hblk Kd Kt Ki. revert Ft Fc Fd Fcur Fr Ftr. unfold sa. state_simpl.
  intros Ft Fc Fd Fcur Fr Ftr.
  destruct (GPU_Target.context tv) as [c|] eqn:Hctx.
  - heap_eval.
    destruct (contexts s !! c) as [cv|] eqn:Hcv; heap_eval; [|discriminate].
    destruct (GPU_Context.data cv) as [d0|] eqn:Hd0; heap_eval; [|discriminate].
    destruct (context_datas s !! d0) as [cd0|] eqn:Hcd0; heap_eval; [|discriminate].
    destruct (SW_CONTEXT_DATA.sdl_renderer cd0) as [r|] eqn:Hr; heap_eval;
      case_decide as Hcur; heap_eval; intros [= <-]; state_simpl;
      rewrite ?Ft, ?Fc, ?Fd, ?Fr;
      (split; [intros a Ha; by rewrite lookup_delete_ne, !lookup_insert_ne|]);
      right; (split; [lia|]); (split; [apply lookup_delete_eq|]);
      (split; [by rewrite ?Fcur|]);
      exists cv, d0, cd0; rewrite Hr; done.
  - heap_eval.
    destruct (GPU_Target.context_target tv) as [W|] eqn:HW; heap_eval; [|discriminate].
    destruct (decide (W = T)) as [->|HWT].
    { heap_eval. discriminate. }
    assert (HTW : T ≠ W) by congruence.
    heap_eval.
    destruct (targets s !! W) as [wt|] eqn:HwtE; heap_eval; [|discriminate].
    destruct (GPU_Target.context wt) as [c|] eqn:Hc; heap_eval; [|discriminate].
    destruct (contexts s !! c) as [cv|] eqn:Hcv; heap_eval; [|discriminate].
    destruct (GPU_Context.data cv) as [d|] eqn:Hd; heap_eval; [|discriminate].
    destruct (context_datas s !! d) as [cd|] eqn:Hcd; heap_eval; [|discriminate].
    case_decide as Hb.
    + pose proof (setRenderTarget_inv (Some W) sb) as Hinv.
      destruct (setRenderTarget (Some W) sb) as [r s1|s1]; [|discriminate].
      destruct Hinv as (W0 & d1 & cd1 & [= <-] & Hown1 & -> & Hcase).
      assert (Hd1 : is_Some (context_datas s !! d1)).
      { destruct Hown1 as (t0 & W1 & wt1 & c1 & cv1 & G1 & G2 & G3 & G4 & G5 & G6 & G7).
        rewrite Fd in G7. eauto. }
      destruct Hcase as [[_ ->] | [_ [tex ->]]];
        heap_eval; intros [= <-]; state_simpl; rewrite ?Ft, ?Fc, ?Fd, ?Fr;
        (split; [intros a Ha; by rewrite lookup_delete_ne, lookup_insert_ne|]);
        right; (split; [lia|]); (split; [apply lookup_delete_eq|]);
        (split; [done|]); (split; [done|]); (split; [|done]).
      * done.
      * rewrite dom_insert_L.
        by apply subseteq_union_1_L, singleton_subseteq_l, elem_of_dom.
    + heap_eval. intros [= <-]. state_simpl. rewrite ?Ft, ?Fc, ?Fd, ?Fr.
      split; [intros a Ha; by rewrite lookup_delete_ne, lookup_insert_ne|].
      right. split; [lia|]. split; [apply lookup_delete_eq|]. done.
Qed.

Lemma FreeTarget_current T s s' :
  swrender_FreeTarget (Some T) s = Ok tt s' →
  current_context_target s' = current_context_target s
  ∨ (current_context_target s = Some T ∧ current_context_target s' = None).
Proof.
  intros Hrun.
  destruct (FreeTarget_inv _ _ _ Hrun) as (tv & HT & Hothers & Hcase).
  destruct Hcase as [(_ & _ & -> & _) | (_ & _ & Hc)]; [by left|].
  destruct (GPU_Target.context tv) as [c|].
  - destruct Hc as [-> _]. case_decide; [by right|by left].
  - destruct Hc as [-> _]. by left.
Qed.

Lemma FreeTarget_keeps_window target :
  frames keeps_window (swrender_FreeTarget target).
Proof.
  intros s [] s' Hrun. destruct target as [T|]; [|injection Hrun as <-; by intros ?].
  destruct (FreeTarget_inv _ _ _ Hrun) as (tv & HT & Hothers & Hcase).
  intros Hwin W HW.
  destruct (FreeTarget_current _ _ _ Hrun) as [Hsame | [_ Hnone]]; [|congruence].
  rewrite Hsame in HW. destruct (Hwin W HW) as (wt & c & Hwt & Hc).
  destruct (decide (W = T)) as [->|Hne].
  - assert (wt = tv) as -> by congruence.
    destruct Hcase as [(_ & H1 & _) | (_ & _ & Hctx)].
    + eexists _, c. split; [exact H1|exact Hc].
    + rewrite Hc in Hctx. destruct Hctx as [Hc' _].
      rewrite decide_True in Hc' by exact HW. congruence.
  - exists wt, c. by rewrite Hothers.
Qed.

(** X11: what [swrender_FreeTarget] leaves alone.  Whenever it returns, no
    target other than its argument has changed, no image data and no texture
    has changed, the images differ at most in their [target] members, and
    the current context target is what it was or has been cleared because it
    was the target released; a current context target that was a live target
    with a Context still is one.  The argument itself is either still live
    with one reference less, or released. *)
Theorem freeTarget_touches_its_target_only (T : addr) (s s' : State) :
  swrender_FreeTarget (Some T) s = Ok tt s' →
  (∀ a, a ≠ T → targets s' !! a = targets s !! a)
  ∧ (image_datas s' = image_datas s ∧ sdl_textures s' = sdl_textures s
     ∧ ∀ a, (GPU_Image.set_target None <$> (images s' !! a))
            = (GPU_Image.set_target None <$> (images s !! a)))
  ∧ (current_context_target s' = current_context_target s
     ∨ (current_context_target s = Some T ∧ current_context_target s' = None))
  ∧ (∃ tv, targets s !! T = Some tv
       ∧ (targets s' !! T = None
          ∨ (0 < CInt.sub (GPU_Target.refcount tv) 1
             ∧ targets s' !! T
               = Some (GPU_Target.set_refcount
                         (CInt.sub (GPU_Target.refcount tv) 1) tv))))
  ∧ (current_is_window s → current_is_window s').
Proof.
  intros Hrun.
  destruct (FreeTarget_textures _ _ _ Hrun) as (Kd & Kt & Ki).
  destruct (FreeTarget_inv _ _ _ Hrun) as (tv & HT & Hothers & Hcase).
  split; [exact Hothers|]. split; [by repeat split|].
  split; [exact (FreeTarget_current _ _ _ Hrun)|]. split.
  { exists tv. split; [exact HT|].
    destruct Hcase as [(Hp & H1 & _) | (_ & H1 & _)]; [by right|by left]. }
  exact (FreeTarget_keeps_window (Some T) s tt s' Hrun).
Qed.

Lemma freeTarget_touches_its_target_only_witness :
  ∃ s',
    swrender_FreeTarget (Some 2%positive) (target_state 64 64) = Ok tt s'
    ∧ targets s' !! 1%positive = targets (target_state 64 64) !! 1%positive
    ∧ sdl_textures s' = sdl_textures (target_state 64 64)
    ∧ current_context_target s' = Some 1%positive.
Proof.
  eexists. split; [vm_compute; reflexivity|].
  match goal with |- targets ?s' !! _ = _ ∧ _ =>
    destruct (freeTarget_touches_its_target_only 2%positive (target_state 64 64) s'
                ltac:(vm_compute; reflexivity))
      as (H1 & (_ & H2 & _) & _)
  end.
  split; [by apply H1|]. split; [exact H2|]. vm_compute. reflexivity.
Defined.

(** ** The current context target *)

Lemma frames_weaken {A : Type} (R R' : State → State → Prop) (m : M A) :
  (∀ s s', R s s' → R' s s') → frames R m → frames R' m.
Proof. intros Hsub Hm s a s' Hrun. exact (Hsub _ _ (Hm _ _ _ Hrun)). Qed.

Lemma targets_kept_keeps_window s s' : targets_kept s s' → keeps_window s s'.
Proof.
  intros (Ht & _ & Hc & _) Hwin W HW. rewrite Hc in HW.
  destruct (Hwin W HW) as (wt & c & Hwt & Hctx). exists wt, c. by rewrite Ht.
Qed.

(** A target struct written without a change of its [context]. *)
Lemma insert_keeps_window s T tv v :
  targets s !! T = Some tv → GPU_Target.context v = GPU_Target.context tv →
  keeps_window s (with_targets (insert T v) s).
Proof.
  intros HT Hctx Hwin W HW. destruct (Hwin W HW) as (wt & c & Hwt & Hc).
  state_simpl. destruct (decide (T = W)) as [->|Hne].
  - exists v, c. rewrite lookup_insert_eq. split; [done|]. congruence.
  - exists wt, c. by rewrite lookup_insert_ne.
Qed.

(** A target struct allocated. *)
Lemma alloc_keeps_window s T v :
  targets s !! T = None → keeps_window s (with_targets (insert T v) s).
Proof.
  intros HT Hwin W HW. destruct (Hwin W HW) as (wt & c & Hwt & Hc).
  state_simpl. exists wt, c. rewrite lookup_insert_ne by congruence. done.
Qed.

Lemma frames_modify_target_context p f :
  (∀ t, GPU_Target.context (f t) = GPU_Target.context t) →
  frames keeps_window (modify_target p f).
Proof.
  intros Hf s [] s'. unfold modify_target, modify, deref. unfold_monad.
  destruct p as [T|]; [|discriminate].
  destruct (targets s !! T) as [tv|] eqn:HT; [|discriminate].
  intros [= <-]. by apply (insert_keeps_window s T tv).
Qed.

Ltac window_side := intros; intros Hwin; exact Hwin.

Lemma FreeImage_keeps_window image : frames keeps_window (swrender_FreeImage image).
Proof.
  unfold swrender_FreeImage.
  repeat (intros; first [apply FreeTarget_keeps_window | frames_step window_side]).
Qed.

Lemma Quit_keeps_window : frames keeps_window swrender_Quit.
Proof.
  unfold swrender_Quit.
  apply frames_bind; [preorder|frames_with window_side|]. intros s0.
  apply frames_bind; [preorder|apply FreeTarget_keeps_window|]. intros _.
  apply frames_update. intros s _ W HW. discriminate HW.
Qed.

Lemma MakeCurrent_keeps_window target : frames keeps_window (swrender_MakeCurrent target).
Proof.
  intros s [] s'. unfold swrender_MakeCurrent, deref_target, deref. unfold_monad.
  destruct target as [T|]; [|intros [= <-]; by intros ?].
  destruct (targets s !! T) as [tv|] eqn:HT; [|discriminate].
  destruct (GPU_Target.context tv) as [c|] eqn:Hc; intros [= <-]; [|by intros ?].
  intros _ W [= <-]. by exists tv, c.
Qed.

Lemma LoadTarget_keeps_window target_ok image :
  frames keeps_window (swrender_LoadTarget target_ok image).
Proof.
  intros s r s' Hrun.
  destruct image as [I|]; [|injection Hrun as _ <-; by intros ?].
  destruct (images s !! I) as [i|] eqn:Hi.
  2:{ revert Hrun. unfold_ops. heap_eval. discriminate. }
  destruct (GPU_Image.target i) as [T|] eqn:Ht.
  - destruct (targets s !! T) as [tv|] eqn:HT.
    + rewrite (LoadTarget_again target_ok s I i T tv Hi Ht HT) in Hrun.
      injection Hrun as _ <-. by apply (insert_keeps_window s T tv).
    + revert Hrun. unfold_ops. heap_eval. discriminate.
  - destruct target_ok.
    + rewrite (LoadTarget_new s I i Hi Ht) in Hrun. injection Hrun as _ <-.
      unfold loaded. intros Hwin.
      apply (alloc_keeps_window s (fresh (dom (targets s)))); [|exact Hwin].
      apply fresh_lookup_None.
    + rewrite (LoadTarget_new_failed s I i Hi Ht) in Hrun.
      injection Hrun as _ <-. by intros ?.
Qed.

Lemma CreateTargetFromWindow_keeps_window window sdlr_ok ww hh target_ok context_ok
    context_data_ok windowID target :
  frames keeps_window
    (swrender_CreateTargetFromWindow window sdlr_ok ww hh target_ok context_ok
       context_data_ok windowID target).
Proof.
  intros s r s' Hrun.
  destruct target as [t|].
  { injection Hrun as _ <-. by intros ?. }
  destruct (current_context_target s) as [cur|] eqn:Hcur.
  { revert Hrun. unfold swrender_CreateTargetFromWindow. unfold_monad.
    rewrite Hcur. intros [= _ <-]. by intros ?. }
  destruct window as [win|].
  2:{ revert Hrun. unfold swrender_CreateTargetFromWindow. unfold_monad.
      rewrite Hcur. intros [= _ <-]. by intros ?. }
  destruct sdlr_ok.
  2:{ rewrite CreateTargetFromWindow_renderer_failed in Hrun by exact Hcur.
      injection Hrun as _ <-. by intros ?. }
  destruct target_ok, context_ok, context_data_ok.
  { rewrite CreateTargetFromWindow_ok in Hrun by exact Hcur.
    injection Hrun as _ <-. intros _ W [= <-].
    eexists _, _. unfold window_created. state_simpl.
    rewrite lookup_insert_eq. split; reflexivity. }
  all: intros _ W HW; exfalso; revert Hrun HW;
    pose proof (fresh_lookup_None (targets s));
    pose proof (fresh_lookup_None (contexts s));
    pose proof (fresh_lookup_None (context_datas s));
    unfold_ops; rewrite Hcur;
    remember (fresh (dom (targets s))) as T eqn:HT; symmetry in HT;
    remember (fresh (dom (contexts s))) as c eqn:Hc; symmetry in Hc;
    remember (fresh (dom (context_datas s))) as d eqn:Hd; symmetry in Hd;
    heap_eval; intros [= _ <-]; state_simpl; rewrite Hcur; discriminate.
Qed.

Lemma UnsetClip_keeps_window target : frames keeps_window (swrender_UnsetClip target).
Proof.
  unfold swrender_UnsetClip.
  apply frames_bind; [preorder|by apply frames_modify_target_context|]. intros _.
  apply frames_bind; [preorder| |].
  - apply (frames_weaken targets_kept); [apply targets_kept_keeps_window|].
    apply setRenderTarget_frames.
  - intros sdlr. apply frames_ret. preorder.
Qed.

(** Every call keeps the current context target a live window target. *)
Lemma run_keeps_window (round : Q → float) (c : API.Call) :
  frames keeps_window (API.run round c).
Proof.
  destruct (API.on_images c) eqn:Himg.
  { apply (frames_weaken targets_kept); [apply targets_kept_keeps_window|].
    by apply on_images_frames. }
  destruct c; try discriminate Himg; cbn [API.run];
    try (apply discard_frames; [preorder|preorder|]).
  - apply CreateTargetFromWindow_keeps_window.
  - apply MakeCurrent_keeps_window.
  - apply Quit_keeps_window.
  - apply FreeImage_keeps_window.
  - apply LoadTarget_keeps_window.
  - apply FreeTarget_keeps_window.
  - apply UnsetClip_keeps_window.
Qed.

(** X12: the operations of [API.Call] never leave the current context
    target dangling.  The fresh renderer has none; every call of one of
    these operations that returns leaves the current context target null or
    naming a live target that has a Context, if it was so before; hence this
    holds in every state reached from the fresh renderer by such calls that
    return.  In particular releasing the window target with
    [swrender_FreeTarget] clears the current context target, and
    [swrender_MakeCurrent] never installs a target without a Context.  The
    entries of the table that [API.Call] leaves out are not covered. *)
Theorem current_context_target_is_a_window (round : Q → float) :
  current_is_window swrender_CreateRenderer
  ∧ (∀ c s s',
       current_is_window s → API.run round c s = Ok tt s' → current_is_window s')
  ∧ (∀ cs s',
       API.run_all round cs swrender_CreateRenderer = Ok tt s' →
       current_is_window s').
Proof.
  assert (Hstep : ∀ c s s', current_is_window s →
            API.run round c s = Ok tt s' → current_is_window s').
  { intros c s s' Hwin Hrun. exact (run_keeps_window round c s tt s' Hrun Hwin). }
  assert (Hinit : current_is_window swrender_CreateRenderer).
  { intros W HW. discriminate HW. }
  split; [exact Hinit|]. split; [exact Hstep|].
  intros cs. generalize swrender_CreateRenderer, Hinit.
  induction cs as [|c cs IH]; intros s Hwin s'.
  - intros [= <-]. exact Hwin.
  - cbn [API.run_all]. unfold mbind, M_bind.
    destruct (API.run round c s) as [[] s1|s1] eqn:Hc; [|discriminate].
    intros Hrest. exact (IH s1 (Hstep c s s1 Hwin Hc) s' Hrest).
Qed.

(** ** Drawing: the destination is bound first *)

Lemma setRenderTarget_binds target : frames (binds target) (setRenderTarget target).
Proof.
  intros s r s' Hrun.
  pose proof (setRenderTarget_calls target s) as [Hle Hb]. cbv zeta in Hle, Hb.
  rewrite Hrun in Hle, Hb. cbn [final_state] in Hle, Hb.
  destruct (Hb r eq_refl) as (T & -> & Hbound).
  exists T. split; [done|]. split; [exact Hbound|]. split; [exact Hle|].
  intros (d & cd & Hown & Hc).
  rewrite (setRenderTarget_hit _ _ _ _ Hown Hc) in Hrun. by injection Hrun as _ <-.
Qed.

Lemma binds_after_quiet {A B : Type} target (pre : M A) (k : A → M B) :
  frames quiet pre → (∀ v, frames (binds target) (k v)) →
  frames (binds target) (pre ≫= k).
Proof.
  intros Hpre Hk s b s''. unfold mbind, M_bind.
  destruct (pre s) as [v s'|s'] eqn:Hp; [|discriminate].
  intros Hrun. destruct (Hpre _ _ _ Hp) as [Htr Hbd].
  destruct (Hk v _ _ _ Hrun) as (T & -> & Hb & Hle & Hsame).
  exists T. split; [done|]. split; [exact Hb|]. rewrite <- Htr.
  split; [exact Hle|]. intros HbT. apply Hsame. by apply Hbd.
Qed.

Lemma binds_then_quiet {A B : Type} target (m : M A) (k : A → M B) :
  frames (binds target) m → (∀ v, frames quiet (k v)) →
  frames (binds target) (m ≫= k).
Proof.
  intros Hm Hk s b s''. unfold mbind, M_bind.
  destruct (m s) as [v s'|s'] eqn:Hms; [|discriminate].
  intros Hrun. destruct (Hk v _ _ _ Hrun) as [Htr Hbd].
  destruct (Hm _ _ _ Hms) as (T & -> & Hb & Hle & Hsame).
  exists T. split; [done|]. split; [by apply Hbd|]. rewrite Htr. by split.
Qed.

Ltac quiet_side :=
  intros; split;
  [ cbn [trace log with_trace]; rewrite ?set_destination_calls_snoc;
    cbn [is_SetRenderTarget]; lia
  | done ].

(** A target struct written without a change of what leads to its
    Context's record. *)
Lemma insert_quiet s X tv v :
  targets s !! X = Some tv →
  GPU_Target.context_target v = GPU_Target.context_target tv →
  GPU_Target.context v = GPU_Target.context tv →
  quiet s (with_targets (insert X v) s).
Proof.
  intros HX Hct Hc. split; [reflexivity|].
  intros T (d & cd & (t & W & wt & c & cv & Ht & HW & Hwt & Hcx & Hcv & Hd & Hcd) & Hb).
  exists d, cd. split; [|exact Hb].
  assert (Hlook : ∀ a u, targets s !! a = Some u →
            ∃ u', (<[X:=v]> (targets s)) !! a = Some u'
                  ∧ GPU_Target.context_target u' = GPU_Target.context_target u
                  ∧ GPU_Target.context u' = GPU_Target.context u).
  { intros a u Ha. destruct (decide (X = a)) as [->|Hne].
    - rewrite lookup_insert_eq. exists v. split; [done|]. split; congruence.
    - rewrite lookup_insert_ne by done. by exists u. }
  destruct (Hlook T t Ht) as (t' & Ht' & E1 & E2).
  destruct (Hlook W wt Hwt) as (wt' & Hwt' & F1 & F2).
  exists t', W, wt', c, cv. state_simpl.
  split; [exact Ht'|]. split; [congruence|]. split; [exact Hwt'|].
  split; [congruence|]. done.
Qed.

Lemma UnsetClip_binds target : frames (binds target) (swrender_UnsetClip target).
Proof.
  unfold swrender_UnsetClip. apply binds_after_quiet.
  - intros s [] s'. unfold modify_target, modify, deref. unfold_monad.
    destruct target as [T|]; [|discriminate].
    destruct (targets s !! T) as [tv|] eqn:HT; [|discriminate].
    intros [= <-]. by apply (insert_quiet s T tv).
  - intros _. apply binds_then_quiet; [apply setRenderTarget_binds|].
    intros sdlr. apply frames_ret. preorder.
Qed.

Lemma BlitTransformX_binds round image src_rect target x y px py degrees sx sy :
  frames (binds target)
    (swrender_BlitTransformX round image src_rect target x y px py degrees sx sy).
Proof.
  unfold swrender_BlitTransformX. cbv zeta.
  destruct (float_lt sx (0#1)), (float_lt sy (0#1));
    (apply binds_after_quiet; [frames_with quiet_side|]; intros src;
     apply binds_then_quiet; [apply setRenderTarget_binds|];
     frames_with quiet_side).
Qed.

Lemma anchor_pivot_quiet round image src_rect :
  frames quiet (anchor_pivot round image src_rect).
Proof. unfold anchor_pivot. frames_with quiet_side. Qed.

Lemma Blit_binds round image src_rect target x y :
  frames (binds target) (swrender_Blit round image src_rect target x y).
Proof.
  unfold swrender_Blit.
  apply binds_after_quiet; [frames_with quiet_side|]. intros i. cbv zeta.
  apply binds_then_quiet; [apply setRenderTarget_binds|].
  frames_with quiet_side.
Qed.

Lemma discard_binds {A : Type} target (m : M A) :
  frames (binds target) m → frames (binds target) (API.discard m).
Proof.
  intros Hm. unfold API.discard. apply binds_then_quiet; [exact Hm|].
  intros _. apply frames_ret. preorder.
Qed.

Lemma run_binds (round : Q → float) (c : API.Call) (target : option addr) :
  API.destination c = Some target → frames (binds target) (API.run round c).
Proof.
  intros Hd. destruct c; try discriminate Hd; injection Hd as <-; cbn [API.run];
    try apply discard_binds.
  - apply Blit_binds.
  - unfold swrender_BlitRotate.
    apply binds_after_quiet; [apply anchor_pivot_quiet|]. intros p.
    apply BlitTransformX_binds.
  - unfold swrender_BlitScale.
    apply binds_after_quiet; [apply anchor_pivot_quiet|]. intros p.
    apply BlitTransformX_binds.
  - unfold swrender_BlitTransform.
    apply binds_after_quiet; [apply anchor_pivot_quiet|]. intros p.
    apply BlitTransformX_binds.
  - apply BlitTransformX_binds.
  - apply UnsetClip_binds.
  - unfold swrender_ClearRGBA.
    apply binds_then_quiet; [apply setRenderTarget_binds|]. frames_with quiet_side.
  - unfold swrender_Flip.
    apply binds_then_quiet; [apply setRenderTarget_binds|]. frames_with quiet_side.
  - unfold swrender_Pixel.
    apply binds_then_quiet; [apply setRenderTarget_binds|]. frames_with quiet_side.
  - unfold swrender_Line.
    apply binds_then_quiet; [apply setRenderTarget_binds|]. frames_with quiet_side.
  - unfold swrender_Rectangle. cbv zeta.
    apply binds_then_quiet; [apply setRenderTarget_binds|]. frames_with quiet_side.
  - unfold swrender_RectangleFilled. cbv zeta.
    apply binds_then_quiet; [apply setRenderTarget_binds|]. frames_with quiet_side.
Qed.

(** X13: every drawing call binds its target before it draws.  A blit, a
    clear, a flip, a pixel, a line, a rectangle or a change of the clip
    rectangle that returns has left its target the bound destination of the
    target's Context; it told the drawing library to switch its destination
    at most once, and not at all when the target was bound already.  So any
    two drawing calls in a row on one target, of whatever kind, switch the
    destination at most once between them. *)
Theorem drawing_calls_bind_their_target (round : Q → float) :
  (∀ c target s s',
     API.destination c = Some target →
     API.run round c s = Ok tt s' →
     ∃ T, target = Some T ∧ bound s' T
       ∧ (set_destination_calls (trace s')
          <= set_destination_calls (trace s) + 1)%nat
       ∧ (bound s T →
          set_destination_calls (trace s') = set_destination_calls (trace s)))
  ∧ (∀ c1 c2 target s s',
       API.destination c1 = Some target → API.destination c2 = Some target →
       (API.run round c1;; API.run round c2) s = Ok tt s' →
       (set_destination_calls (trace s')
        <= set_destination_calls (trace s) + 1)%nat).
Proof.
  split.
  - intros c target s s' Hd Hrun. exact (run_binds round c target Hd s tt s' Hrun).
  - intros c1 c2 target s s' Hd1 Hd2. unfold mbind, M_bind.
    destruct (API.run round c1 s) as [[] s1|s1] eqn:H1; [|discriminate].
    intros H2.
    destruct (run_binds round c1 target Hd1 s tt s1 H1) as (T & -> & Hb & Hle & _).
    destruct (run_binds round c2 (Some T) Hd2 s1 tt s' H2)
      as (T' & [= <-] & _ & _ & Hsame).
    rewrite (Hsame Hb). exact Hle.
Qed.

(** ** The bind on a miss *)

Lemma setRenderTarget_miss_window s T t d cd :
  owner_cache s T d cd → SW_CONTEXT_DATA.render_target cd ≠ Some T →
  targets s !! T = Some t → GPU_Target.image t = None →
  setRenderTarget (Some T) s
  = Ok (SW_CONTEXT_DATA.sdl_renderer cd)
       (log (SDL_SetRenderTarget (SW_CONTEXT_DATA.sdl_renderer cd) None)
          (rebind T d cd s)).
Proof.
  intros Hown Hne HT Him. unfold setRenderTarget. unfold mbind, M_bind.
  rewrite (SDL_RENDERER_of_target_eval _ _ _ _ Hown), (owner_data_eval _ _ _ _ Hown).
  pose proof Hown as (t0 & W & wt & c & cv & Ht & HW & Hwt & Hcx & Hcv & Hd & Hcd).
  unfold deref_context_data, deref. rewrite Hcd.
  rewrite decide_True by exact Hne. rewrite (owner_data_eval _ _ _ _ Hown).
  unfold modify_context_data, modify, deref_target, deref. unfold_monad.
  rewrite Hcd. state_simpl. rewrite HT, Him. reflexivity.
Qed.

Lemma setRenderTarget_miss_offscreen s T t d cd I i di idv :
  owner_cache s T d cd → SW_CONTEXT_DATA.render_target cd ≠ Some T →
  targets s !! T = Some t → GPU_Target.image t = Some I →
  images s !! I = Some i → GPU_Image.data i = Some di →
  image_datas s !! di = Some idv →
  setRenderTarget (Some T) s
  = Ok (SW_CONTEXT_DATA.sdl_renderer cd)
       (log (SDL_SetRenderTarget (SW_CONTEXT_DATA.sdl_renderer cd)
               (SW_IMAGE_DATA.tex idv))
          (rebind T d cd s)).
Proof.
  intros Hown Hne HT Him Hi Hdi Hidv. unfold setRenderTarget. unfold mbind, M_bind.
  rewrite (SDL_RENDERER_of_target_eval _ _ _ _ Hown), (owner_data_eval _ _ _ _ Hown).
  pose proof Hown as (t0 & W & wt & c & cv & Ht & HW & Hwt & Hcx & Hcv & Hd & Hcd).
  unfold deref_context_data, deref. rewrite Hcd.
  rewrite decide_True by exact Hne. rewrite (owner_data_eval _ _ _ _ Hown).
  unfold modify_context_data, modify, deref_target, IMAGE_DATA, deref_image,
    deref_image_data, deref.
  unfold_monad. rewrite Hcd. state_simpl. rewrite HT, Him. cbv beta iota.
  state_simpl. rewrite Hi. cbv beta iota. rewrite Hdi. state_simpl.
  rewrite Hidv. reflexivity.
Qed.

(** X14: what a bind does when the target is not the bound destination.
    For a target [T] whose Context's record holds another target (or none),
    [setRenderTarget] writes [T] into the record, tells the drawing library
    to switch the renderer's destination, and returns the renderer: the
    destination is the window (a null texture) when [T] has no image, and
    the texture of its image otherwise.  Nothing else changes, and [T] is
    then the bound destination, so that a second bind does nothing. *)
Theorem bind_switches_the_destination
    (s : State) (T d : addr) (t : GPU_Target.t) (cd : SW_CONTEXT_DATA.t) :
  owner_cache s T d cd → SW_CONTEXT_DATA.render_target cd ≠ Some T →
  targets s !! T = Some t →
  let sdlr := SW_CONTEXT_DATA.sdl_renderer cd in
  (GPU_Target.image t = None →
   setRenderTarget (Some T) s
   = Ok sdlr (log (SDL_SetRenderTarget sdlr None) (rebind T d cd s)))
  ∧ (∀ I i di idv,
       GPU_Target.image t = Some I → images s !! I = Some i →
       GPU_Image.data i = Some di → image_datas s !! di = Some idv →
       setRenderTarget (Some T) s
       = Ok sdlr (log (SDL_SetRenderTarget sdlr (SW_IMAGE_DATA.tex idv))
                    (rebind T d cd s)))
  ∧ (∀ tex,
       let s' := log (SDL_SetRenderTarget sdlr tex) (rebind T d cd s) in
       bound s' T ∧ setRenderTarget (Some T) s' = Ok sdlr s').
Proof.
  intros Hown Hne HT. cbv zeta. split; [|split].
  - intros Him. by apply (setRenderTarget_miss_window s T t).
  - intros I i di idv Him Hi Hdi Hidv.
    by apply (setRenderTarget_miss_offscreen s T t d cd I i di idv).
  - intros tex.
    pose proof (bound_rebind s T d cd Hown) as Hb.
    split; [exact Hb|].
    destruct Hown as (t0 & W & wt & c & cv & Ht & HW & Hwt & Hcx & Hcv & Hd & Hcd).
    apply (setRenderTarget_hit _ T d (SW_CONTEXT_DATA.set_render_target (Some T) cd));
      [|reflexivity].
    exists t0, W, wt, c, cv. state_simpl. rewrite lookup_insert_eq. done.
Qed.

Lemma bind_switches_the_destination_witness :
  setRenderTarget (Some 1%positive) (bound_state 64 64)
  = Ok (Some 1%positive)
       (log (SDL_SetRenderTarget (Some 1%positive) None)
          (rebind 1%positive 1%positive
             (SW_CONTEXT_DATA.mk (Some 1%positive) (Some 2%positive))
             (bound_state 64 64))).
Proof.
  apply (proj1 (bind_switches_the_destination (bound_state 64 64) 1%positive 1%positive
                  (target_at (bound_state 64 64) 1%positive)
                  (SW_CONTEXT_DATA.mk (Some 1%positive) (Some 2%positive))
                  ltac:(exists (target_at (bound_state 64 64) 1%positive), 1%positive,
                          (target_at (bound_state 64 64) 1%positive), 1%positive,
                          (context_at (bound_state 64 64) 1%positive);
                        repeat split; vm_compute; reflexivity)
                  ltac:(discriminate)
                  ltac:(vm_compute; reflexivity))).
  vm_compute. reflexivity.
Defined.

(** ** Mirrored blits *)

Lemma Qopp_opp (q : Q) : (- - q)%Q = q.
Proof. destruct q as [n d]. unfold Qopp. cbn. by rewrite Z.opp_involutive. Qed.

Lemma float_lt_neg (q : Q) :
  (0 < q)%Q → float_lt (- q)%Q (0#1) = true ∧ float_lt q (0#1) = false.
Proof.
  intros Hq. unfold float_lt. split.
  - apply negb_true_iff. apply not_true_iff_false. rewrite Qle_bool_iff.
    intros Hle. apply (Qlt_irrefl 0). apply (Qlt_le_trans _ q); [exact Hq|].
    apply (Qplus_le_l _ _ (- q)). rewrite Qplus_opp_r, Qplus_0_l. exact Hle.
  - apply negb_false_iff. rewrite Qle_bool_iff. by apply Qlt_le_weak.
Qed.

(** X15: a negative scale factor mirrors the image.  For a positive
    [scaleX], [swrender_BlitTransformX] with [- scaleX] does exactly what it
    does with [scaleX], in the state and in the calls it makes, except that
    the one [SDL_RenderCopyEx] call carries the horizontal flip bit: the
    destination rectangle and the rotation center are computed from the
    absolute value.  The same holds for [scaleY] and the vertical flip
    bit.  This does not depend on how float products are rounded. *)
Theorem negative_scale_mirrors
    (round : Q → float) (image : option addr) (src_rect : option GPU_Rect.t)
    (target : option addr) (x y pivot_x pivot_y degrees scaleX scaleY : float)
    (s : State) :
  ((0 < scaleX)%Q →
   swrender_BlitTransformX round image src_rect target x y pivot_x pivot_y
     degrees (- scaleX)%Q scaleY s
   = (calls ← swrender_BlitTransformX round image src_rect target x y pivot_x
                pivot_y degrees scaleX scaleY;
      mret (toggle_flip SDL_FLIP_HORIZONTAL <$> calls)) s)
  ∧ ((0 < scaleY)%Q →
     swrender_BlitTransformX round image src_rect target x y pivot_x pivot_y
       degrees scaleX (- scaleY)%Q s
     = (calls ← swrender_BlitTransformX round image src_rect target x y pivot_x
                  pivot_y degrees scaleX scaleY;
        mret (toggle_flip SDL_FLIP_VERTICAL <$> calls)) s).
Proof.
  split.
  - intros Hx. destruct (float_lt_neg scaleX Hx) as [Hn Hp].
    unfold swrender_BlitTransformX. cbv zeta. rewrite Hn, Hp, Qopp_opp.
    destruct (float_lt scaleY (0#1)); unfold_monad;
      repeat (case_match; try reflexivity).
  - intros Hy. destruct (float_lt_neg scaleY Hy) as [Hn Hp].
    unfold swrender_BlitTransformX. cbv zeta. rewrite Hn, Hp, Qopp_opp.
    destruct (float_lt scaleX (0#1)); unfold_monad;
      repeat (case_match; try reflexivity).
Qed.

Lemma negative_scale_mirrors_witness :
  swrender_BlitTransformX (λ q, q) (Some 1%positive) None (Some 1%positive)
    (10#1) (20#1) (0#1) (0#1) (0#1) (- (2#1))%Q (1#2) (image_state 64 64)
  = Ok [SDL_RenderCopyEx (Some 1%positive) (Some 1%positive)
          (SDL_Rect.mk 0 0 64 64) (SDL_Rect.mk 10 20 128 32) (0#1) (0, 0)
          SDL_FLIP_HORIZONTAL]
       (image_state 64 64).
Proof.
  rewrite (proj1 (negative_scale_mirrors (λ q, q) (Some 1%positive) None
                    (Some 1%positive) (10#1) (20#1) (0#1) (0#1) (0#1) (2#1) (1#2)
                    (image_state 64 64)) ltac:(reflexivity)).
  vm_compute. reflexivity.
Defined.

(** ** Images, from creation to release *)

(** X16: creating an image and freeing it leaves nothing behind.  With a
    current window target, a successful [swrender_CreateImage] followed by
    [swrender_FreeImage] of the image destroys the texture it created and
    releases the image data and the image; the heap and the live textures
    are then exactly what they were before. *)
Theorem createImage_then_freeImage_leaves_nothing
    (w h : Z) (format : GPU_FormatEnum) (s : State) (sdlr : option addr) :
  has_context s sdlr →
  format = GPU_FORMAT_RGB ∨ format = GPU_FORMAT_RGBA →
  ∃ a d tex sdl_format s1 s2,
    swrender_CreateImage true true true w h format s = Ok (Some a) s1
    ∧ swrender_FreeImage (Some a) s1 = Ok tt s2
    ∧ images s2 = images s ∧ image_datas s2 = image_datas s
    ∧ sdl_textures s2 = sdl_textures s
    ∧ targets s2 = targets s ∧ contexts s2 = contexts s
    ∧ context_datas s2 = context_datas s
    ∧ current_context_target s2 = current_context_target s
    ∧ trace s2
      = trace s ++ [SDL_CreateTexture sdlr sdl_format w h;
                    SDL_SetTextureBlendMode (Some tex) SDL_BLENDMODE_BLEND;
                    SDL_DestroyTexture (Some tex);
                    SDL_free BImageData (Some d); SDL_free BImage (Some a)].
Proof.
  intros Hctx Hf.
  destruct (sdl_format_of_supported format Hf) as (sf & nl & Hsf).
  pose proof (CreateImage_ok w h format sf nl 4 s sdlr Hctx Hsf) as H1.
  cbv zeta in H1.
  set (a := fresh (dom (images s))) in *.
  set (d := fresh (dom (image_datas s))) in *.
  set (tex := fresh (sdl_textures s)) in *.
  exists a, d, tex, sf. eexists _, _. split; [exact H1|].
  split.
  { apply (FreeImage_destroys_texture _ a
             (created_image s w h format sf nl 4 d) d
             (SW_IMAGE_DATA.mk 1 sf (Some tex)));
      state_simpl; rewrite ?lookup_insert_eq;
      first [reflexivity | vm_compute; discriminate]. }
  unfold image_destroyed. state_simpl.
  split; [apply delete_insert_id, fresh_lookup_None|].
  split; [apply delete_insert_id, fresh_lookup_None|].
  split.
  { pose proof (is_fresh (sdl_textures s)) as Ht. fold tex in Ht.
    apply set_eq. intros x. rewrite elem_of_difference, elem_of_union,
      elem_of_singleton. split; [tauto|]. intros Hx. split; [tauto|].
    intros ->. done. }
  split; [done|]. split; [done|]. split; [done|]. split; [done|].
  rewrite <- !app_assoc. reflexivity.
Qed.

Lemma createImage_then_freeImage_leaves_nothing_witness :
  ∃ a s1 s2,
    swrender_CreateImage true true true 64 64 GPU_FORMAT_RGBA window_state
    = Ok (Some a) s1
    ∧ swrender_FreeImage (Some a) s1 = Ok tt s2
    ∧ images s2 = images window_state
    ∧ sdl_textures s2 = sdl_textures window_state.
Proof.
  destruct (createImage_then_freeImage_leaves_nothing 64 64 GPU_FORMAT_RGBA
              window_state (Some 1%positive) window_state_has_context
              (or_intror eq_refl))
    as (a & d & tex & sf & s1 & s2 & H1 & H2 & Hi & _ & Ht & _).
  exists a, s1, s2. done.
Defined.

(** X17: a loaded target can outlive its image.  [swrender_FreeImage] gives
    up one reference of the image's derived target.  When the target holds
    two (it was loaded twice), freeing the last handle of the image leaves
    the target live with one reference and with its [image] member still
    naming the image, which is released; the [swrender_FreeTarget] that
    then takes the last reference clears the back-reference through that
    member, in released storage. *)
Theorem loaded_target_outlives_its_image
    (s : State) (I T d : addr) (i : GPU_Image.t) (tv : GPU_Target.t)
    (idv : SW_IMAGE_DATA.t) :
  images s !! I = Some i → GPU_Image.refcount i = 1 →
  GPU_Image.target i = Some T → GPU_Image.data i = Some d →
  image_datas s !! d = Some idv →
  targets s !! T = Some tv → GPU_Target.refcount tv = 2 →
  GPU_Target.is_alias tv = false → GPU_Target.image tv = Some I →
  ∃ s1 s2,
    swrender_FreeImage (Some I) s = Ok tt s1
    ∧ images s1 !! I = None
    ∧ targets s1 !! T = Some (GPU_Target.set_refcount 1 tv)
    ∧ swrender_FreeTarget (Some T) s1 = Fault s2.
Proof.
  intros Hi Hrc Ht Hd Hid HT Htrc Hal Him.
  assert (Hrun : ∃ s1, swrender_FreeImage (Some I) s = Ok tt s1
            ∧ images s1 = delete I (images s)
            ∧ targets s1 = <[T:=GPU_Target.set_refcount 1 tv]> (targets s)).
  { unfold_FreeImage. heap_eval.
    rewrite (FreeTarget_still_referenced _ T tv)
      by (state_simpl; first [exact HT | rewrite Htrc; vm_compute; reflexivity]).
    heap_eval.
    destruct (Z.leb_spec (CInt.sub (SW_IMAGE_DATA.refcount idv) 1) 0);
      [destruct (SW_IMAGE_DATA.tex idv)|]; heap_eval;
      (eexists; split; [reflexivity|]); state_simpl;
      rewrite ?delete_insert_eq; done. }
  destruct Hrun as (s1 & Hrun & Hi1 & Ht1).
  assert (HI1 : images s1 !! I = None) by (rewrite Hi1; apply lookup_delete_eq).
  assert (HT1 : targets s1 !! T = Some (GPU_Target.set_refcount 1 tv))
    by (rewrite Ht1; apply lookup_insert_eq).
  eexists s1, _. split; [exact Hrun|]. split; [exact HI1|]. split; [exact HT1|].
  unfold_FreeTarget. rewrite HT1. cbv beta iota. state_simpl.
  rewrite lookup_insert_eq. cbv beta iota. state_simpl. cint_eval. cbv beta iota.
  rewrite Hal, Him. rewrite bool_decide_true by done. cbn [negb andb].
  unfold modify_image, modify, deref. unfold_monad. state_simpl.
  rewrite HI1. reflexivity.
Qed.

Lemma loaded_target_outlives_its_image_witness :
  let s :=
    final_state (swrender_LoadTarget true (Some 1%positive) (target_state 64 64)) in
  ∃ s1 s2,
    swrender_FreeImage (Some 1%positive) s = Ok tt s1
    ∧ images s1 !! 1%positive = None
    ∧ (GPU_Target.image <$> (targets s1 !! 2%positive)) = Some (Some 1%positive)
    ∧ swrender_FreeTarget (Some 2%positive) s1 = Fault s2.
Proof.
  cbv zeta.
  set (s := final_state (swrender_LoadTarget true (Some 1%positive)
                           (target_state 64 64))).
  destruct (loaded_target_outlives_its_image s 1%positive 2%positive 1%positive
              (image_at s 1%positive) (target_at s 2%positive)
              (image_data_at s 1%positive)
              ltac:(vm_compute; reflexivity) ltac:(vm_compute; reflexivity)
              ltac:(vm_compute; reflexivity) ltac:(vm_compute; reflexivity)
              ltac:(vm_compute; reflexivity) ltac:(vm_compute; reflexivity)
              ltac:(vm_compute; reflexivity) ltac:(vm_compute; reflexivity)
              ltac:(vm_compute; reflexivity))
    as (s1 & s2 & H1 & H2 & H3 & H4).
  exists s1, s2. split; [exact H1|]. split; [exact H2|]. split; [|exact H4].
  etransitivity; [exact (f_equal (fmap GPU_Target.image) H3)|].
  vm_compute. reflexivity.
Defined.

(** ** The theorems on calls, at concrete inputs *)

Lemma image_calls_keep_the_targets_witness :
  ∃ s',
    API.run (λ q, q) (API.CreateAliasImage true (Some 1%positive)) (image_state 64 64)
    = Ok tt s'
    ∧ targets s' = targets (image_state 64 64)
    ∧ current_context_target s' = current_context_target (image_state 64 64).
Proof.
  eexists. split; [vm_compute; reflexivity|].
  match goal with |- targets ?s' = _ ∧ _ =>
    destruct (image_calls_keep_the_targets (λ q, q)
                (API.CreateAliasImage true (Some 1%positive)) (image_state 64 64) s'
                eq_refl ltac:(vm_compute; reflexivity))
      as (H1 & _ & H2 & _)
  end.
  split; [exact H1|exact H2].
Defined.

Lemma current_context_target_is_a_window_witness :
  ∃ s',
    API.run_all (λ q, q)
      [API.CreateTargetFromWindow (Some 7%positive) true 640 480 true true true 1 None;
       API.CreateImage true true true 64 64 GPU_FORMAT_RGBA;
       API.LoadTarget true (Some 1%positive);
       API.MakeCurrent (Some 2%positive);
       API.FreeTarget (Some 1%positive)]
      swrender_CreateRenderer
    = Ok tt s'
    ∧ current_context_target s' = None ∧ current_is_window s'.
Proof.
  eexists. split; [vm_compute; reflexivity|]. split; [vm_compute; reflexivity|].
  apply (proj2 (proj2 (current_context_target_is_a_window (λ q, q)))
           [API.CreateTargetFromWindow (Some 7%positive) true 640 480 true true true
              1 None;
            API.CreateImage true true true 64 64 GPU_FORMAT_RGBA;
            API.LoadTarget true (Some 1%positive);
            API.MakeCurrent (Some 2%positive);
            API.FreeTarget (Some 1%positive)]).
  vm_compute. reflexivity.
Defined.

Lemma drawing_calls_bind_their_target_witness :
  ∃ s',
    (API.run (λ q, q) (API.ClearRGBA (Some 2%positive) 0 0 0 255);;
     API.run (λ q, q)
       (API.RectangleFilled (Some 2%positive) (1#1) (1#1) (9#1) (9#1)
          (SDL_Color.mk 255 0 0 255))) (target_state 64 64)
    = Ok tt s'
    ∧ (set_destination_calls (trace s')
       <= set_destination_calls (trace (target_state 64 64)) + 1)%nat.
Proof.
  eexists. split; [vm_compute; reflexivity|].
  apply (proj2 (drawing_calls_bind_their_target (λ q, q))
           (API.ClearRGBA (Some 2%positive) 0 0 0 255)
           (API.RectangleFilled (Some 2%positive) (1#1) (1#1) (9#1) (9#1)
              (SDL_Color.mk 255 0 0 255))
           (Some 2%positive) (target_state 64 64));
    [reflexivity|reflexivity|vm_compute; reflexivity].
Defined.
